(** * Neurana SDK: request engine, error taxonomy, step orchestrator and
      client configuration, embedded from the TypeScript sources.

    Sources embedded here:
    - src/errors.ts (the error classes)
    - src/http.ts (class HttpClient)
    - src/constants (HTTP_STATUS, TIMEOUTS, RETRY, BASE_URL, ENDPOINTS)
    - src/resources/workflows.ts (class WorkflowsResource)
    - src/client.ts (class NeuranaClient)
    - src/utils/file-utils.ts (file names, keys, extensions, sizes)
    - src/resources/code.ts (CodeResource.upload)
    - src/logger.ts (class Logger)

    Conventions.  Milliseconds and status codes are [Z]; the number
    that [parseInt] reads is a [JsNumber], a double.
    A JavaScript string is a [string] whose characters are read as code
    units below 256.  A thrown value is a [Thrown]; a promise that can
    reject is a [Result Thrown _].  Timers, sleeps and network calls are
    recorded, with their virtual time, in an explicit [World]. *)

From Stdlib Require Import ZArith String Ascii List Bool Lia.
From stdpp Require Import base option gmap strings list pretty.

Local Open Scope string_scope.
Local Open Scope Z_scope.
Local Open Scope list_scope.

(** ** Results of fallible computations *)

Inductive Result (E A : Type) : Type :=
| Ok (a : A)
| Err (e : E).
Arguments Ok {E A} a.
Arguments Err {E A} e.

Definition isOk {E A} (r : Result E A) : bool :=
  match r with Ok _ => true | Err _ => false end.

(** ** JavaScript numbers *)

(** The numbers the embedded code computes: integers, and the two
    infinities that [parseInt] yields beyond the largest double.  NaN is
    the absence of a number, [None]; negative zero is not told from
    zero. *)
Inductive JsNumber : Type :=
| NumInt (n : Z)
| NumInf (negative : bool).

(** The double nearest to a natural number: the number itself below
    2^53; above, the nearest number with 53 significant bits, a tie
    going to the even one; Infinity from 2^1024 on. *)
Definition roundToDouble (n : Z) : JsNumber :=
  if n <? 2 ^ 53 then NumInt n
  else
    let e := Z.log2 n - 52 in
    let q := n / 2 ^ e in
    let r := n mod 2 ^ e in
    let half := 2 ^ (e - 1) in
    let q' := if (half <? r) || ((r =? half) && Z.odd q) then q + 1 else q in
    if 2 ^ 1024 <=? q' * 2 ^ e then NumInf false else NumInt (q' * 2 ^ e).

Definition negateNumber (x : JsNumber) : JsNumber :=
  match x with
  | NumInt n => NumInt (- n)
  | NumInf negative => NumInf (negb negative)
  end.

(** [x < 0]. *)
Definition isNegative (x : JsNumber) : bool :=
  match x with
  | NumInt n => n <? 0
  | NumInf negative => negative
  end.

(** ** JavaScript strings *)

Module JsString.

(** [String.prototype.startsWith]. *)
Definition startsWith (s p : string) : bool := String.prefix p s.

(** [String.prototype.includes]: [sub] occurs somewhere in [s]. *)
Fixpoint includes (s sub : string) : bool :=
  String.prefix sub s ||
  match s with
  | EmptyString => false
  | String _ s' => includes s' sub
  end.

(** White space and line terminators below code unit 256:
    TAB, LF, VT, FF, CR, SP and NBSP. *)
Definition isWhiteSpace (c : ascii) : bool :=
  let n := nat_of_ascii c in
  ((9 <=? n)%nat && (n <=? 13)%nat) || (n =? 32)%nat || (n =? 160)%nat.

Fixpoint trimStart (s : string) : string :=
  match s with
  | EmptyString => EmptyString
  | String c s' => if isWhiteSpace c then trimStart s' else s
  end.

Definition reverse (s : string) : string :=
  string_of_list_ascii (rev (list_ascii_of_string s)).

Definition trimEnd (s : string) : string := reverse (trimStart (reverse s)).

(** [String.prototype.trim]. *)
Definition trim (s : string) : string := trimEnd (trimStart s).

Definition isEmpty (s : string) : bool :=
  match s with EmptyString => true | _ => false end.

(** [s.split(sep)[0]] for a one-character separator: the part of [s]
    before the first [sep]. *)
Fixpoint beforeFirst (sep : ascii) (s : string) : string :=
  match s with
  | EmptyString => EmptyString
  | String c s' => if Ascii.eqb c sep then EmptyString else String c (beforeFirst sep s')
  end.

(** [s.replace(/\/$/, '')]: drop one trailing slash. *)
Definition stripTrailingSlash (s : string) : string :=
  match reverse s with
  | String "/" r => reverse r
  | _ => s
  end.

Definition digitValue (c : ascii) : option Z :=
  let n := nat_of_ascii c in
  if (48 <=? n)%nat && (n <=? 57)%nat then Some (Z.of_nat (n - 48)) else None.

(** The longest prefix of decimal digits, read as a number; [None]
    when [s] does not start with a digit and nothing was read yet. *)
Fixpoint parseDigits (acc : option Z) (s : string) : option Z :=
  match s with
  | EmptyString => acc
  | String c s' =>
      match digitValue c with
      | Some d => parseDigits (Some (10 * default 0 acc + d)) s'
      | None => acc
      end
  end.

(** [parseInt(s, 10)]; [None] is NaN.  Leading white space is
    skipped, one sign is accepted, then the longest run of digits is
    read and the rest of the string is ignored.  The result is a
    double: the integer the digits denote, rounded. *)
Definition parseInt (s : string) : option JsNumber :=
  match trimStart s with
  | EmptyString => None
  | String c r =>
      if Ascii.eqb c "-" then negateNumber <$> (roundToDouble <$> parseDigits None r)
      else if Ascii.eqb c "+" then roundToDouble <$> parseDigits None r
      else roundToDouble <$> parseDigits None (String c r)
  end.

End JsString.

(** ** JSON values ([unknown] payloads that cross the wire) *)

(** What [JSON.parse] yields, with integers for numbers, and the two
    infinite numbers: what a literal beyond the largest double parses
    to, and what [parseInt] can yield. *)
#[warnings="-register-all"]
Inductive Json : Type :=
| JNull
| JBool (b : bool)
| JNum (n : Z)
| JStr (s : string)
| JArr (items : list Json)
| JObj (fields : list (string * Json))
| JInf (negative : bool).

Module Js.

(** The property [k] an object has of its own: the last binding of
    [k], [None] (undefined) when there is none.  This is the property
    read [v.k] for the keys the embedded code reads, none of which is a
    key of [Object.prototype]. *)
Fixpoint lookupField (k : string) (fields : list (string * Json)) : option Json :=
  match fields with
  | [] => None
  | (k', v) :: rest =>
      match lookupField k rest with
      | Some v' => Some v'
      | None => if String.eqb k k' then Some v else None
      end
  end.

(** Optional chaining [v?.k], with [None] for undefined. *)
Definition prop (k : string) (v : option Json) : option Json :=
  match v with
  | Some (JObj fields) => lookupField k fields
  | _ => None
  end.

(** The values that [??] replaces: undefined and null. *)
Definition nullish (v : option Json) : bool :=
  match v with
  | None | Some JNull => true
  | _ => false
  end.

(** The values that [!v] sends to true. *)
Definition falsy (v : option Json) : bool :=
  match v with
  | None | Some JNull | Some (JBool false) | Some (JNum 0) | Some (JStr EmptyString) => true
  | _ => false
  end.

(** [v ?? fallback]. *)
Definition coalesce (v : option Json) (fallback : Json) : Json :=
  match v with
  | None | Some JNull => fallback
  | Some x => x
  end.

Definition ofNumber (x : JsNumber) : Json :=
  match x with
  | NumInt n => JNum n
  | NumInf negative => JInf negative
  end.

(** Whether an object has [k] among its own keys. *)
Definition hasKey (k : string) (fields : list (string * Json)) : bool :=
  existsb (fun kv => String.eqb k (fst kv)) fields.

(** [ToString(v)], what the constructor of [Error] applies to its
    message; [None] when the conversion throws a TypeError.  An array is
    joined with commas, null elements giving nothing; an object gives
    [object Object], unless it has a key [toString] of its own: its
    value, which is no function, hides [Object.prototype.toString], and
    the conversion throws.  A number is printed in decimal, which is
    what JavaScript prints for an integer up to 2^53 (see [exact]). *)
Fixpoint toString (v : Json) : option string :=
  match v with
  | JNull => Some "null"
  | JBool b => Some (if b then "true" else "false")
  | JNum n => Some (pretty n)
  | JStr s => Some s
  | JArr items =>
      (fix join (l : list Json) : option string :=
         match l with
         | [] => Some ""
         | x :: rest =>
             match (match x with JNull => Some "" | _ => toString x end), rest with
             | Some s, [] => Some s
             | Some s, _ :: _ =>
                 match join rest with
                 | Some t => Some (s +:+ "," +:+ t)
                 | None => None
                 end
             | None, _ => None
             end
         end) items
  | JObj fields => if hasKey "toString" fields then None else Some "[object Object]"
  | JInf negative => Some (if negative then "-Infinity" else "Infinity")
  end.

(** The values whose numbers, at the places [toString] prints, are
    integers that JavaScript prints digit by digit. *)
Fixpoint exact (v : Json) : bool :=
  match v with
  | JNum n => Z.abs n <=? 2 ^ 53
  | JArr items =>
      (fix all (l : list Json) : bool :=
         match l with
         | [] => true
         | x :: rest => exact x && all rest
         end) items
  | _ => true
  end.

End Js.

(** ** Constants (constants/http.ts) *)

Module HTTP_STATUS.
Definition OK : Z := 200.
Definition CREATED : Z := 201.
Definition NO_CONTENT : Z := 204.
Definition BAD_REQUEST : Z := 400.
Definition UNAUTHORIZED : Z := 401.
Definition FORBIDDEN : Z := 403.
Definition NOT_FOUND : Z := 404.
Definition CONFLICT : Z := 409.
Definition UNPROCESSABLE : Z := 422.
Definition RATE_LIMITED : Z := 429.
Definition SERVER_ERROR : Z := 500.
Definition SERVICE_UNAVAILABLE : Z := 503.
End HTTP_STATUS.

Module TIMEOUTS.
Definition DEFAULT : Z := 30000.
End TIMEOUTS.

Module RETRY.
Definition MAX_ATTEMPTS : nat := 3.
Definition INITIAL_DELAY : Z := 1000.
Definition MAX_DELAY : Z := 30000.
Definition BACKOFF_FACTOR : Z := 2.
Definition RETRYABLE_STATUS : list Z := [408; 429; 500; 502; 503; 504].
End RETRY.

(** The error codes.  The values of the table ERROR_CODES are the ones
    tests/unit/errors.test.ts asserts for each error class. *)
Module ERROR_CODES.
Definition AUTHENTICATION_FAILED : string := "AUTH_FAILED".
Definition AUTHORIZATION_FAILED : string := "FORBIDDEN".
Definition NOT_FOUND : string := "NOT_FOUND".
Definition VALIDATION_ERROR : string := "VALIDATION_ERROR".
Definition RATE_LIMIT_EXCEEDED : string := "RATE_LIMIT".
Definition NETWORK_ERROR : string := "NETWORK_ERROR".
Definition TIMEOUT : string := "TIMEOUT".
Definition INVALID_CONFIG : string := "INVALID_CONFIG".
End ERROR_CODES.

(** The tables whose values the embedded files only import: the
    default message of each error code (ERROR_MESSAGES) and the API key
    limits (VALIDATION).  They are parameters of the model. *)
Record Constants : Type := {
  ERROR_MESSAGES : string -> string;
  MIN_API_KEY_LENGTH : nat;
  MAX_API_KEY_LENGTH : nat;
  API_KEY_PATTERN_test : string -> bool;
}.

(** ** Error taxonomy (errors.ts) *)

(** The class of an error object, what [instanceof] and [name] observe. *)
Inductive ErrorClass : Type :=
| NeuranaErrorClass
| AuthenticationErrorClass
| AuthorizationErrorClass
| NotFoundErrorClass
| ValidationErrorClass
| RateLimitErrorClass
| NetworkErrorClass
| TimeoutErrorClass
| ConfigurationErrorClass.

(** An error object of the SDK.  [code] is declared a string; it holds
    whatever the constructor was given. *)
Record NeuranaError : Type := mkNeuranaError {
  class : ErrorClass;
  message : string;
  code : Json;
  statusCode : option Z;
  details : option Json;
  retryAfter : option JsNumber;
}.

Definition className (c : ErrorClass) : string :=
  match c with
  | NeuranaErrorClass => "NeuranaError"
  | AuthenticationErrorClass => "AuthenticationError"
  | AuthorizationErrorClass => "AuthorizationError"
  | NotFoundErrorClass => "NotFoundError"
  | ValidationErrorClass => "ValidationError"
  | RateLimitErrorClass => "RateLimitError"
  | NetworkErrorClass => "NetworkError"
  | TimeoutErrorClass => "TimeoutError"
  | ConfigurationErrorClass => "ConfigurationError"
  end.

Section Errors.

Variable K : Constants.

(** A constructor parameter with a default value: [None] is the
    argument left out. *)
Definition orDefault (m : option string) (c : string) : string :=
  default (ERROR_MESSAGES K c) m.

Definition newNeuranaError (message : string) (code : Json) (statusCode : option Z)
    (details : option Json) : NeuranaError :=
  mkNeuranaError NeuranaErrorClass message code statusCode details None.

Definition AuthenticationError (message : option string) : NeuranaError :=
  mkNeuranaError AuthenticationErrorClass
    (orDefault message ERROR_CODES.AUTHENTICATION_FAILED)
    (JStr ERROR_CODES.AUTHENTICATION_FAILED) (Some 401) None None.

Definition AuthorizationError (message : option string) : NeuranaError :=
  mkNeuranaError AuthorizationErrorClass
    (orDefault message ERROR_CODES.AUTHORIZATION_FAILED)
    (JStr ERROR_CODES.AUTHORIZATION_FAILED) (Some 403) None None.

Definition NotFoundError (message : option string) : NeuranaError :=
  mkNeuranaError NotFoundErrorClass
    (orDefault message ERROR_CODES.NOT_FOUND)
    (JStr ERROR_CODES.NOT_FOUND) (Some 404) None None.

Definition ValidationError (message : option string) (details : option Json)
    : NeuranaError :=
  mkNeuranaError ValidationErrorClass
    (orDefault message ERROR_CODES.VALIDATION_ERROR)
    (JStr ERROR_CODES.VALIDATION_ERROR) (Some 422) details None.

Definition RateLimitError (retryAfter : JsNumber) (message : option string)
    : NeuranaError :=
  mkNeuranaError RateLimitErrorClass
    (orDefault message ERROR_CODES.RATE_LIMIT_EXCEEDED)
    (JStr ERROR_CODES.RATE_LIMIT_EXCEEDED) (Some 429)
    (Some (JObj [("retryAfter", Js.ofNumber retryAfter)])) (Some retryAfter).

Definition NetworkError (message : option string) : NeuranaError :=
  mkNeuranaError NetworkErrorClass
    (orDefault message ERROR_CODES.NETWORK_ERROR)
    (JStr ERROR_CODES.NETWORK_ERROR) None None None.

Definition TimeoutError (message : option string) : NeuranaError :=
  mkNeuranaError TimeoutErrorClass
    (orDefault message ERROR_CODES.TIMEOUT)
    (JStr ERROR_CODES.TIMEOUT) (Some 408) None None.

Definition ConfigurationError (message : option string) : NeuranaError :=
  mkNeuranaError ConfigurationErrorClass
    (orDefault message ERROR_CODES.INVALID_CONFIG)
    (JStr ERROR_CODES.INVALID_CONFIG) None None None.

End Errors.

(** A value that a [throw] or a rejected promise carries: one of the
    SDK's errors, another [Error] object (its [name] and [message]), or a
    value that is no [Error] at all. *)
Inductive Thrown : Type :=
| ThrowNeurana (e : NeuranaError)
| ThrowError (name message : string)
| ThrowValue (v : Json).

(** What the constructor of [Error] throws when its message cannot be
    converted to a string. *)
Definition cannotConvert : Thrown :=
  ThrowError "TypeError" "Cannot convert object to primitive value".

(** ** The world the client runs in *)

(** The two ways of reading the body of a response. *)
Inductive Body : Type := BodyJson | BodyText.

(** What the event loop does in one request, in order of occurrence. *)
Inductive Event : Type :=
| EvSetTimeout (ms : Z)        (* setTimeout(() => controller.abort(), ms) *)
| EvClearTimeout               (* clearTimeout(timeoutId) *)
| EvFetch (attempt : nat)      (* fetch(url, init), the attempt-th call *)
| EvSleep (ms : Z)             (* await this.sleep(ms) *)
| EvReadBody (b : Body)        (* response.json() or response.text() is called *)
| EvBodySettled (b : Body).    (* the promise of that call settles *)

(** Virtual time in milliseconds, and the events so far with the time
    at which each one happened. *)
Record World : Type := mkWorld {
  now : Z;
  events : list (Z * Event);
}.

Definition emit (e : Event) (w : World) : World :=
  mkWorld (now w) (events w ++ [(now w, e)]).

Definition advanceTo (t : Z) (w : World) : World :=
  mkWorld t (events w).

(** The longest delay a timer of Node.js takes: 2^31 - 1 ms. *)
Definition TIMEOUT_MAX : Z := 2147483647.

(** The delay [setTimeout(callback, ms)] waits for: [ms] itself from 1
    to TIMEOUT_MAX, and 1 ms for any other value (0, a negative number,
    a number above TIMEOUT_MAX). *)
Definition timerDelay (ms : Z) : Z :=
  if (1 <=? ms) && (ms <=? TIMEOUT_MAX) then ms else 1.

(** An [AbortSignal]: the time at which it fires, if it ever does. *)
Record AbortSignal : Type := mkSignal {
  abortAt : option Z;
}.

(** A [Response] as the client reads it: status, the two headers it
    looks at, how long a call of [json()] or of [text()] takes to settle,
    and what each settles to, for whatever reason: the body, a body that
    does not parse, a stream that breaks, an abort by the signal of the
    caller. *)
Record Response : Type := mkResponse {
  status : Z;
  contentType : option string;
  retryAfterHeader : option string;
  bodyTime : Z;
  json : Result Thrown Json;
  text : Result Thrown string;
}.

(** The network: for the n-th call of [fetch] in a request, how long the
    call takes and what its promise settles to when nothing aborts it. *)
Definition Transport : Type := nat -> Z * Result Thrown Response.

(** What [fetch] rejects with when its signal fires: a DOMException
    named AbortError ([controller.abort()] is called without a reason). *)
Definition abortError : Thrown :=
  ThrowError "AbortError" "This operation was aborted".

(** [await fetch(url, init)].  The call settles after its latency,
    unless the signal fires before that: then it rejects with
    [abortError] at the time the signal fires, or at once when the
    signal has fired already. *)
Definition fetch (net : Transport) (signal : AbortSignal) (attempt : nat)
    (w : World) : World * Result Thrown Response :=
  let w1 := emit (EvFetch attempt) w in
  let arrival := now w + fst (net attempt) in
  match abortAt signal with
  | Some a =>
      if a <? arrival
      then (advanceTo (Z.max (now w) a) w1, Err abortError)
      else (advanceTo arrival w1, snd (net attempt))
  | None => (advanceTo arrival w1, snd (net attempt))
  end.

(** [await this.sleep(ms)]: a plain timer, which no signal interrupts. *)
Definition sleep (ms : Z) (w : World) : World :=
  advanceTo (now w + timerDelay ms) (emit (EvSleep ms) w).

(** ** The request engine (http.ts) *)

Inductive HttpMethod : Type := GET | POST | PUT | PATCH | DELETE.

Record RequestConfig : Type := mkRequestConfig {
  method : HttpMethod;
  path : string;
  data : option Json;
  timeout : option Z;
  signal : option AbortSignal;
}.

(** What a request resolves to: [undefined], a text, or parsed JSON. *)
Inductive Value : Type :=
| VUndefined
| VText (s : string)
| VJson (j : Json).

Section HttpClient.

Variable K : Constants.

(** The field [#timeout] of the client: [config.timeout ?? TIMEOUTS.DEFAULT]. *)
Variable clientTimeout : Z.

(** [shouldRetry(status, attempt)]. *)
Definition shouldRetry (status : Z) (attempt : nat) : bool :=
  (attempt <? RETRY.MAX_ATTEMPTS)%nat && existsb (Z.eqb status) RETRY.RETRYABLE_STATUS.

(** [isRetryableError(error)]. *)
Definition isRetryableError (error : Thrown) : bool :=
  match error with
  | ThrowError name message =>
      String.eqb name "TypeError" || JsString.includes message "network"
  | ThrowNeurana e =>
      String.eqb (className (class e)) "TypeError" || JsString.includes (message e) "network"
  | ThrowValue _ => false
  end.

(** [calculateDelay(attempt)].  The engine calls it for the attempts
    1, 2, ...; at 0 the power is 2^-1 and the delay 1000 / 2. *)
Definition calculateDelay (attempt : nat) : Z :=
  let delay :=
    match attempt with
    | O => RETRY.INITIAL_DELAY / RETRY.BACKOFF_FACTOR
    | S _ => RETRY.INITIAL_DELAY * RETRY.BACKOFF_FACTOR ^ (Z.of_nat attempt - 1)
    end in
  Z.min delay RETRY.MAX_DELAY.

(** [executeWithRetry(url, init, attempt)].  The recursive call is
    returned without [await], so its rejection does not pass through
    the [catch] of the caller: only a rejection of this attempt's
    [fetch] does.  [fuel] bounds the recursion depth; [None] is fuel
    exhausted. *)
Fixpoint executeWithRetry (net : Transport) (signal : AbortSignal)
    (fuel : nat) (attempt : nat) (w : World)
    : World * option (Result Thrown Response) :=
  let again w1 :=
    match fuel with
    | O => (w1, None)
    | S fuel' =>
        let delay := calculateDelay attempt in
        executeWithRetry net signal fuel' (attempt + 1) (sleep delay w1)
    end in
  match fetch net signal attempt w with
  | (w1, Ok response) =>
      if shouldRetry (status response) attempt
      then again w1
      else (w1, Some (Ok response))
  | (w1, Err error) =>
      if isRetryableError error && (attempt <? RETRY.MAX_ATTEMPTS)%nat
      then again w1
      else (w1, Some (Err error))
  end.

(** [response.ok]. *)
Definition ok (response : Response) : bool :=
  (200 <=? status response) && (status response <=? 299).

(** The fields of an error body [{error: {code, message, details}}],
    whatever their values are. *)
Definition errorField (k : string) (errorData : option Json) : option Json :=
  Js.prop k (Js.prop "error" errorData).

(** The locals [code] and [message] of [createHttpError]. *)
Definition codeOf (errorData : option Json) : Json :=
  Js.coalesce (errorField "code" errorData) (JStr "UNKNOWN_ERROR").

Definition messageOf (errorData : option Json) : Json :=
  Js.coalesce (errorField "message" errorData) (JStr "An unexpected error occurred").

(** The [switch] of [createHttpError], with the message as the
    constructor of [Error] has converted it. *)
Definition errorOfStatus (response : Response) (code : Json) (message : string)
    (details : option Json) : NeuranaError :=
  let status := status response in
  if status =? HTTP_STATUS.UNAUTHORIZED then AuthenticationError K (Some message)
  else if status =? HTTP_STATUS.FORBIDDEN then AuthorizationError K (Some message)
  else if status =? HTTP_STATUS.NOT_FOUND then NotFoundError K (Some message)
  else if (status =? HTTP_STATUS.UNPROCESSABLE) || (status =? HTTP_STATUS.BAD_REQUEST)
  then ValidationError K (Some message) details
  else if status =? HTTP_STATUS.RATE_LIMITED then
    let retryAfter :=
      match retryAfterHeader response with
      | None | Some EmptyString => Some (NumInt 60)
      | Some h => JsString.parseInt h
      end in
    RateLimitError K (default (NumInt 60) retryAfter) (Some message)
  else newNeuranaError message code (Some status) details.

(** [createHttpError(response, errorData)]; [errorData = None] is null.
    Every branch hands [message] to a constructor, which hands it to the
    one of [Error]: that converts it to a string, or throws. *)
Definition createHttpError (response : Response) (errorData : option Json)
    : Result Thrown NeuranaError :=
  match Js.toString (messageOf errorData) with
  | Some message =>
      Ok (errorOfStatus response (codeOf errorData) message (errorField "details" errorData))
  | None => Err cannotConvert
  end.

(** [contentType?.includes('application/json')], read as a condition. *)
Definition isJson (response : Response) : bool :=
  match contentType response with
  | Some ct => JsString.includes ct "application/json"
  | None => false
  end.

(** The local [errorData] of [handleResponse]: the parsed body of a
    JSON response, null when the body is not JSON or does not parse. *)
Definition errorDataOf (response : Response) : option Json :=
  if isJson response then
    match json response with
    | Ok j => Some j
    | Err _ => None
    end
  else None.

(** [handleResponse(response)]. *)
Definition handleResponse (response : Response) : Result Thrown Value :=
  if status response =? HTTP_STATUS.NO_CONTENT then Ok VUndefined
  else
    if negb (ok response) then
      match createHttpError response (errorDataOf response) with
      | Ok e => Err (ThrowNeurana e)
      | Err thrown => Err thrown
      end
    else if negb (isJson response) then
      match text response with
      | Ok s => Ok (VText s)
      | Err e => Err e
      end
    else
      match json response with
      | Ok j => Ok (VJson j)
      | Err _ =>
          Err (ThrowNeurana
                 (newNeuranaError "Failed to parse response" (JStr "PARSE_ERROR")
                    (Some (status response)) None))
      end.

(** [handleError(error)]. *)
Definition handleError (error : Thrown) : NeuranaError :=
  let unknown :=
    newNeuranaError "An unexpected error occurred" (JStr "UNKNOWN_ERROR") None None in
  match error with
  | ThrowNeurana e => e
  | ThrowError name message =>
      if String.eqb name "AbortError" then TimeoutError K None
      else if JsString.includes message "fetch" || JsString.includes message "network"
      then NetworkError K (Some "Failed to connect to server")
      else unknown
  | ThrowValue _ => unknown
  end.

(** The body [handleResponse] reads, if it reads one: none of a 204
    response, none of an error response that is not JSON. *)
Definition bodyRead (response : Response) : option Body :=
  if status response =? HTTP_STATUS.NO_CONTENT then None
  else if negb (ok response) then (if isJson response then Some BodyJson else None)
  else if negb (isJson response) then Some BodyText
  else Some BodyJson.

(** [return this.handleResponse(response)] inside [try], with
    [clearTimeout(timeoutId)] in [finally].  [handleResponse] runs up to
    its first [await], where the body starts to be read; then [finally]
    clears the timer; the read settles after that. *)
Definition returnResponse (response : Response) (w : World) : World :=
  match bodyRead response with
  | Some b =>
      let w1 := emit EvClearTimeout (emit (EvReadBody b) w) in
      emit (EvBodySettled b) (advanceTo (now w1 + bodyTime response) w1)
  | None => emit EvClearTimeout w
  end.

(** [request(config)].  One timer is armed before the first attempt
    and cleared in [finally].  [handleResponse] is returned without
    [await]: what it rejects with reaches the caller as it is, and only
    a rejection of [executeWithRetry] goes through [handleError]. *)
Definition request (net : Transport) (config : RequestConfig) (w : World)
    : World * option (Result Thrown Value) :=
  let timeout := default clientTimeout (timeout config) in
  let controller := mkSignal (Some (now w + timerDelay timeout)) in
  let w1 := emit (EvSetTimeout timeout) w in
  let '(w2, r) :=
    executeWithRetry net (default controller (signal config)) RETRY.MAX_ATTEMPTS 1 w1 in
  match r with
  | Some (Ok response) => (returnResponse response w2, Some (handleResponse response))
  | Some (Err error) =>
      (emit EvClearTimeout w2, Some (Err (ThrowNeurana (handleError error))))
  | None => (emit EvClearTimeout w2, None)
  end.

Definition get (net : Transport) (path : string) : World -> World * option (Result Thrown Value) :=
  request net (mkRequestConfig GET path None None None).

Definition post (net : Transport) (path : string) (data : option Json)
    : World -> World * option (Result Thrown Value) :=
  request net (mkRequestConfig POST path data None None).

Definition patch (net : Transport) (path : string) (data : option Json)
    : World -> World * option (Result Thrown Value) :=
  request net (mkRequestConfig PATCH path data None None).

End HttpClient.

Definition world0 : World := mkWorld 0 [].

(** ** The step orchestrator (resources/workflows.ts) *)

(** [CreateStepInput], and the shape of a processed step.  [config] is a
    JavaScript object used as a map from field names to values; [next]
    is absent, null or a step reference. *)
Record CreateStepInput : Type := mkStep {
  type : string;
  name : option string;
  config : gmap string Json;
  next : option (option string);
  condition : option string;
}.

Record CreateWorkflowRequest : Type := mkCreateRequest {
  req_name : option string;
  description : option string;
  steps : list CreateStepInput;
  visibility : option string;
}.

(** An optional property of an object: its key is absent, or present
    with a value, which can be undefined ([Present None]). *)
Inductive Property (A : Type) : Type :=
| Absent
| Present (v : option A).

Arguments Absent {A}.
Arguments Present {A} v.

(** Reading the property: undefined when the key is absent. *)
Definition valueOf {A : Type} (p : Property A) : option A :=
  match p with
  | Absent => None
  | Present v => v
  end.

Definition isAbsent {A : Type} (p : Property A) : bool :=
  match p with
  | Absent => true
  | Present _ => false
  end.

Record UpdateWorkflowRequest : Type := mkUpdateRequest {
  upd_name_property : Property string;
  upd_description_property : Property string;
  upd_steps_property : Property (list CreateStepInput);
}.

(** [data.name], [data.description] and [data.steps] of an update. *)
Definition upd_name (data : UpdateWorkflowRequest) : option string :=
  valueOf (upd_name_property data).

Definition upd_description (data : UpdateWorkflowRequest) : option string :=
  valueOf (upd_description_property data).

Definition upd_steps (data : UpdateWorkflowRequest) : option (list CreateStepInput) :=
  valueOf (upd_steps_property data).

(** The body of the workflow request that goes to the service: what
    [JSON.stringify] keeps of the object handed to the HTTP client, a
    property that is undefined being left out like one that is absent. *)
Record Payload : Type := mkPayload {
  p_name : option string;
  p_description : option string;
  p_steps : option (list CreateStepInput);
  p_visibility : option string;
}.

Record Workflow : Type := mkWorkflow {
  id : string;
  tenantId : string;
  workflowKey : string;
  workflowUrl : option string;
}.

(** One call of the upload collaborator: [(fileName, content, language)].
    [fileName] is the caller's value when there is one, whatever it is. *)
Record UploadCall : Type := mkUpload {
  fileName : Json;
  content : string;
  language : string;
}.

(** The upload collaborator: given the calls made so far and this call,
    the key it resolves to or what it rejects with. *)
Definition Uploader : Type := list UploadCall -> UploadCall -> Result Thrown string.

(** The HTTP client as the resource sees it: method, path and body in,
    a workflow or a rejection out. *)
Definition Http : Type := HttpMethod -> string -> Payload -> Result Thrown Workflow.

(** What the resource does to the outside, in order. *)
Inductive WfEvent : Type :=
| EvUpload (call : UploadCall)
| EvRequest (m : HttpMethod) (path : string) (body : Payload).

Definition uploadsOf (log : list WfEvent) : list UploadCall :=
  omap (fun e => match e with EvUpload c => Some c | _ => None end) log.

Module ENDPOINTS.
Definition WORKFLOWS_CREATE : string := "/workflows".
Definition WORKFLOWS_UPDATE (id : string) : string := "/workflows/" +:+ id.
End ENDPOINTS.

Section WorkflowsResource.

Variable K : Constants.
Variable http : Http.
Variable codeUploader : Uploader.
Variable sdkBaseUrl : option string.

Definition MAX_ID_LENGTH : nat := 64.

(** One character of ID_PATTERN = /^[a-zA-Z0-9_-]+$/. *)
Definition isIdChar (c : ascii) : bool :=
  let n := nat_of_ascii c in
  ((97 <=? n) && (n <=? 122) || (65 <=? n) && (n <=? 90) ||
   (48 <=? n) && (n <=? 57) || (n =? 95) || (n =? 45))%nat.

Definition ID_PATTERN_test (s : string) : bool :=
  negb (JsString.isEmpty s) && forallb isIdChar (list_ascii_of_string s).

(** [validateId(id, field)]. *)
Definition validateId (id field : string) : Result Thrown unit :=
  if JsString.isEmpty id
  then Err (ThrowNeurana (ValidationError K (Some (field +:+ " is required")) None))
  else if (MAX_ID_LENGTH <? String.length id)%nat || negb (ID_PATTERN_test id)
  then Err (ThrowNeurana (ValidationError K (Some ("Invalid " +:+ field +:+ " format")) None))
  else Ok tt.

(** [buildWorkflowUrl(tenantId, workflowKey)]. *)
Definition buildWorkflowUrl (tenantId workflowKey : string) : option string :=
  match sdkBaseUrl with
  | None | Some EmptyString => None
  | Some base =>
      Some (JsString.stripTrailingSlash base +:+ "/sdk/" +:+ tenantId +:+ "/" +:+ workflowKey)
  end.

(** [enrichWorkflowResponse(workflow)]. *)
Definition enrichWorkflowResponse (workflow : Workflow) : Workflow :=
  if negb (JsString.isEmpty (tenantId workflow)) && negb (JsString.isEmpty (workflowKey workflow))
  then
    match buildWorkflowUrl (tenantId workflow) (workflowKey workflow) with
    | Some workflowUrl =>
        mkWorkflow (id workflow) (tenantId workflow) (workflowKey workflow) (Some workflowUrl)
    | None => workflow
    end
  else workflow.

Definition stepError (i : nat) (reason : string) : Thrown :=
  ThrowNeurana (ValidationError K (Some ("Step " +:+ pretty (i + 1)%nat +:+ ": " +:+ reason)) None).

Definition isPython (runtime : option Json) : bool :=
  match runtime with Some (JStr "python") => true | _ => false end.

(** [['python', 'node'].includes(runtime)]. *)
Definition supportedRuntime (runtime : option Json) : bool :=
  match runtime with
  | Some (JStr "python") | Some (JStr "node") => true
  | _ => false
  end.

(** The body of the loop of [processSteps] for the step at index [i]:
    the processed step to push, or what is thrown, and the log with the
    upload call when one was made. *)
Definition processStep (i : nat) (step : CreateStepInput) (log : list WfEvent)
    : list WfEvent * Result Thrown CreateStepInput :=
  if String.eqb (type step) "code" then
    let codeConfig := config step in
    let runtime := codeConfig !! "runtime" in
    if Js.falsy runtime
    then (log, Err (stepError i "runtime is required for code steps (python or node)"))
    else if negb (supportedRuntime runtime)
    then (log, Err (stepError i "runtime must be 'python' or 'node'"))
    else
      match codeConfig !! "code" with
      | None | Some JNull =>
          (log, Err (stepError i "code content is required for code steps"))
      | Some (JStr code) =>
          if JsString.isEmpty (JsString.trim code)
          then (log, Err (stepError i "code content is required for code steps"))
          else
            let extension := if isPython runtime then "py" else "js" in
            let fileName :=
              if Js.nullish (codeConfig !! "fileName")
              then JStr ("step_" +:+ pretty (i + 1)%nat +:+ "." +:+ extension)
              else default JNull (codeConfig !! "fileName") in
            let call :=
              mkUpload fileName code (if isPython runtime then "python" else "javascript") in
            let log1 := log ++ [EvUpload call] in
            match codeUploader (uploadsOf log) call with
            | Err e => (log1, Err e)
            | Ok key =>
                let restConfig := delete "fileName" (delete "code" codeConfig) in
                (log1,
                 Ok (mkStep (type step) (name step)
                       (<["fileId" := JStr key]> restConfig)
                       (next step) (condition step)))
            end
      | Some _ =>
          (log, Err (ThrowError "TypeError" "codeConfig.code?.trim is not a function"))
      end
  else
    (log, Ok (mkStep (type step) (name step) (config step) (next step) (condition step))).

(** The loop of [processSteps], from index [i] on, with the steps
    pushed so far. *)
Fixpoint processStepsFrom (i : nat) (rest : list CreateStepInput)
    (processedSteps : list CreateStepInput) (log : list WfEvent)
    : list WfEvent * Result Thrown (list CreateStepInput) :=
  match rest with
  | [] => (log, Ok processedSteps)
  | step :: rest' =>
      match processStep i step log with
      | (log1, Ok processed) =>
          processStepsFrom (S i) rest' (processedSteps ++ [processed]) log1
      | (log1, Err e) => (log1, Err e)
      end
  end.

(** [processSteps(steps)]. *)
Definition processSteps (steps : list CreateStepInput) (log : list WfEvent)
    : list WfEvent * Result Thrown (list CreateStepInput) :=
  processStepsFrom 0 steps [] log.

Definition blankName (n : option string) : bool :=
  match n with
  | None => true
  | Some s => JsString.isEmpty (JsString.trim s)
  end.

(** [create(data)]. *)
Definition create (data : CreateWorkflowRequest) (log : list WfEvent)
    : list WfEvent * Result Thrown Workflow :=
  if blankName (req_name data)
  then (log, Err (ThrowNeurana (ValidationError K (Some "name is required") None)))
  else
    match steps data with
    | [] => (log, Err (ThrowNeurana (ValidationError K (Some "At least one step is required") None)))
    | _ =>
        match processSteps (steps data) log with
        | (log1, Err e) => (log1, Err e)
        | (log1, Ok processedSteps) =>
            let body :=
              mkPayload (req_name data) (description data) (Some processedSteps)
                (visibility data) in
            let log2 := log1 ++ [EvRequest POST ENDPOINTS.WORKFLOWS_CREATE body] in
            match http POST ENDPOINTS.WORKFLOWS_CREATE body with
            | Err e => (log2, Err e)
            | Ok workflow => (log2, Ok (enrichWorkflowResponse workflow))
            end
        end
    end.

(** [Object.keys(data).length === 0] on an update request: a key
    counts whatever its value, undefined included. *)
Definition noKeys (data : UpdateWorkflowRequest) : bool :=
  isAbsent (upd_name_property data)
  && isAbsent (upd_description_property data)
  && isAbsent (upd_steps_property data).

(** [update(id, data)]. *)
Definition update (id : string) (data : UpdateWorkflowRequest) (log : list WfEvent)
    : list WfEvent * Result Thrown Workflow :=
  match validateId id "id" with
  | Err e => (log, Err e)
  | Ok _ =>
      if noKeys data
      then (log, Err (ThrowNeurana (ValidationError K (Some "Update data is required") None)))
      else
        let processed :=
          match upd_steps data with
          | Some (s :: ss) =>
              match processSteps (s :: ss) log with
              | (log1, Ok processedSteps) => (log1, Ok (Some processedSteps))
              | (log1, Err e) => (log1, Err e)
              end
          | other => (log, Ok other)
          end in
        match processed with
        | (log1, Err e) => (log1, Err e)
        | (log1, Ok steps') =>
            let body := mkPayload (upd_name data) (upd_description data) steps' None in
            let log2 := log1 ++ [EvRequest PATCH (ENDPOINTS.WORKFLOWS_UPDATE id) body] in
            match http PATCH (ENDPOINTS.WORKFLOWS_UPDATE id) body with
            | Err e => (log2, Err e)
            | Ok workflow => (log2, Ok (enrichWorkflowResponse workflow))
            end
        end
  end.

End WorkflowsResource.


(** ** The client (client.ts) *)

Definition BASE_URL : string := "https://workflows.neurana.io".
Definition MAIN_API_URL : string := "https://api.neurana.io".

Record NeuranaConfig : Type := mkConfig {
  apiKey : option Json;
  baseUrl : option string;
  mainApiUrl : option string;
  cfg_sdkBaseUrl : option string;
  cfg_timeout : option Z;
  allowInsecureHttp : option bool;
}.

(** A call of [logger.warn(message, {url}, context)]. *)
Record Warning : Type := mkWarning {
  warn_message : string;
  warn_url : string;
  warn_context : string;
}.

(** [new HttpClient({baseUrl, apiKey, timeout})]: the private fields. *)
Record HttpClient : Type := mkHttpClient {
  http_apiKey : string;
  http_baseUrl : string;
  http_timeout : Z;
}.

Record NeuranaClient : Type := mkClient {
  workflowsHttp : HttpClient;
  mainHttp : HttpClient;
  client_sdkBaseUrl : option string;
}.

Section Client.

Variable K : Constants.

(** [validateEndpointSecurity(url, allowInsecure)]: the warnings
    logged so far and after, and whether the call returns or throws. *)
Definition validateEndpointSecurity (url : option string) (allowInsecure : option bool)
    (warnings : list Warning) : list Warning * Result Thrown unit :=
  match url with
  | None | Some EmptyString => (warnings, Ok tt)
  | Some url =>
      let isSecure := JsString.startsWith url "https://" in
      let isLocalhost :=
        JsString.includes url "localhost" || JsString.includes url "127.0.0.1" in
      if negb isSecure && negb isLocalhost then
        if default false allowInsecure
        then
          (warnings ++
             [mkWarning "Using insecure HTTP connection"
                (JsString.beforeFirst "?" url) "security"],
           Ok tt)
        else
          (warnings,
           Err (ThrowNeurana
                  (ConfigurationError K (Some "HTTPS is required for non-localhost endpoints"))))
      else (warnings, Ok tt)
  end.

Definition configError (m : string) : Result Thrown unit :=
  Err (ThrowNeurana (ConfigurationError K (Some m))).

(** [validateConfig(config)]. *)
Definition validateConfig (config : NeuranaConfig) (warnings : list Warning)
    : list Warning * Result Thrown unit :=
  if Js.falsy (apiKey config) then (warnings, configError "API key is required")
  else
    match apiKey config with
    | Some (JStr apiKey) =>
        let key := JsString.trim apiKey in
        if (String.length key <? MIN_API_KEY_LENGTH K)%nat
        then (warnings, configError "Invalid API key format")
        else if (MAX_API_KEY_LENGTH K <? String.length key)%nat
        then (warnings, configError "API key exceeds maximum length")
        else if JsString.startsWith key "nrn_" && negb (API_KEY_PATTERN_test K key)
        then (warnings, configError "Invalid API key format")
        else
          match validateEndpointSecurity (baseUrl config) (allowInsecureHttp config) warnings with
          | (w1, Err e) => (w1, Err e)
          | (w1, Ok _) =>
              match validateEndpointSecurity (mainApiUrl config) (allowInsecureHttp config) w1 with
              | (w2, Err e) => (w2, Err e)
              | (w2, Ok _) =>
                  validateEndpointSecurity (cfg_sdkBaseUrl config) (allowInsecureHttp config) w2
              end
          end
    | _ => (warnings, configError "API key must be a string")
    end.

(** [new HttpClient(config)]. *)
Definition newHttpClient (baseUrl apiKey : string) (timeout : option Z) : HttpClient :=
  mkHttpClient apiKey (JsString.stripTrailingSlash baseUrl) (default TIMEOUTS.DEFAULT timeout).

(** [new NeuranaClient(config)]: the client, or what the constructor
    throws. *)
Definition newNeuranaClient (config : NeuranaConfig) (warnings : list Warning)
    : list Warning * Result Thrown NeuranaClient :=
  match validateConfig config warnings with
  | (w1, Err e) => (w1, Err e)
  | (w1, Ok _) =>
      let key := match apiKey config with Some (JStr s) => s | _ => EmptyString end in
      (w1,
       Ok (mkClient
             (newHttpClient (default BASE_URL (baseUrl config)) key (cfg_timeout config))
             (newHttpClient (default MAIN_API_URL (mainApiUrl config)) key (cfg_timeout config))
             (cfg_sdkBaseUrl config)))
  end.

End Client.

(** *** Reading of "loopback address" used to state the endpoint rule

    The host of an absolute URL: what stands between "://" and the next
    "/", "?" or "#", without the user information before "@" and
    without the port after ":".  A URL is a loopback URL when that host
    is localhost or 127.0.0.1. *)
Module Loopback.

Fixpoint afterSchemeSeparator (s : string) : string :=
  match s with
  | EmptyString => EmptyString
  | String c s' =>
      if String.prefix "://" s
      then match s' with String _ (String _ r) => r | _ => EmptyString end
      else afterSchemeSeparator s'
  end.

Fixpoint authority (s : string) : string :=
  match s with
  | EmptyString => EmptyString
  | String c s' =>
      if Ascii.eqb c "/" || Ascii.eqb c "?" || Ascii.eqb c "#"
      then EmptyString
      else String c (authority s')
  end.

(** What follows the last "@" of [s], or [s] when there is none. *)
Fixpoint afterUserInfo (s : string) : string :=
  match s with
  | EmptyString => EmptyString
  | String c s' =>
      if JsString.includes s' "@" then afterUserInfo s'
      else if Ascii.eqb c "@" then s' else s
  end.

Definition hostOf (url : string) : string :=
  JsString.beforeFirst ":" (afterUserInfo (authority (afterSchemeSeparator url))).

Definition isLoopbackUrl (url : string) : bool :=
  String.eqb (hostOf url) "localhost" || String.eqb (hostOf url) "127.0.0.1".

End Loopback.

(** A table of constants to run the model on: messages in the style of
    the assertions of tests/unit/errors.test.ts, and key limits that
    accept the keys the client tests accept. *)
Definition sampleConstants : Constants := {|
  ERROR_MESSAGES := fun c =>
    if String.eqb c ERROR_CODES.TIMEOUT then "Request timed out"
    else if String.eqb c ERROR_CODES.NOT_FOUND then "Resource not found"
    else "An error occurred";
  MIN_API_KEY_LENGTH := 10;
  MAX_API_KEY_LENGTH := 256;
  API_KEY_PATTERN_test := fun key =>
    forallb isIdChar (list_ascii_of_string key);
|}.


(** ** File utilities (utils/file-utils.ts) *)

(** What the upload path reads from the tables VALIDATION and
    SIZE_LIMITS of the constants, taken as a parameter:
    the extensions VALIDATION allows, the size limit of SIZE_LIMITS, and
    the rendering of a byte count in megabytes with one decimal,
    [(n / (1024 * 1024)).toFixed(1)], which is floating-point. *)
Record FileConstants : Type := {
  ALLOWED_FILE_EXTENSIONS : list string;
  MAX_CODE_SIZE : Z;
  megabytes : Z -> string;
}.

Module FileUtils.

Definition LANGUAGE_MAP : list (string * string) :=
  [(".ts", "typescript"); (".tsx", "typescript"); (".js", "javascript");
   (".jsx", "javascript"); (".json", "json"); (".yaml", "yaml"); (".yml", "yaml");
   (".py", "python"); (".md", "markdown"); (".html", "html"); (".css", "css");
   (".sql", "sql"); (".graphql", "graphql")].

Definition MIME_TYPES : list (string * string) :=
  [(".ts", "text/typescript"); (".tsx", "text/typescript");
   (".js", "application/javascript"); (".jsx", "application/javascript");
   (".json", "application/json"); (".yaml", "text/yaml"); (".yml", "text/yaml");
   (".py", "text/x-python"); (".md", "text/markdown"); (".html", "text/html");
   (".css", "text/css"); (".txt", "text/plain"); (".xml", "application/xml");
   (".csv", "text/csv"); (".sql", "application/sql");
   (".graphql", "application/graphql"); (".prisma", "text/plain")].

Definition DANGEROUS_EXTENSIONS : list string :=
  [".exe"; ".bat"; ".cmd"; ".sh"; ".ps1"; ".dll"; ".so"; ".dylib"; ".bin";
   ".msi"; ".com"; ".vbs"; ".scr"].

Definition MAX_KEY_LENGTH : nat := 256.
Definition MAX_FILENAME_LENGTH : nat := 255.

(** Lookup in a table keyed by extension. *)
Fixpoint lookupTable (table : list (string * string)) (k : string) : option string :=
  match table with
  | [] => None
  | (k', v) :: rest => if String.eqb k k' then Some v else lookupTable rest k
  end.

(** [toLowerCase] on one code unit below 256: A-Z, and the capital
    letters of Latin-1 from 192 to 222 without the sign at 215. *)
Definition toLowerChar (c : ascii) : ascii :=
  let n := nat_of_ascii c in
  if ((65 <=? n) && (n <=? 90) || (192 <=? n) && (n <=? 222) && negb (n =? 215))%nat
  then ascii_of_nat (n + 32)
  else c.

Fixpoint toLowerCase (s : string) : string :=
  match s with
  | EmptyString => EmptyString
  | String c s' => String (toLowerChar c) (toLowerCase s')
  end.

(** What follows the last dot of [s]; [None] when [s] has no dot. *)
Fixpoint afterLastDot (s : string) : option string :=
  match s with
  | EmptyString => None
  | String c s' =>
      match afterLastDot s' with
      | Some r => Some r
      | None => if Ascii.eqb c "." then Some s' else None
      end
  end.

(** [getFileExtension(fileName)]. *)
Definition getFileExtension (fileName : string) : string :=
  match afterLastDot fileName with
  | None | Some EmptyString => EmptyString
  | Some r => toLowerCase (String "." r)
  end.

(** [getMimeType(fileName)]. *)
Definition getMimeType (fileName : string) : string :=
  default "application/octet-stream" (lookupTable MIME_TYPES (getFileExtension fileName)).

(** [getLanguage(fileName)]. *)
Definition getLanguage (fileName : string) : string :=
  default "plaintext" (lookupTable LANGUAGE_MAP (getFileExtension fileName)).

(** [isAllowedExtension(fileName)]. *)
Definition isAllowedExtension (F : FileConstants) (fileName : string) : bool :=
  existsb (String.eqb (getFileExtension fileName)) (ALLOWED_FILE_EXTENSIONS F).

(** [isDangerousExtension(fileName)]. *)
Definition isDangerousExtension (fileName : string) : bool :=
  existsb (String.eqb (getFileExtension fileName)) DANGEROUS_EXTENSIONS.

Definition isAlphaNum (c : ascii) : bool :=
  let n := nat_of_ascii c in
  ((97 <=? n) && (n <=? 122) || (65 <=? n) && (n <=? 90) || (48 <=? n) && (n <=? 57))%nat.

(** One character of the tail of SAFE_FILENAME_PATTERN: [a-zA-Z0-9._-]. *)
Definition isFileNameChar (c : ascii) : bool :=
  isAlphaNum c || Ascii.eqb c "." || Ascii.eqb c "_" || Ascii.eqb c "-".

(** One character of the tail of SAFE_KEY_PATTERN: [a-zA-Z0-9._/-]. *)
Definition isKeyChar (c : ascii) : bool :=
  isFileNameChar c || Ascii.eqb c "/".

(** [/^[a-zA-Z0-9][a-zA-Z0-9._-]*$/.test(s)]. *)
Definition SAFE_FILENAME_PATTERN_test (s : string) : bool :=
  match s with
  | EmptyString => false
  | String c s' => isAlphaNum c && forallb isFileNameChar (list_ascii_of_string s')
  end.

(** [/^[a-zA-Z0-9][a-zA-Z0-9._/-]*$/.test(s)]. *)
Definition SAFE_KEY_PATTERN_test (s : string) : bool :=
  match s with
  | EmptyString => false
  | String c s' => isAlphaNum c && forallb isKeyChar (list_ascii_of_string s')
  end.

Definition invalid (K : Constants) {A} (m : string) : Result Thrown A :=
  Err (ThrowNeurana (ValidationError K (Some m) None)).

(** [validateFileName(fileName)], on whatever value the caller passes. *)
Definition validateFileName (K : Constants) (fileName : option Json) : Result Thrown string :=
  match fileName with
  | Some (JStr (String c s)) =>
      let trimmed := JsString.trim (String c s) in
      if (String.length trimmed =? 0)%nat
      then invalid K "fileName cannot be empty"
      else if (MAX_FILENAME_LENGTH <? String.length trimmed)%nat
      then invalid K ("fileName exceeds max length of " +:+ pretty MAX_FILENAME_LENGTH)
      else if negb (SAFE_FILENAME_PATTERN_test trimmed)
      then invalid K "fileName contains invalid characters"
      else if JsString.includes trimmed ".." || JsString.includes trimmed "/"
              || JsString.includes trimmed "\"
      then invalid K "fileName contains path separators"
      else if isDangerousExtension trimmed
      then invalid K "File type not allowed for security reasons"
      else Ok trimmed
  | _ => invalid K "fileName is required"
  end.

(** [validateFileKey(key)]. *)
Definition validateFileKey (K : Constants) (key : option Json) : Result Thrown string :=
  match key with
  | Some (JStr (String c s)) =>
      let trimmed := JsString.trim (String c s) in
      if (String.length trimmed =? 0)%nat
      then invalid K "key cannot be empty"
      else if (MAX_KEY_LENGTH <? String.length trimmed)%nat
      then invalid K ("key exceeds max length of " +:+ pretty MAX_KEY_LENGTH)
      else if JsString.includes trimmed ".."
      then invalid K "key contains path traversal"
      else if negb (SAFE_KEY_PATTERN_test trimmed)
      then invalid K "key contains invalid characters"
      else Ok trimmed
  | _ => invalid K "key is required"
  end.

(** [validateFileSize(size, maxSize)]. *)
Definition validateFileSize (K : Constants) (F : FileConstants) (size maxSize : Z)
    : Result Thrown unit :=
  if size <=? 0 then invalid K "File content cannot be empty"
  else if maxSize <? size
  then invalid K ("File size exceeds maximum of " +:+ megabytes F maxSize +:+ "MB")
  else Ok tt.

(** [getContentSize(content)] for a string: its length in UTF-8, one
    byte for a code unit below 128 and two for the others below 256. *)
Fixpoint getContentSize (content : string) : Z :=
  match content with
  | EmptyString => 0
  | String c s => (if (nat_of_ascii c <? 128)%nat then 1 else 2) + getContentSize s
  end.

End FileUtils.


(** ** The code resource (resources/code.ts) *)

Record UploadCodeRequest : Type := mkUploadRequest {
  up_fileName : option Json;
  up_content : string;
  up_language : option string;
}.

(** The body of the upload request. *)
Record UploadBody : Type := mkUploadBody {
  body_fileName : string;
  body_content : string;
  body_language : string;
}.

Record UploadCodeResponse : Type := mkUploadResponse {
  resp_key : string;
  resp_fileName : string;
}.

(** The HTTP client as the code resource sees it: [post] of a body to
    ENDPOINTS.CODE.UPLOAD. *)
Definition CodeHttp : Type := UploadBody -> Result Thrown UploadCodeResponse.

(** [CodeResource.upload(data)] for a content that is a string: the
    bodies posted so far and after, and what the call settles to.  The
    debug entry logged before the post is left out. *)
Definition upload (K : Constants) (F : FileConstants) (http : CodeHttp)
    (data : UploadCodeRequest) (posted : list UploadBody)
    : list UploadBody * Result Thrown UploadCodeResponse :=
  match FileUtils.validateFileName K (up_fileName data) with
  | Err e => (posted, Err e)
  | Ok fileName =>
      if negb (FileUtils.isAllowedExtension F fileName)
      then (posted, FileUtils.invalid K "File extension not allowed for code uploads")
      else if JsString.isEmpty (up_content data)
      then (posted, FileUtils.invalid K "content is required")
      else
        let contentSize := FileUtils.getContentSize (up_content data) in
        match FileUtils.validateFileSize K F contentSize (MAX_CODE_SIZE F) with
        | Err e => (posted, Err e)
        | Ok _ =>
            let lang := default (FileUtils.getLanguage fileName) (up_language data) in
            let body := mkUploadBody fileName (up_content data) lang in
            (posted ++ [body], http body)
        end
  end.

(** The uploader [NeuranaClient] gives its workflows resource:
    [code.upload({fileName, content, language})], then the key. *)
Definition clientUploader (K : Constants) (F : FileConstants) (http : CodeHttp) : Uploader :=
  fun _ call =>
    match snd (upload K F http
                 (mkUploadRequest (Some (fileName call)) (content call) (Some (language call)))
                 []) with
    | Ok result => Ok (resp_key result)
    | Err e => Err e
    end.


(** ** The logger (logger.ts) *)

Inductive LogLevel : Type := LevelDebug | LevelInfo | LevelWarn | LevelError | LevelSilent.

Definition LEVEL_PRIORITY (l : LogLevel) : Z :=
  match l with
  | LevelDebug => 0
  | LevelInfo => 1
  | LevelWarn => 2
  | LevelError => 3
  | LevelSilent => 4
  end.

(** What a caller hands to the logger as data: an [Error] object or a
    plain value. *)
Inductive LogData : Type :=
| DataError (name message : string) (stack : option string)
| DataValue (v : Json).

Record LogEntry : Type := mkLogEntry {
  entry_level : LogLevel;
  entry_message : string;
  entry_timestamp : string;
  entry_context : string;
  entry_data : option Json;
}.

(** The private fields of the logger; [lg_handler] tells whether a
    handler is installed. *)
Record Logger : Type := mkLogger {
  lg_level : LogLevel;
  lg_prefix : string;
  lg_handler : bool;
}.

Record LoggerConfig : Type := mkLoggerConfig {
  lc_level : option LogLevel;
  lc_prefix : option string;
  lc_handler : bool;
}.

(** Where an entry goes: to the handler, or to the console. *)
Inductive Sink : Type := ToHandler | ToConsole.

Module Log.

(** The logger as the module creates it. *)
Definition initial : Logger := mkLogger LevelWarn "neurana" false.

(** [configure(config)]. *)
Definition configure (config : LoggerConfig) (l : Logger) : Logger :=
  mkLogger
    (default (lg_level l) (lc_level config))
    (match lc_prefix config with
     | Some (String c s) => String c s
     | _ => lg_prefix l
     end)
    (lc_handler config || lg_handler l).

(** [shouldLog(level)]. *)
Definition shouldLog (l : Logger) (level : LogLevel) : bool :=
  LEVEL_PRIORITY (lg_level l) <=? LEVEL_PRIORITY level.

Definition sensitiveKeys : list string :=
  ["apiKey"; "key"; "secret"; "password"; "token"; "authorization"].

(** [sensitiveKeys.some((s) => k.toLowerCase().includes(s))]. *)
Definition isSensitiveKey (k : string) : bool :=
  existsb (JsString.includes (FileUtils.toLowerCase k)) sensitiveKeys.

(** [redactSensitive(obj)]: the own properties of the result.
    [Object.entries] of an array lists its elements under their indices,
    and the result is always an object.  An entry whose key is
    [__proto__] gives the result no property: on the plain object
    [result], the assignment [result[k] = ...] of that key goes to the
    accessor of [Object.prototype], which changes the prototype of
    [result] or does nothing. *)
Fixpoint redactSensitive (obj : Json) : Json :=
  match obj with
  | JObj fields =>
      JObj ((fix entries (l : list (string * Json)) : list (string * Json) :=
               match l with
               | [] => []
               | (k, v) :: rest =>
                   if String.eqb k "__proto__" then entries rest
                   else
                     (k, if isSensitiveKey k then JStr "[REDACTED]" else redactSensitive v)
                     :: entries rest
               end) fields)
  | JArr items =>
      JObj ((fix entries (i : nat) (l : list Json) : list (string * Json) :=
               match l with
               | [] => []
               | v :: rest => (pretty i, redactSensitive v) :: entries (S i) rest
               end) 0%nat items)
  | other => other
  end.

(** [s.split("\n").slice(0, n).join("\n")]: the first [n] lines. *)
Fixpoint firstLines (n : nat) (s : string) : string :=
  match n with
  | O => EmptyString
  | S n' =>
      match s with
      | EmptyString => EmptyString
      | String c s' =>
          if Ascii.eqb c "010"
          then match n' with
               | O => EmptyString
               | _ => String c (firstLines n' s')
               end
          else String c (firstLines n s')
      end
  end.

(** [sanitizeData(data)]; [None] is undefined. *)
Definition sanitizeData (data : option LogData) : option Json :=
  match data with
  | None | Some (DataValue JNull) => None
  | Some (DataError name message stack) =>
      Some (JObj ([("name", JStr name); ("message", JStr message)] ++
                  match stack with
                  | Some st => [("stack", JStr (firstLines 5 st))]
                  | None => []
                  end))
  | Some (DataValue v) => Some (redactSensitive v)
  end.

(** [log(level, message, data, context)] at time [timestamp]: the
    entry, with where it goes, or nothing. *)
Definition log (l : Logger) (timestamp : string) (level : LogLevel) (message : string)
    (data : option LogData) (context : option string) : option (Sink * LogEntry) :=
  if negb (shouldLog l level) then None
  else
    Some (if lg_handler l then ToHandler else ToConsole,
          mkLogEntry level message timestamp (default (lg_prefix l) context)
            (sanitizeData data)).

End Log.


(** * Vocabulary of the properties *)

(** The error class the interpreter is documented to choose for a
    status that is not 2xx: 401 Authentication, 403 Authorization, 404
    NotFound, 400 and 422 Validation, 429 RateLimit, the base class
    otherwise. *)
Definition kindOfStatus (s : Z) : ErrorClass :=
  if s =? 401 then AuthenticationErrorClass
  else if s =? 403 then AuthorizationErrorClass
  else if s =? 404 then NotFoundErrorClass
  else if (s =? 400) || (s =? 422) then ValidationErrorClass
  else if s =? 429 then RateLimitErrorClass
  else NeuranaErrorClass.


(** How many times [fetch] was called. *)
Definition fetchCount (evs : list (Z * Event)) : nat :=
  length (List.filter (fun te => match snd te with EvFetch _ => true | _ => false end) evs).

(** The same response under another status. *)
Definition withStatus (s : Z) (r : Response) : Response :=
  mkResponse s (contentType r) (retryAfterHeader r) (bodyTime r) (json r) (text r).

Definition isCode (step : CreateStepInput) : bool := String.eqb (type step) "code".

Definition codeSteps (steps : list CreateStepInput) : list CreateStepInput :=
  List.filter isCode steps.




(** [out] is what may be transmitted for [step]: same type, name, next
    and condition; a code step without its "code" and "fileName" and with
    the key some upload of its source text returned as "fileId"; any
    other step as it is. *)
Definition transmittedAs (uploader : Uploader) (step out : CreateStepInput) : Prop :=
  type out = type step /\ name out = name step
  /\ next out = next step /\ condition out = condition step
  /\ if isCode step then
       config out !! "code" = None
       /\ config out !! "fileName" = None
       /\ exists history call key,
            uploader history call = Ok key
            /\ config step !! "code" = Some (JStr (content call))
            /\ config out !! "fileId" = Some (JStr key)
            /\ config out =
                 <["fileId" := JStr key]> (delete "fileName" (delete "code" (config step)))
     else out = step.

(** ** Inputs the properties are run on *)

Definition plainGet : RequestConfig := mkRequestConfig GET "/workflows" None None None.

Definition unavailable : Response :=
  mkResponse 503 None None 0 (Err (ThrowError "SyntaxError" "Unexpected end of JSON input")) (Ok "").

Definition alwaysUnavailable : Transport := fun _ => (100, Ok unavailable).

Definition notFound : Response :=
  mkResponse 404 (Some "application/json") None 5
    (Ok (JObj [("error", JObj [("code", JStr "NOT_FOUND"); ("message", JStr "Workflow not found")])]))
    (Ok "").


Definition rateLimited (retryAfter : option string) : Response :=
  mkResponse 429 (Some "application/json") retryAfter 5
    (Ok (JObj [("error", JObj [("code", JStr "RATE_LIMIT"); ("message", JStr "Too many requests")])]))
    (Ok "").



(** A successful plain-text response whose body stream breaks. *)
Definition brokenText : Response :=
  mkResponse 200 (Some "text/plain") None 5
    (Err (ThrowError "SyntaxError" "Unexpected token"))
    (Err (ThrowError "TypeError" "terminated")).

(** A 400 response whose error message is an object with a key
    [toString]. *)
Definition unprintable : Response :=
  mkResponse 400 (Some "application/json") None 5
    (Ok (JObj [("error", JObj [("message", JObj [("toString", JNum 1)])])]))
    (Ok "").

Definition validCodeStep : CreateStepInput :=
  mkStep "code" (Some "Process Data")
    (<["runtime" := JStr "python"]>
       (<["code" := JStr "print('Hello World')"]>
          (<["libs" := JArr [JStr "requests"]]> ∅)))
    None None.


Definition httpStep : CreateStepInput :=
  mkStep "http" None (<["url" := JStr "https://api.example.com"]> ∅) None None.

Definition sampleUploader : Uploader := fun _ _ => Ok "code-file-uuid-123".

Definition sampleHttp : Http := fun _ _ _ => Ok (mkWorkflow "wf_123" "" "" None).

Definition codeWorkflow : CreateWorkflowRequest :=
  mkCreateRequest (Some "Code Workflow") None [httpStep; validCodeStep] None.

Definition uploadedCodeStep : CreateStepInput :=
  mkStep "code" (Some "Process Data")
    (<["fileId" := JStr "code-file-uuid-123"]>
       (<["runtime" := JStr "python"]> (<["libs" := JArr [JStr "requests"]]> ∅)))
    None None.

Definition codeWorkflowBody : Payload :=
  mkPayload (Some "Code Workflow") None (Some [httpStep; uploadedCodeStep]) None.

Definition insecureRemoteUrl : string := "http://api.example.com/localhost".

Definition insecureRemoteConfig : NeuranaConfig :=
  mkConfig (Some (JStr "test-key-12345")) (Some insecureRemoteUrl) None None None None.


(** ** Vocabulary of the further properties *)

(** The name the orchestrator gives the file of code step [i] (counted
    from 0) that brings no [fileName]: [step_${i + 1}.${extension}]. *)
Definition defaultFileName (i : nat) (step : CreateStepInput) : string :=
  "step_" +:+ pretty (i + 1)%nat +:+ "." +:+
  (if isPython (config step !! "runtime") then "py" else "js").

(** The call the orchestrator makes to its uploader for step [i], when
    the step is a code step whose code is a string. *)
Definition expectedUpload (i : nat) (step : CreateStepInput) : option UploadCall :=
  if isCode step then
    match config step !! "code" with
    | Some (JStr code) =>
        Some (mkUpload
                (if Js.nullish (config step !! "fileName")
                 then JStr (defaultFileName i step)
                 else default JNull (config step !! "fileName"))
                code
                (if isPython (config step !! "runtime") then "python" else "javascript"))
    | _ => None
    end
  else None.

(** The uploader calls of a whole step list, in order, from index [i]. *)
Fixpoint expectedUploads (i : nat) (steps : list CreateStepInput) : list UploadCall :=
  match steps with
  | [] => []
  | step :: rest => option_list (expectedUpload i step) ++ expectedUploads (S i) rest
  end.

(** An endpoint [validateEndpointSecurity] objects to: not empty, not
    starting with [https://], mentioning neither [localhost] nor
    [127.0.0.1]. *)
Definition insecureUrl (url : string) : bool :=
  negb (JsString.isEmpty url)
  && negb (JsString.startsWith url "https://")
  && negb (JsString.includes url "localhost")
  && negb (JsString.includes url "127.0.0.1").

(** The warning logged for an insecure endpoint that is allowed. *)
Definition warningFor (url : string) : Warning :=
  mkWarning "Using insecure HTTP connection" (JsString.beforeFirst "?" url) "security".

(** The endpoints a configuration sets, in the order they are checked. *)
Definition configuredUrls (config : NeuranaConfig) : list string :=
  omap Datatypes.id [baseUrl config; mainApiUrl config; cfg_sdkBaseUrl config].

(** [validateEndpointSecurity] on one endpoint after the other, stopping
    at the first that throws. *)
Fixpoint validateEndpoints (K : Constants) (urls : list (option string))
    (allowInsecure : option bool) (ws : list Warning) : list Warning * Result Thrown unit :=
  match urls with
  | [] => (ws, Ok tt)
  | url :: rest =>
      match validateEndpointSecurity K url allowInsecure ws with
      | (w1, Err e) => (w1, Err e)
      | (w1, Ok _) => validateEndpoints K rest allowInsecure w1
      end
  end.

(** A decimal digit. *)
Definition isDigit (c : ascii) : bool :=
  let n := nat_of_ascii c in ((48 <=? n) && (n <=? 57))%nat.

(** Every entry [(key, value)] of an object, of the objects below it
    and of the elements of arrays, at any depth. *)
Fixpoint deepEntries (v : Json) : list (string * Json) :=
  match v with
  | JObj fields =>
      (fix go (l : list (string * Json)) : list (string * Json) :=
         match l with
         | [] => []
         | (k, x) :: rest => (k, x) :: deepEntries x ++ go rest
         end) fields
  | JArr items =>
      (fix go (l : list Json) : list (string * Json) :=
         match l with
         | [] => []
         | x :: rest => deepEntries x ++ go rest
         end) items
  | _ => []
  end.

(** The entries of which the assignments [result[k] = ...] make
    properties of [result]: all but those of key [__proto__]. *)
Definition assignable (kv : string * Json) : bool :=
  negb (String.eqb (fst kv) "__proto__").

(** What [redactSensitive] does to one of these entries. *)
Definition redactField (kv : string * Json) : string * Json :=
  (fst kv, if Log.isSensitiveKey (fst kv) then JStr "[REDACTED]" else Log.redactSensitive (snd kv)).

(** What [redactSensitive] does to the elements of an array, the first
    of them at index [i]. *)
Fixpoint redactItems (i : nat) (items : list Json) : list (string * Json) :=
  match items with
  | [] => []
  | v :: rest => (pretty i, Log.redactSensitive v) :: redactItems (S i) rest
  end.

(** [deepEntries] of an object, from its list of entries. *)
Fixpoint deepEntriesOfFields (l : list (string * Json)) : list (string * Json) :=
  match l with
  | [] => []
  | (k, x) :: rest => (k, x) :: deepEntries x ++ deepEntriesOfFields rest
  end.

(** The call [logger.warn(message, {url}, context)] the client makes for
    a [Warning]. *)
Definition emitWarning (l : Logger) (timestamp : string) (w : Warning)
    : option (Sink * LogEntry) :=
  Log.log l timestamp LevelWarn (warn_message w)
    (Some (DataValue (JObj [("url", JStr (warn_url w))]))) (Some (warn_context w)).


(** ** Further inputs *)

(** An answer without content, whose body is not JSON. *)
Definition noContent : Response :=
  mkResponse 204 None None 0 (Err (ThrowError "SyntaxError" "Unexpected end of JSON input")) (Ok "").

Definition noContentNet : Transport := fun _ => (50, Ok noContent).

Definition notFoundNet : Transport := fun _ => (50, Ok notFound).

(** A service that answers 503 once, then 404. *)
Definition recoveringNet : Transport :=
  fun attempt =>
    match attempt with
    | 1%nat => (100, Ok unavailable)
    | _ => (100, Ok notFound)
    end.

(** A host that cannot be reached: fetch rejects after 10 ms. *)
Definition fetchFailed : Thrown := ThrowError "TypeError" "fetch failed".

Definition offlineNet : Transport := fun _ => (10, Err fetchFailed).

(** An insecure remote endpoint with a query string, allowed. *)
Definition insecureAllowedConfig : NeuranaConfig :=
  mkConfig (Some (JStr "test-key-12345")) (Some "http://api.example.com/v1/?token=abc")
    None None None (Some true).

(** The same endpoint, not allowed. *)
Definition insecureRefusedConfig : NeuranaConfig :=
  mkConfig (Some (JStr "test-key-12345")) (Some "http://api.example.com/v1/?token=abc")
    None None None None.

(** Extensions and a size limit to run the upload path on. *)
Definition sampleFileConstants : FileConstants := {|
  ALLOWED_FILE_EXTENSIONS := [".ts"; ".js"; ".py"; ".json"; ".yaml"; ".yml"; ".md"];
  MAX_CODE_SIZE := 10 * 1024 * 1024;
  megabytes := fun n => pretty (n / (1024 * 1024)) +:+ ".0";
|}.

Definition sampleCodeHttp : CodeHttp :=
  fun body => Ok (mkUploadResponse ("code/" +:+ body_fileName body) (body_fileName body)).

(** Data handed to the logger: credentials at two depths and in an array. *)
Definition sampleLogData : Json :=
  JObj [("user", JStr "ada");
        ("request",
         JObj [("headers", JObj [("Authorization", JStr "Bearer abc"); ("accept", JStr "*/*")]);
               ("secrets", JArr [JStr "s1"])]);
        ("items", JArr [JObj [("apiKey", JStr "nrn_1"); ("name", JStr "first")]])].


(** * Properties of the request engine *)

(** ** One step of the retry loop, and the transport under a signal *)

(** The public methods hand [request] neither a signal nor a timeout of
    their own: the signal is the one of the request's own timer. *)
Lemma public_methods_use_the_timer_signal K clientTimeout net path body w :
  get K clientTimeout net path w =
    request K clientTimeout net (mkRequestConfig GET path None None None) w
  /\ post K clientTimeout net path body w =
       request K clientTimeout net (mkRequestConfig POST path body None None) w
  /\ patch K clientTimeout net path body w =
       request K clientTimeout net (mkRequestConfig PATCH path body None None) w
  /\ signal (mkRequestConfig GET path None None None) = None
  /\ signal (mkRequestConfig POST path body None None) = None
  /\ signal (mkRequestConfig PATCH path body None None) = None.
Proof. repeat split. Qed.

Lemma executeWithRetry_step net signal fuel attempt w :
  executeWithRetry net signal fuel attempt w =
  match fetch net signal attempt w with
  | (w1, Ok response) =>
      if shouldRetry (status response) attempt
      then match fuel with
           | O => (w1, None)
           | S fuel' =>
               executeWithRetry net signal fuel' (attempt + 1) (sleep (calculateDelay attempt) w1)
           end
      else (w1, Some (Ok response))
  | (w1, Err error) =>
      if isRetryableError error && (attempt <? RETRY.MAX_ATTEMPTS)%nat
      then match fuel with
           | O => (w1, None)
           | S fuel' =>
               executeWithRetry net signal fuel' (attempt + 1) (sleep (calculateDelay attempt) w1)
           end
      else (w1, Some (Err error))
  end.
Proof. destruct fuel; reflexivity. Qed.

Lemma fetch_in_time net signal attempt w a l out :
  abortAt signal = Some a -> net attempt = (l, out) -> now w + l <= a ->
  fetch net signal attempt w = (advanceTo (now w + l) (emit (EvFetch attempt) w), out).
Proof.
  intros Ha Hn Hle. unfold fetch. rewrite Ha, Hn. cbn [fst snd].
  destruct (Z.ltb_spec a (now w + l)); [lia | reflexivity].
Qed.


Lemma fetch_events net signal attempt w :
  events (fst (fetch net signal attempt w)) = events w ++ [(now w, EvFetch attempt)].
Proof.
  unfold fetch. destruct (abortAt signal) as [a|]; [| reflexivity].
  destruct (a <? now w + fst (net attempt)); reflexivity.
Qed.


Lemma shouldRetry_true s attempt :
  In s RETRY.RETRYABLE_STATUS -> (attempt < RETRY.MAX_ATTEMPTS)%nat ->
  shouldRetry s attempt = true.
Proof.
  intros Hin Hlt. unfold shouldRetry. apply andb_true_iff. split.
  - apply Nat.ltb_lt. exact Hlt.
  - apply existsb_exists. exists s. split; [exact Hin | apply Z.eqb_refl].
Qed.

Lemma shouldRetry_last s attempt :
  (RETRY.MAX_ATTEMPTS <= attempt)%nat -> shouldRetry s attempt = false.
Proof.
  intros Hge. unfold shouldRetry.
  destruct (Nat.ltb_spec attempt RETRY.MAX_ATTEMPTS); [lia | reflexivity].
Qed.

Lemma retryable_cases s :
  In s RETRY.RETRYABLE_STATUS ->
  s = 408 \/ s = 429 \/ s = 500 \/ s = 502 \/ s = 503 \/ s = 504.
Proof. unfold RETRY.RETRYABLE_STATUS. cbn. intuition. Qed.

Lemma calculateDelay_formula N :
  (1 <= N)%nat -> calculateDelay N = Z.min 30000 (1000 * 2 ^ (Z.of_nat N - 1)).
Proof.
  intros HN. unfold calculateDelay. destruct N as [| n]; [lia |]. apply Z.min_comm.
Qed.

(** The delays of the engine are delays a timer takes as they are. *)
Lemma timerDelay_calculateDelay N : timerDelay (calculateDelay N) = calculateDelay N.
Proof.
  assert (500 <= calculateDelay N <= 30000) as H.
  { unfold calculateDelay, RETRY.INITIAL_DELAY, RETRY.BACKOFF_FACTOR, RETRY.MAX_DELAY.
    destruct N as [| n].
    - change (1000 `div` 2) with 500. lia.
    - assert (1 <= 2 ^ (Z.of_nat (S n) - 1)) by (apply Z.pow_le_mono_r with (b := 0); lia).
      lia. }
  unfold timerDelay, TIMEOUT_MAX.
  destruct (Z.leb_spec 1 (calculateDelay N)); [| lia].
  destruct (Z.leb_spec (calculateDelay N) 2147483647); [reflexivity | lia].
Qed.

Lemma timerDelay_pos ms : 1 <= timerDelay ms.
Proof.
  unfold timerDelay. destruct (Z.leb_spec 1 ms); cbn [andb]; [| lia].
  destruct (ms <=? TIMEOUT_MAX); lia.
Qed.



(** The loop never runs out of fuel when it is given one unit per
    attempt that is left. *)
Lemma executeWithRetry_total net signal fuel : forall attempt w,
  (RETRY.MAX_ATTEMPTS - attempt <= fuel)%nat ->
  exists r, snd (executeWithRetry net signal fuel attempt w) = Some r.
Proof.
  induction fuel as [| fuel IH]; intros attempt w Hfuel;
    rewrite executeWithRetry_step;
    destruct (fetch net signal attempt w) as [w1 [response | error]].
  - rewrite shouldRetry_last by lia. eexists; reflexivity.
  - destruct (Nat.ltb_spec attempt RETRY.MAX_ATTEMPTS); [lia |].
    rewrite andb_false_r. eexists; reflexivity.
  - destruct (shouldRetry (status response) attempt) eqn:Hs; [| eexists; reflexivity].
    apply IH. lia.
  - destruct (isRetryableError error && (attempt <? RETRY.MAX_ATTEMPTS)%nat);
      [| eexists; reflexivity].
    apply IH. lia.
Qed.




Lemma executeWithRetry_final net signal fuel attempt w a l r :
  abortAt signal = Some a -> net attempt = (l, Ok r) -> now w + l <= a ->
  shouldRetry (status r) attempt = false ->
  executeWithRetry net signal fuel attempt w =
    (advanceTo (now w + l) (emit (EvFetch attempt) w), Some (Ok r)).
Proof.
  intros Ha Hn Hle Hs. rewrite executeWithRetry_step.
  erewrite fetch_in_time by eassumption. cbv beta iota. rewrite Hs. reflexivity.
Qed.

Lemma fetchCount_app evs1 evs2 :
  fetchCount (evs1 ++ evs2) = (fetchCount evs1 + fetchCount evs2)%nat.
Proof. unfold fetchCount. rewrite List.filter_app, length_app. reflexivity. Qed.

Lemma fetchCount_fetch t n : fetchCount [(t, EvFetch n)] = 1%nat.
Proof. reflexivity. Qed.

Lemma fetchCount_sleep t ms : fetchCount [(t, EvSleep ms)] = 0%nat.
Proof. reflexivity. Qed.

(** From attempt [attempt] on, the loop calls [fetch] at most once per
    attempt up to MAX_ATTEMPTS, and once when none is left. *)
Lemma executeWithRetry_fetchCount net signal fuel : forall attempt w,
  (fetchCount (events (fst (executeWithRetry net signal fuel attempt w)))
   <= fetchCount (events w) + S (RETRY.MAX_ATTEMPTS - attempt))%nat.
Proof.
  induction fuel as [| fuel IH]; intros attempt w;
    rewrite executeWithRetry_step;
    pose proof (fetch_events net signal attempt w) as Hf;
    destruct (fetch net signal attempt w) as [w1 [response | error]]; cbn [fst] in Hf.
  1,2: match goal with |- context [if ?b then _ else _] => destruct b end;
       cbn [fst]; rewrite Hf, fetchCount_app, fetchCount_fetch; lia.
  - destruct (shouldRetry (status response) attempt) eqn:Hs.
    + assert (attempt < RETRY.MAX_ATTEMPTS)%nat as Hlt.
      { unfold shouldRetry in Hs. apply andb_true_iff in Hs as [Hs _].
        apply Nat.ltb_lt in Hs. exact Hs. }
      pose proof (IH (attempt + 1)%nat (sleep (calculateDelay attempt) w1)) as HIH.
      cbn [sleep emit advanceTo events] in HIH.
      rewrite Hf, !fetchCount_app, fetchCount_fetch, fetchCount_sleep in HIH. lia.
    + cbn [fst]. rewrite Hf, fetchCount_app, fetchCount_fetch. lia.
  - destruct (isRetryableError error && (attempt <? RETRY.MAX_ATTEMPTS)%nat) eqn:Hs.
    + assert (attempt < RETRY.MAX_ATTEMPTS)%nat as Hlt.
      { apply andb_true_iff in Hs as [_ Hs]. apply Nat.ltb_lt in Hs. exact Hs. }
      pose proof (IH (attempt + 1)%nat (sleep (calculateDelay attempt) w1)) as HIH.
      cbn [sleep emit advanceTo events] in HIH.
      rewrite Hf, !fetchCount_app, fetchCount_fetch, fetchCount_sleep in HIH. lia.
    + cbn [fst]. rewrite Hf, fetchCount_app, fetchCount_fetch. lia.
Qed.

(** What returning the response adds to the events: the timer is
    cleared at the time the loop settled, after the read of the body has
    started and before it settles. *)
Lemma returnResponse_events response w :
  events (returnResponse response w) =
    events w ++
    match bodyRead response with
    | Some b =>
        [(now w, EvReadBody b); (now w, EvClearTimeout);
         (now w + bodyTime response, EvBodySettled b)]
    | None => [(now w, EvClearTimeout)]
    end.
Proof.
  unfold returnResponse. destruct (bodyRead response) as [b |]; cbn; [| reflexivity].
  rewrite <- !app_assoc. reflexivity.
Qed.

Lemma returnResponse_now response w :
  now (returnResponse response w) =
    match bodyRead response with
    | Some _ => now w + bodyTime response
    | None => now w
    end.
Proof. unfold returnResponse. destruct (bodyRead response); reflexivity. Qed.

Lemma returnResponse_fetchCount response w :
  fetchCount (events (returnResponse response w)) = fetchCount (events w).
Proof.
  rewrite returnResponse_events, fetchCount_app.
  destruct (bodyRead response); cbn; lia.
Qed.

Lemma request_fetchCount K clientTimeout net config w :
  (fetchCount (events (fst (request K clientTimeout net config w)))
   <= fetchCount (events w) + RETRY.MAX_ATTEMPTS)%nat.
Proof.
  unfold request.
  match goal with |- context [executeWithRetry ?n ?s ?f ?a ?w1] =>
    pose proof (executeWithRetry_fetchCount n s f a w1) as H;
    destruct (executeWithRetry n s f a w1) as [w2 r] end.
  cbn [fst emit events] in H. rewrite !fetchCount_app in H.
  change (fetchCount [(now w, EvSetTimeout (default clientTimeout (timeout config)))])
    with 0%nat in H.
  assert (fetchCount (events (emit EvClearTimeout w2)) = fetchCount (events w2)) as Hc.
  { cbn [emit events]. rewrite fetchCount_app. cbn. lia. }
  destruct r as [[response | error] |]; cbn [fst];
    rewrite ?returnResponse_fetchCount, ?Hc; unfold RETRY.MAX_ATTEMPTS in *; lia.
Qed.

(** [handleResponse] looks at no other body than the one [bodyRead]
    names. *)
Lemma handleResponse_reads_bodyRead K r j t :
  handleResponse K
    (mkResponse (status r) (contentType r) (retryAfterHeader r) (bodyTime r)
       (match bodyRead r with Some BodyJson => json r | _ => j end)
       (match bodyRead r with Some BodyText => text r | _ => t end))
  = handleResponse K r.
Proof.
  unfold handleResponse, bodyRead, errorDataOf, isJson, ok. cbn [status contentType json text].
  destruct (status r =? HTTP_STATUS.NO_CONTENT); [reflexivity |].
  destruct ((200 <=? status r) && (status r <=? 299)); cbn [negb];
    destruct (match contentType r with
              | Some ct => JsString.includes ct "application/json"
              | None => false
              end); reflexivity.
Qed.

(** ** The response interpreter *)

Lemma ok_false_not_204 r : ok r = false -> (status r =? HTTP_STATUS.NO_CONTENT) = false.
Proof.
  unfold ok, HTTP_STATUS.NO_CONTENT. intros H.
  destruct (Z.eqb_spec (status r) 204) as [E|]; [| reflexivity].
  rewrite E in H. discriminate H.
Qed.

(** [createHttpError] returns exactly when the message converts to a
    string, and throws the TypeError of the conversion when not. *)
Lemma createHttpError_cases K r ed :
  (exists m,
      Js.toString (messageOf ed) = Some m
      /\ createHttpError K r ed =
           Ok (errorOfStatus K r (codeOf ed) m (errorField "details" ed)))
  \/ (Js.toString (messageOf ed) = None /\ createHttpError K r ed = Err cannotConvert).
Proof.
  unfold createHttpError. destruct (Js.toString (messageOf ed)) as [m |]; eauto.
Qed.

Lemma createHttpError_Ok K r ed e :
  createHttpError K r ed = Ok e <->
  exists m,
    Js.toString (messageOf ed) = Some m
    /\ e = errorOfStatus K r (codeOf ed) m (errorField "details" ed).
Proof.
  unfold createHttpError. destruct (Js.toString (messageOf ed)) as [m |]; split.
  - intros [= <-]. eauto.
  - intros (m' & [= <-] & ->). reflexivity.
  - discriminate.
  - intros (m' & H & _). discriminate H.
Qed.

(** A body without a message, or with a message that is a string,
    converts. *)
Lemma toString_messageOf_string ed :
  (Js.nullish (errorField "message" ed) = true ->
   Js.toString (messageOf ed) = Some "An unexpected error occurred")
  /\ (forall s, errorField "message" ed = Some (JStr s) ->
        Js.toString (messageOf ed) = Some s).
Proof.
  unfold messageOf, Js.coalesce, Js.nullish. split.
  - destruct (errorField "message" ed) as [[] |]; try discriminate; reflexivity.
  - intros s ->. reflexivity.
Qed.

Lemma handleResponse_not_ok K r :
  ok r = false ->
  handleResponse K r =
    match createHttpError K r (errorDataOf r) with
    | Ok e => Err (ThrowNeurana e)
    | Err thrown => Err thrown
    end.
Proof.
  intros H. unfold handleResponse. rewrite (ok_false_not_204 r H), H. reflexivity.
Qed.

Lemma retryable_not_ok r : In (status r) RETRY.RETRYABLE_STATUS -> ok r = false.
Proof.
  intros H. apply retryable_cases in H. unfold ok.
  destruct H as [E|[E|[E|[E|[E|E]]]]]; rewrite E; reflexivity.
Qed.

Lemma retryable_statusCode K r c m d :
  In (status r) RETRY.RETRYABLE_STATUS ->
  statusCode (errorOfStatus K r c m d) = Some (status r).
Proof.
  intros H. apply retryable_cases in H. unfold errorOfStatus.
  destruct H as [E|[E|[E|[E|[E|E]]]]]; rewrite E; reflexivity.
Qed.

Lemma class_errorOfStatus K r c m d :
  class (errorOfStatus K r c m d) = kindOfStatus (status r).
Proof.
  unfold errorOfStatus, kindOfStatus, HTTP_STATUS.UNAUTHORIZED, HTTP_STATUS.FORBIDDEN,
    HTTP_STATUS.NOT_FOUND, HTTP_STATUS.UNPROCESSABLE, HTTP_STATUS.BAD_REQUEST,
    HTTP_STATUS.RATE_LIMITED.
  destruct (status r =? 401); [reflexivity |].
  destruct (status r =? 403); [reflexivity |].
  destruct (status r =? 404); [reflexivity |].
  rewrite (orb_comm (status r =? 400)).
  destruct ((status r =? 422) || (status r =? 400)); [reflexivity |].
  destruct (status r =? 429); reflexivity.
Qed.

Lemma message_errorOfStatus K r c m d : message (errorOfStatus K r c m d) = m.
Proof.
  unfold errorOfStatus.
  repeat match goal with |- context [if ?b then _ else _] => destruct b end; reflexivity.
Qed.

(** What [handleResponse] rejects with is one of the SDK's errors,
    except in two cases: [text()] of a successful response that is not
    JSON rejects, and that rejection goes out as it is; or the message
    of an error body does not convert to a string, and the TypeError of
    the constructor goes out. *)
Lemma handleResponse_cases K r :
  match handleResponse K r with
  | Ok _ => True
  | Err (ThrowNeurana _) => True
  | Err t =>
      (text r = Err t /\ ok r = true /\ isJson r = false)
      \/ (t = cannotConvert /\ ok r = false
          /\ Js.toString (messageOf (errorDataOf r)) = None)
  end.
Proof.
  unfold handleResponse.
  destruct (status r =? HTTP_STATUS.NO_CONTENT); [exact I |].
  destruct (ok r); cbn [negb].
  - destruct (isJson r); cbn [negb].
    + destruct (json r); exact I.
    + destruct (text r) as [s | [e | n m | v]]; auto.
  - destruct (createHttpError_cases K r (errorDataOf r)) as [(m & _ & ->) | (Hm & ->)];
      [exact I |].
    right. auto.
Qed.

(** [handleError] always yields one of the SDK's errors: what it is
    given when that is one already, Timeout for an AbortError, Network
    for a message about fetch or network, the base class otherwise. *)
Lemma handleError_cases K error :
  match error with
  | ThrowNeurana e => handleError K error = e
  | ThrowError name message =>
      (name = "AbortError" -> handleError K error = TimeoutError K None)
      /\ (name <> "AbortError" ->
          JsString.includes message "fetch" || JsString.includes message "network" = true ->
          handleError K error = NetworkError K (Some "Failed to connect to server"))
      /\ (name <> "AbortError" ->
          JsString.includes message "fetch" || JsString.includes message "network" = false ->
          handleError K error =
            newNeuranaError "An unexpected error occurred" (JStr "UNKNOWN_ERROR") None None)
  | ThrowValue _ =>
      handleError K error =
        newNeuranaError "An unexpected error occurred" (JStr "UNKNOWN_ERROR") None None
  end.
Proof.
  destruct error as [e | name message | v]; cbn; [reflexivity | | reflexivity].
  destruct (String.eqb_spec name "AbortError") as [-> | Hne].
  - split; [reflexivity |]. split; intros H; contradiction H; reflexivity.
  - split; [intros H; contradiction (Hne H) |].
    split; intros _ ->; reflexivity.
Qed.

(** Every request settles, and to a value or one of the SDK's errors
    unless the body of a successful non-JSON response failed to read, or
    the message of an error body did not convert to a string. *)
Lemma request_outcome_cases K clientTimeout net config w :
  exists outcome,
    snd (request K clientTimeout net config w) = Some outcome
    /\ match outcome with
       | Ok _ => True
       | Err (ThrowNeurana _) => True
       | Err t =>
           exists r,
             (text r = Err t /\ ok r = true /\ isJson r = false)
             \/ (t = cannotConvert /\ ok r = false
                 /\ Js.toString (messageOf (errorDataOf r)) = None)
       end.
Proof.
  unfold request.
  match goal with |- context [executeWithRetry ?n ?s ?f ?a ?w1] =>
    destruct (executeWithRetry_total n s f a w1) as [r Hr];
      [unfold RETRY.MAX_ATTEMPTS; lia |];
    destruct (executeWithRetry n s f a w1) as [w2 o] end.
  cbn [snd] in *. subst o. destruct r as [response | error]; cbn [snd].
  - eexists. split; [reflexivity |].
    pose proof (handleResponse_cases K response) as H.
    destruct (handleResponse K response) as [v | [e | nm m | v]]; eauto.
  - eexists. split; [reflexivity | exact I].
Qed.

Lemma errorOfStatus_429 K r c m d :
  status r = 429 ->
  errorOfStatus K r c m d =
    RateLimitError K
      (match retryAfterHeader r with
       | Some h => default (NumInt 60) (JsString.parseInt h)
       | None => NumInt 60
       end)
      (Some m).
Proof.
  intros Hs. unfold errorOfStatus. rewrite Hs. cbn.
  destruct (retryAfterHeader r) as [[| c0 h] |]; reflexivity.
Qed.

Lemma handleResponse_429 K r m :
  status r = 429 ->
  Js.toString (messageOf (errorDataOf r)) = Some m ->
  handleResponse K r =
    Err (ThrowNeurana
           (RateLimitError K
              (match retryAfterHeader r with
               | Some h => default (NumInt 60) (JsString.parseInt h)
               | None => NumInt 60
               end)
              (Some m))).
Proof.
  intros Hs Hm. rewrite handleResponse_not_ok by (unfold ok; rewrite Hs; reflexivity).
  unfold createHttpError. rewrite Hm, (errorOfStatus_429 K r _ m _ Hs). reflexivity.
Qed.

Lemma parseDigits_nonneg s : forall acc n,
  (forall a, acc = Some a -> 0 <= a) ->
  JsString.parseDigits acc s = Some n -> 0 <= n.
Proof.
  induction s as [| c s IH]; intros acc n Hacc H; cbn in H.
  - apply Hacc, H.
  - destruct (JsString.digitValue c) as [d|] eqn:Hd; [| apply Hacc, H].
    apply (IH _ _) in H; [exact H |].
    intros a [= <-].
    assert (0 <= d) as Hd0.
    { unfold JsString.digitValue in Hd.
      destruct ((48 <=? nat_of_ascii c)%nat && (nat_of_ascii c <=? 57)%nat);
        [injection Hd as <-; lia | discriminate Hd]. }
    destruct acc as [a0|]; cbn; [specialize (Hacc a0 eq_refl) |]; lia.
Qed.

(** Rounding to a double keeps a natural number a natural number or
    makes it Infinity, and leaves it as it is below 2^53. *)
Lemma roundToDouble_nonneg n : 0 <= n -> isNegative (roundToDouble n) = false.
Proof.
  intros Hn. unfold roundToDouble.
  destruct (Z.ltb_spec n (2 ^ 53)); [cbn; apply Z.ltb_ge, Hn |].
  cbv zeta. set (e := Z.log2 n - 52).
  match goal with |- context [if ?c then ?a + 1 else ?b] =>
    set (q' := if c then a + 1 else b) end.
  destruct (2 ^ 1024 <=? q' * 2 ^ e); [reflexivity |].
  cbn [isNegative]. apply Z.ltb_ge.
  assert (0 <= n / 2 ^ e) as Hq.
  { apply Z.div_pos; [exact Hn |]. apply Z.pow_pos_nonneg; [lia |].
    subst e. assert (53 <= Z.log2 n); [| lia].
    change 53 with (Z.log2 (2 ^ 53)). apply Z.log2_le_mono. exact H. }
  assert (0 <= q') as Hq' by (subst q'; destruct (_ || _); lia).
  apply Z.mul_nonneg_nonneg; [exact Hq' |]. apply Z.pow_nonneg. lia.
Qed.

Lemma roundToDouble_safe n : n < 2 ^ 53 -> roundToDouble n = NumInt n.
Proof.
  intros H. unfold roundToDouble. destruct (Z.ltb_spec n (2 ^ 53)); [reflexivity | lia].
Qed.

(** [parseInt] is negative only behind a minus sign. *)
Lemma parseInt_nonneg h x :
  JsString.startsWith (JsString.trimStart h) "-" = false ->
  JsString.parseInt h = Some x -> isNegative x = false.
Proof.
  unfold JsString.parseInt, JsString.startsWith.
  destruct (JsString.trimStart h) as [| c r]; [discriminate |].
  cbn [String.prefix].
  destruct (Ascii.eqb_spec c "-") as [-> | Hc].
  - destruct r; cbn; discriminate.
  - intros _.
    assert (forall s, roundToDouble <$> JsString.parseDigits None s = Some x ->
                      isNegative x = false) as Hd.
    { intros s Hs. destruct (JsString.parseDigits None s) as [n |] eqn:Hp; [| discriminate Hs].
      injection Hs as <-. apply roundToDouble_nonneg.
      eapply parseDigits_nonneg; [| exact Hp]. discriminate. }
    destruct (Ascii.eqb c "+"); apply Hd.
Qed.

(** ** Claims about the request engine *)

Lemma sleep_calculateDelay N w :
  sleep (calculateDelay N) w =
    advanceTo (now w + calculateDelay N) (emit (EvSleep (calculateDelay N)) w).
Proof. unfold sleep. rewrite timerDelay_calculateDelay. reflexivity. Qed.

(** C1.  When the three attempts of an operation each complete with a
    retryable status (before the deadline of the request), the engine
    calls [fetch] three times, sleeps [calculateDelay 1 = 1000] ms after
    the first attempt and [calculateDelay 2 = 2000] ms after the second,
    and settles to the classification of the third response: a
    rejection, with an error that carries the status of that response
    whenever the message of its body converts to a string.  The delay
    after attempt N >= 1 is min(30000, 1000 * 2^(N-1)), with nothing
    random in it, no request calls [fetch] more than MAX_ATTEMPTS = 3
    times, and any attempt below the third that completes in time with a
    retryable status is followed by that delay and the next attempt. *)
Theorem retry_backoff_until_max_attempts K clientTimeout net config w r1 r2 r3 l1 l2 l3 :
  signal config = None ->
  net 1%nat = (l1, Ok r1) -> net 2%nat = (l2, Ok r2) -> net 3%nat = (l3, Ok r3) ->
  In (status r1) RETRY.RETRYABLE_STATUS ->
  In (status r2) RETRY.RETRYABLE_STATUS ->
  In (status r3) RETRY.RETRYABLE_STATUS ->
  0 <= l1 -> 0 <= l2 -> 0 <= l3 ->
  l1 + 1000 + l2 + 2000 + l3 <= timerDelay (default clientTimeout (timeout config)) ->
  let t := now w in
  request K clientTimeout net config w =
    (returnResponse r3
       (mkWorld (t + l1 + 1000 + l2 + 2000 + l3)
          (events w ++
             [(t, EvSetTimeout (default clientTimeout (timeout config)));
              (t, EvFetch 1);
              (t + l1, EvSleep 1000);
              (t + l1 + 1000, EvFetch 2);
              (t + l1 + 1000 + l2, EvSleep 2000);
              (t + l1 + 1000 + l2 + 2000, EvFetch 3)])),
     Some (handleResponse K r3))
  /\ isOk (handleResponse K r3) = false
  /\ (forall m, Js.toString (messageOf (errorDataOf r3)) = Some m ->
        exists e, handleResponse K r3 = Err (ThrowNeurana e)
                  /\ statusCode e = Some (status r3))
  /\ (forall N, (1 <= N)%nat ->
        calculateDelay N = Z.min 30000 (1000 * 2 ^ (Z.of_nat N - 1)))
  /\ (forall net' config' w',
        (fetchCount (events (fst (request K clientTimeout net' config' w')))
         <= fetchCount (events w') + 3)%nat)
  /\ (forall net' sig a fuel attempt w' l r,
        abortAt sig = Some a -> net' attempt = (l, Ok r) -> now w' + l <= a ->
        In (status r) RETRY.RETRYABLE_STATUS -> (attempt < RETRY.MAX_ATTEMPTS)%nat ->
        executeWithRetry net' sig (S fuel) attempt w' =
          executeWithRetry net' sig fuel (attempt + 1)
            (sleep (calculateDelay attempt)
               (advanceTo (now w' + l) (emit (EvFetch attempt) w')))).
Proof.
  intros Hsig H1 H2 H3 S1 S2 S3 L1 L2 L3 Hsum t.
  split; [| split; [| split; [| split; [| split]]]].
  - unfold request. rewrite Hsig. cbn [default from_option].
    set (T := default clientTimeout (timeout config)) in *.
    set (D := timerDelay T) in *.
    rewrite executeWithRetry_step.
    erewrite fetch_in_time; [| reflexivity | exact H1 | cbn; lia].
    cbv beta iota.
    rewrite shouldRetry_true by (trivial; unfold RETRY.MAX_ATTEMPTS; lia).
    cbn [RETRY.MAX_ATTEMPTS]. rewrite sleep_calculateDelay.
    change (calculateDelay 1) with 1000.
    rewrite executeWithRetry_step.
    erewrite fetch_in_time; [| reflexivity | exact H2 | cbn; lia].
    cbv beta iota.
    rewrite shouldRetry_true by (trivial; unfold RETRY.MAX_ATTEMPTS; cbn; lia).
    rewrite sleep_calculateDelay. change (calculateDelay (1 + 1)) with 2000.
    rewrite executeWithRetry_step.
    erewrite fetch_in_time; [| reflexivity | exact H3 | cbn; lia].
    cbv beta iota.
    rewrite shouldRetry_last by (unfold RETRY.MAX_ATTEMPTS; cbn; lia).
    unfold emit, advanceTo. cbn [now events].
    rewrite <- !app_assoc. cbn [app]. subst t. reflexivity.
  - rewrite handleResponse_not_ok by (apply retryable_not_ok, S3).
    destruct (createHttpError K r3 (errorDataOf r3)); reflexivity.
  - intros m Hm. eexists. split.
    + rewrite handleResponse_not_ok by (apply retryable_not_ok, S3).
      unfold createHttpError. rewrite Hm. reflexivity.
    + apply retryable_statusCode, S3.
  - apply calculateDelay_formula.
  - intros. apply request_fetchCount.
  - intros net' sig a fuel attempt w' l r Ha Hn Hle Hin Hlt.
    rewrite executeWithRetry_step.
    erewrite fetch_in_time by eassumption. cbv beta iota.
    rewrite shouldRetry_true by assumption. reflexivity.
Qed.

(** C4, as the code has it.  A response whose status is not 2xx is
    rejected with the error [createHttpError] makes of the body parsed as
    JSON, or of null when the body is not JSON or does not parse.  The
    class of the error follows the status: 401 Authentication, 403
    Authorization, 404 NotFound, 400 and 422 Validation (with the details
    of the body), 429 RateLimit, and the base class for any other status.
    The message is the one of the body, converted to a string, and the
    generic one when the body has none.  The code of the body, whatever
    its type, is kept by a base-class error only, which also carries the
    status, and is UNKNOWN_ERROR when the body has none; an error of
    another class has the code of its class.  The statement is about the
    bodies whose message converts to a string, the integers in it being
    of those JavaScript prints digit by digit. *)
Theorem non_2xx_status_maps_to_error_kind K (response : Response) (m : string) :
  ok response = false ->
  let errorData := errorDataOf response in
  Js.toString (messageOf errorData) = Some m ->
  Js.exact (messageOf errorData) = true ->
  let e := errorOfStatus K response (codeOf errorData) m (errorField "details" errorData) in
  createHttpError K response errorData = Ok e
  /\ handleResponse K response = Err (ThrowNeurana e)
  /\ class e = kindOfStatus (status response)
  /\ message e = m
  /\ (Js.nullish (errorField "message" errorData) = true ->
      m = "An unexpected error occurred")
  /\ (forall s, errorField "message" errorData = Some (JStr s) -> m = s)
  /\ ((isJson response = false \/ isOk (json response) = false) ->
       errorData = None /\ m = "An unexpected error occurred")
  /\ (class e = ValidationErrorClass -> details e = errorField "details" errorData)
  /\ (class e = NeuranaErrorClass ->
       statusCode e = Some (status response)
       /\ details e = errorField "details" errorData
       /\ (Js.nullish (errorField "code" errorData) = true -> code e = JStr "UNKNOWN_ERROR")
       /\ (forall v, errorField "code" errorData = Some v -> v <> JNull -> code e = v))
  /\ (class e <> NeuranaErrorClass ->
       In (code e)
          [JStr ERROR_CODES.AUTHENTICATION_FAILED; JStr ERROR_CODES.AUTHORIZATION_FAILED;
           JStr ERROR_CODES.NOT_FOUND; JStr ERROR_CODES.VALIDATION_ERROR;
           JStr ERROR_CODES.RATE_LIMIT_EXCEEDED]
       /\ code e <> JStr "UNKNOWN_ERROR").
Proof.
  intros Hok errorData Hm Hexact e.
  assert (createHttpError K response errorData = Ok e) as Hc
    by (unfold createHttpError; rewrite Hm; reflexivity).
  split; [exact Hc |].
  split; [rewrite handleResponse_not_ok by exact Hok; fold errorData; rewrite Hc; reflexivity |].
  split; [apply class_errorOfStatus |].
  split; [apply message_errorOfStatus |].
  destruct (toString_messageOf_string errorData) as [Hnull Hstr].
  split; [intros H; apply Hnull in H; congruence |].
  split; [intros s H; apply Hstr in H; congruence |].
  split.
  { intros Habs.
    assert (errorData = None) as Hnone.
    { subst errorData. unfold errorDataOf.
      destruct Habs as [Hj | Hp]; [rewrite Hj; reflexivity |].
      destruct (isJson response); [| reflexivity].
      destruct (json response); [discriminate Hp | reflexivity]. }
    split; [exact Hnone |].
    rewrite Hnone in Hm. cbn in Hm. congruence. }
  subst e. unfold errorOfStatus.
  split; [| split].
  - repeat match goal with |- context [if ?b then _ else _] => destruct b end;
      cbn; intros H; try discriminate H; reflexivity.
  - repeat match goal with |- context [if ?b then _ else _] => destruct b end;
      cbn; intros H; try discriminate H.
    split; [reflexivity |]. split; [reflexivity |].
    unfold codeOf, Js.coalesce, Js.nullish. split.
    + destruct (errorField "code" errorData) as [[] |]; try discriminate; reflexivity.
    + intros v -> Hv. destruct v; try reflexivity. contradiction Hv. reflexivity.
  - repeat match goal with |- context [if ?b then _ else _] => destruct b end;
      cbn [class code AuthenticationError AuthorizationError NotFoundError ValidationError
             RateLimitError newNeuranaError];
      intros H; try (contradiction H; reflexivity);
      (split; [cbn; auto 10 | discriminate]).
Qed.

(** C4, where it fails: a 401 response without a body is rejected with
    the generic message, but the code of the error is the one of its
    class, not UNKNOWN_ERROR.  And an error body whose message is an
    object with a key [toString] makes the constructor of the error throw:
    what the response is rejected with is that TypeError, no error of the
    SDK. *)
Lemma typed_error_code_is_not_unknown_error :
  (exists e,
      handleResponse sampleConstants (withStatus 401 unavailable) = Err (ThrowNeurana e)
      /\ class e = AuthenticationErrorClass
      /\ message e = "An unexpected error occurred"
      /\ code e = JStr "AUTH_FAILED"
      /\ code e <> JStr "UNKNOWN_ERROR")
  /\ handleResponse sampleConstants unprintable = Err cannotConvert.
Proof.
  split; [| reflexivity].
  eexists. split; [reflexivity |]. repeat split. discriminate.
Qed.

(** C5.  The code at the input where the classification is not total: a
    200 response that is not JSON and whose [text()] rejects.  The
    rejection leaves [request] as the raw TypeError it is, not as one of
    the SDK's errors: [handleResponse] is returned without [await], so
    the [catch] that would apply [handleError] never sees it. *)
Theorem text_read_failure_reaches_caller_raw :
  ok brokenText = true
  /\ isJson brokenText = false
  /\ snd (request sampleConstants TIMEOUTS.DEFAULT (fun _ => (5, Ok brokenText))
            plainGet world0)
     = Some (Err (ThrowError "TypeError" "terminated"))
  /\ handleError sampleConstants (ThrowError "TypeError" "terminated")
     = newNeuranaError "An unexpected error occurred" (JStr "UNKNOWN_ERROR") None None.
Proof. repeat split. Qed.

(** C6, as the code has it.  A 429 response (the message of whose body
    converts to a string) is rejected with a RateLimit error whose
    retry-after is [parseInt] of the Retry-After header when that is a
    number, and 60 when the header is missing, empty or does not parse:
    45 for the header 45.  [parseInt] gives a double: 9007199254740992
    for the header 9007199254740993.  The value is the parsed one
    whatever its sign; it is not negative when the header does not start
    (after white space) with a minus sign. *)
Theorem rate_limit_carries_parsed_retry_after K (response : Response) (m : string) :
  status response = 429 ->
  Js.toString (messageOf (errorDataOf response)) = Some m ->
  exists e,
    handleResponse K response = Err (ThrowNeurana e)
    /\ class e = RateLimitErrorClass
    /\ retryAfter e =
         Some (match retryAfterHeader response with
               | Some h => default (NumInt 60) (JsString.parseInt h)
               | None => NumInt 60
               end)
    /\ (retryAfterHeader response = Some "45" -> retryAfter e = Some (NumInt 45))
    /\ (retryAfterHeader response = Some "9007199254740993" ->
        retryAfter e = Some (NumInt 9007199254740992))
    /\ (retryAfterHeader response = None -> retryAfter e = Some (NumInt 60))
    /\ (forall h, retryAfterHeader response = Some h ->
          JsString.parseInt h = None -> retryAfter e = Some (NumInt 60))
    /\ (forall h x, retryAfterHeader response = Some h ->
          JsString.parseInt h = Some x -> retryAfter e = Some x)
    /\ (forall h, retryAfterHeader response = Some h ->
          JsString.startsWith (JsString.trimStart h) "-" = false ->
          exists x, retryAfter e = Some x /\ isNegative x = false).
Proof.
  intros Hs Hm. eexists. split; [apply handleResponse_429; eassumption |].
  cbn [class retryAfter RateLimitError].
  split; [reflexivity |]. split; [reflexivity |].
  split; [intros ->; reflexivity |].
  split; [intros ->; vm_compute; reflexivity |].
  split; [intros ->; reflexivity |].
  split; [intros h -> ->; reflexivity |].
  split; [intros h x -> ->; reflexivity |].
  intros h -> Hsign. eexists. split; [reflexivity |].
  destruct (JsString.parseInt h) as [x |] eqn:Hp; cbn; [| reflexivity].
  eapply parseInt_nonneg; eassumption.
Qed.

(** C6, where it fails: a 429 response with the header Retry-After: -5
    yields a RateLimit error whose retry-after is -5. *)
Lemma retry_after_can_be_negative :
  exists e,
    handleResponse sampleConstants (rateLimited (Some "-5")) = Err (ThrowNeurana e)
    /\ class e = RateLimitErrorClass
    /\ retryAfter e = Some (NumInt (-5))
    /\ isNegative (NumInt (-5)) = true.
Proof.
  eexists. split; [reflexivity |]. split; [reflexivity |].
  split; reflexivity.
Qed.






(** * Properties of the step orchestrator *)


Lemma processStep_ok K uploader i step log log1 out :
  processStep K uploader i step log = (log1, Ok out) ->
  transmittedAs uploader step out
  /\ exists uploads, log1 = log ++ map EvUpload uploads
                     /\ length uploads = length (codeSteps [step]).
Proof.
  unfold processStep, transmittedAs, codeSteps, isCode. cbn [List.filter].
  destruct (String.eqb (type step) "code").
  - destruct (Js.falsy (config step !! "runtime")); [discriminate |].
    destruct (negb (supportedRuntime (config step !! "runtime"))); [discriminate |].
    destruct (config step !! "code") as [[| | | code | | |] |] eqn:Hcode; try discriminate.
    destruct (JsString.isEmpty (JsString.trim code)); [discriminate |].
    match goal with |- context [uploader ?h ?c] =>
      destruct (uploader h c) as [key | e] eqn:Hup end; [| discriminate].
    intros [= <- <-]. cbn.
    split.
    + repeat split; try reflexivity.
      * rewrite lookup_insert_ne by discriminate.
        rewrite lookup_delete_ne by discriminate. apply lookup_delete_eq.
      * rewrite lookup_insert_ne by discriminate. apply lookup_delete_eq.
      * eexists _, _, key. split; [exact Hup |]. cbn.
        split; [reflexivity |]. split; [apply lookup_insert_eq | reflexivity].
    + eexists [_]. split; reflexivity.
  - intros [= <- <-]. split.
    + repeat split; try reflexivity. destruct step; reflexivity.
    + exists []. split; [symmetry; apply app_nil_r | reflexivity].
Qed.

Lemma processStep_log K uploader i step log :
  exists uploads, fst (processStep K uploader i step log) = log ++ map EvUpload uploads.
Proof.
  unfold processStep.
  repeat match goal with
         | |- context [if ?b then _ else _] => destruct b
         | |- context [match ?x with _ => _ end] => destruct x
         end; cbn [fst];
    first [ exists []; symmetry; apply app_nil_r | eexists [_]; reflexivity ].
Qed.

Lemma processStepsFrom_ok K uploader rest : forall i acc log log' out,
  processStepsFrom K uploader i rest acc log = (log', Ok out) ->
  exists outs uploads,
    out = acc ++ outs
    /\ log' = log ++ map EvUpload uploads
    /\ Forall2 (transmittedAs uploader) rest outs
    /\ length uploads = length (codeSteps rest).
Proof.
  induction rest as [| step rest IH]; intros i acc log log' out; cbn [processStepsFrom].
  - intros [= <- <-]. exists [], []. cbn. rewrite !app_nil_r. auto.
  - destruct (processStep K uploader i step log) as [log1 [o | e]] eqn:Hstep; [| discriminate].
    intros Hrest. apply processStep_ok in Hstep as (Himg & ups1 & -> & Hlen1).
    apply IH in Hrest as (outs & ups2 & -> & -> & Hall & Hlen2).
    exists (o :: outs), (ups1 ++ ups2).
    split; [rewrite <- app_assoc; reflexivity |].
    split; [rewrite map_app, app_assoc; reflexivity |].
    split; [constructor; assumption |].
    rewrite length_app, Hlen1, Hlen2. unfold codeSteps. cbn [List.filter].
    destruct (isCode step); reflexivity.
Qed.


Lemma processStepsFrom_log K uploader rest : forall i acc log,
  exists uploads,
    fst (processStepsFrom K uploader i rest acc log) = log ++ map EvUpload uploads.
Proof.
  induction rest as [| step rest IH]; intros i acc log; cbn [processStepsFrom].
  - exists []. symmetry. apply app_nil_r.
  - destruct (processStep_log K uploader i step log) as [ups1 H1].
    destruct (processStep K uploader i step log) as [log1 [o | e]]; cbn [fst] in H1.
    + destruct (IH (S i) (acc ++ [o]) log1) as [ups2 H2].
      exists (ups1 ++ ups2). rewrite H2, H1, map_app, app_assoc. reflexivity.
    + exists ups1. exact H1.
Qed.

Lemma request_not_among_uploads uploads m path body :
  ~ In (EvRequest m path body) (map EvUpload uploads).
Proof.
  intros H. apply in_map_iff in H as (c & Hc & _). discriminate Hc.
Qed.

Lemma create_request_shape K http uploader sdkBaseUrl data m path body :
  In (EvRequest m path body) (fst (create K http uploader sdkBaseUrl data [])) ->
  exists uploads out,
    fst (create K http uploader sdkBaseUrl data []) =
      map EvUpload uploads ++ [EvRequest POST ENDPOINTS.WORKFLOWS_CREATE body]
    /\ m = POST /\ path = ENDPOINTS.WORKFLOWS_CREATE
    /\ p_steps body = Some out
    /\ Forall2 (transmittedAs uploader) (steps data) out
    /\ length uploads = length (codeSteps (steps data)).
Proof.
  unfold create.
  destruct (blankName (req_name data)); [intros [] |].
  destruct (steps data) as [| s ss] eqn:Hsteps; [intros [] |].
  rewrite <- Hsteps. clear Hsteps s ss. unfold processSteps.
  destruct (processStepsFrom_log K uploader (steps data) 0 [] []) as [ups Hlog].
  destruct (processStepsFrom K uploader 0 (steps data) [] []) as [log1 [out | e]] eqn:Hp;
    cbn [fst] in Hlog.
  - apply processStepsFrom_ok in Hp as (outs & uploads & -> & -> & Hall & Hlen).
    cbn [app] in *.
    set (body' := mkPayload (req_name data) (description data) (Some outs) (visibility data)).
    assert (forall (r : Result Thrown Workflow),
              fst (match r with
                   | Ok workflow =>
                       (map EvUpload uploads ++ [EvRequest POST ENDPOINTS.WORKFLOWS_CREATE body'],
                        Ok (enrichWorkflowResponse sdkBaseUrl workflow))
                   | Err e' =>
                       (map EvUpload uploads ++ [EvRequest POST ENDPOINTS.WORKFLOWS_CREATE body'],
                        Err e')
                   end) =
              map EvUpload uploads ++ [EvRequest POST ENDPOINTS.WORKFLOWS_CREATE body']) as Hfst.
    { intros [|]; reflexivity. }
    rewrite Hfst. intros Hin.
    apply in_app_or in Hin as [Hin | [Hin | []]].
    + exfalso. eapply request_not_among_uploads, Hin.
    + injection Hin as <- <- <-. exists uploads, outs.
      repeat split; try reflexivity; assumption.
  - cbn [fst]. subst log1. cbn [app]. intros Hin. exfalso.
    eapply request_not_among_uploads, Hin.
Qed.

Lemma update_request_shape K http uploader sdkBaseUrl id data m path body :
  In (EvRequest m path body) (fst (update K http uploader sdkBaseUrl id data [])) ->
  exists uploads,
    fst (update K http uploader sdkBaseUrl id data []) =
      map EvUpload uploads ++ [EvRequest PATCH (ENDPOINTS.WORKFLOWS_UPDATE id) body]
    /\ m = PATCH /\ path = ENDPOINTS.WORKFLOWS_UPDATE id
    /\ Forall2 (transmittedAs uploader) (default [] (upd_steps data)) (default [] (p_steps body))
    /\ length uploads = length (codeSteps (default [] (upd_steps data))).
Proof.
  unfold update.
  destruct (validateId K id "id"); [| intros []].
  destruct (noKeys data); [intros [] |].
  assert (forall log1 body' (r : Result Thrown Workflow),
            fst (match r with
                 | Ok workflow =>
                     (log1 ++ [EvRequest PATCH (ENDPOINTS.WORKFLOWS_UPDATE id) body'],
                      Ok (enrichWorkflowResponse sdkBaseUrl workflow))
                 | Err e' =>
                     (log1 ++ [EvRequest PATCH (ENDPOINTS.WORKFLOWS_UPDATE id) body'], Err e')
                 end) =
            log1 ++ [EvRequest PATCH (ENDPOINTS.WORKFLOWS_UPDATE id) body']) as Hfst.
  { intros ? ? [|]; reflexivity. }
  destruct (upd_steps data) as [[| s ss] |] eqn:Hsteps.
  - rewrite Hfst. cbn [app]. intros [Hin | []]. injection Hin as <- <- <-.
    exists []. cbn. repeat split; constructor.
  - unfold processSteps.
    destruct (processStepsFrom_log K uploader (s :: ss) 0 [] []) as [ups Hlog].
    destruct (processStepsFrom K uploader 0 (s :: ss) [] []) as [log1 [out | e]] eqn:Hp;
      cbn [fst] in Hlog.
    + apply processStepsFrom_ok in Hp as (outs & uploads & -> & -> & Hall & Hlen).
      cbn [app] in *. rewrite Hfst. intros Hin.
      apply in_app_or in Hin as [Hin | [Hin | []]].
      * exfalso. eapply request_not_among_uploads, Hin.
      * injection Hin as <- <- <-. exists uploads.
        repeat split; try reflexivity; assumption.
    + cbn [fst]. subst log1. cbn [app]. intros Hin. exfalso.
      eapply request_not_among_uploads, Hin.
  - rewrite Hfst. cbn [app]. intros [Hin | []]. injection Hin as <- <- <-.
    exists []. cbn. repeat split; constructor.
Qed.

(** C2.  Whenever [create] or [update] sends a workflow request, that
    request is the last thing it does and everything before it is an
    upload, one per code step of the input.  The steps of the body are
    the steps of the input in the same order and number, each
    [transmittedAs] its original: a code step has no "code" and no
    "fileName" in its configuration and has as "fileId" the key the
    upload collaborator returned for its source text, with the rest of
    the configuration as it was; any other step is unchanged. *)
Theorem code_never_crosses_the_wire K http uploader sdkBaseUrl :
  (forall data m path body,
      In (EvRequest m path body) (fst (create K http uploader sdkBaseUrl data [])) ->
      exists uploads out,
        fst (create K http uploader sdkBaseUrl data []) =
          map EvUpload uploads ++ [EvRequest POST ENDPOINTS.WORKFLOWS_CREATE body]
        /\ p_steps body = Some out
        /\ Forall2 (transmittedAs uploader) (steps data) out
        /\ length uploads = length (codeSteps (steps data)))
  /\ (forall id data m path body,
        In (EvRequest m path body) (fst (update K http uploader sdkBaseUrl id data [])) ->
        exists uploads,
          fst (update K http uploader sdkBaseUrl id data []) =
            map EvUpload uploads ++ [EvRequest PATCH (ENDPOINTS.WORKFLOWS_UPDATE id) body]
          /\ Forall2 (transmittedAs uploader)
               (default [] (upd_steps data)) (default [] (p_steps body))
          /\ length uploads = length (codeSteps (default [] (upd_steps data))))
  /\ (forall step out,
        transmittedAs uploader step out -> isCode step = true ->
        config out !! "code" = None /\ config out !! "fileName" = None
        /\ exists key, config out !! "fileId" = Some (JStr key))
  /\ (forall step out,
        transmittedAs uploader step out -> isCode step = false -> out = step).
Proof.
  split; [| split; [| split]].
  - intros data m path body Hin.
    destruct (create_request_shape _ _ _ _ _ _ _ _ Hin) as (ups & out & H1 & _ & _ & H2 & H3 & H4).
    exists ups, out. auto.
  - intros id data m path body Hin.
    destruct (update_request_shape _ _ _ _ _ _ _ _ _ Hin) as (ups & H1 & _ & _ & H2 & H3).
    exists ups. auto.
  - intros step out (_ & _ & _ & _ & H) Hc. rewrite Hc in H.
    destruct H as (H1 & H2 & _ & _ & key & _ & _ & H3 & _). eauto.
  - intros step out (_ & _ & _ & _ & H) Hc. rewrite Hc in H. exact H.
Qed.




(** * Properties of the client configuration *)

(** When [validateEndpointSecurity] lets a URL through: always, except
    for a non-empty URL that does not start with https://, contains
    neither localhost nor 127.0.0.1, and comes without the override. *)
Lemma validateEndpointSecurity_accepts K url allowInsecure warnings :
  isOk (snd (validateEndpointSecurity K (Some url) allowInsecure warnings)) =
    JsString.isEmpty url
    || JsString.startsWith url "https://"
    || JsString.includes url "localhost"
    || JsString.includes url "127.0.0.1"
    || default false allowInsecure.
Proof.
  unfold validateEndpointSecurity.
  destruct url as [| c u]; [reflexivity |].
  cbn [JsString.isEmpty orb].
  destruct (JsString.startsWith (String c u) "https://"); [reflexivity |].
  destruct (JsString.includes (String c u) "localhost"); [reflexivity |].
  destruct (JsString.includes (String c u) "127.0.0.1"); [reflexivity |].
  destruct (default false allowInsecure); reflexivity.
Qed.

(** With the override, a plain HTTP URL without those substrings is let
    through with one warning, about the URL without its query. *)
Lemma validateEndpointSecurity_warns K url warnings :
  JsString.isEmpty url = false ->
  JsString.startsWith url "https://" = false ->
  JsString.includes url "localhost" = false ->
  JsString.includes url "127.0.0.1" = false ->
  validateEndpointSecurity K (Some url) (Some true) warnings =
    (warnings ++
       [mkWarning "Using insecure HTTP connection" (JsString.beforeFirst "?" url) "security"],
     Ok tt).
Proof.
  intros He Hs Hl Hi. unfold validateEndpointSecurity.
  destruct url as [| c u]; [discriminate He |].
  rewrite Hs, Hl, Hi. reflexivity.
Qed.

(** C9.  The code at the input where the endpoint rule does not hold:
    a plain HTTP URL whose host is api.example.com, not a loopback
    address, and whose path contains the word localhost.  Without the
    override, the constructor returns a client for that URL and logs no
    warning, where the rule asks for a Configuration error. *)
Theorem http_to_remote_host_is_accepted_when_url_mentions_localhost :
  JsString.startsWith insecureRemoteUrl "https://" = false
  /\ Loopback.hostOf insecureRemoteUrl = "api.example.com"
  /\ Loopback.isLoopbackUrl insecureRemoteUrl = false
  /\ allowInsecureHttp insecureRemoteConfig = None
  /\ exists client,
       newNeuranaClient sampleConstants insecureRemoteConfig [] = ([], Ok client)
       /\ http_baseUrl (workflowsHttp client) = insecureRemoteUrl.
Proof.
  split; [reflexivity |]. split; [reflexivity |]. split; [reflexivity |].
  split; [reflexivity |]. eexists. split; reflexivity.
Qed.


(** * The properties at concrete inputs *)

(** C1 at a service that answers 503 after 100 ms, three times. *)
Lemma retry_backoff_until_max_attempts_witness :
  In (status unavailable) RETRY.RETRYABLE_STATUS
  /\ 100 + 1000 + 100 + 2000 + 100 <= timerDelay (default 30000 (timeout plainGet))
  /\ request sampleConstants 30000 alwaysUnavailable plainGet world0 =
       (mkWorld 3300
          [(0, EvSetTimeout 30000); (0, EvFetch 1); (100, EvSleep 1000);
           (1100, EvFetch 2); (1200, EvSleep 2000); (3200, EvFetch 3);
           (3300, EvClearTimeout)],
        Some (handleResponse sampleConstants unavailable)).
Proof.
  assert (In (status unavailable) RETRY.RETRYABLE_STATUS) as Hin
    by (do 4 right; left; reflexivity).
  assert (100 + 1000 + 100 + 2000 + 100 <= timerDelay (default 30000 (timeout plainGet)))
    as Hle by (vm_compute; discriminate).
  split; [exact Hin |]. split; [exact Hle |].
  exact (proj1 (retry_backoff_until_max_attempts sampleConstants 30000 alwaysUnavailable
                  plainGet world0 unavailable unavailable unavailable 100 100 100
                  eq_refl eq_refl eq_refl eq_refl Hin Hin Hin
                  ltac:(lia) ltac:(lia) ltac:(lia) Hle)).
Defined.

(** C2 at a workflow with an HTTP step and a python code step. *)
Lemma code_never_crosses_the_wire_witness :
  In (EvRequest POST ENDPOINTS.WORKFLOWS_CREATE codeWorkflowBody)
     (fst (create sampleConstants sampleHttp sampleUploader None codeWorkflow []))
  /\ exists uploads out,
       fst (create sampleConstants sampleHttp sampleUploader None codeWorkflow []) =
         map EvUpload uploads ++ [EvRequest POST ENDPOINTS.WORKFLOWS_CREATE codeWorkflowBody]
       /\ p_steps codeWorkflowBody = Some out
       /\ Forall2 (transmittedAs sampleUploader) (steps codeWorkflow) out
       /\ length uploads = length (codeSteps (steps codeWorkflow)).
Proof.
  assert (In (EvRequest POST ENDPOINTS.WORKFLOWS_CREATE codeWorkflowBody)
            (fst (create sampleConstants sampleHttp sampleUploader None codeWorkflow [])))
    as Hin by (vm_compute; right; left; reflexivity).
  split; [exact Hin |].
  exact (proj1 (code_never_crosses_the_wire sampleConstants sampleHttp sampleUploader None)
           codeWorkflow POST ENDPOINTS.WORKFLOWS_CREATE codeWorkflowBody Hin).
Defined.


(** C4 at a 404 response with an error body. *)
Lemma non_2xx_status_maps_to_error_kind_witness :
  ok notFound = false
  /\ Js.toString (messageOf (errorDataOf notFound)) = Some "Workflow not found"
  /\ Js.exact (messageOf (errorDataOf notFound)) = true
  /\ handleResponse sampleConstants notFound =
       Err (ThrowNeurana (NotFoundError sampleConstants (Some "Workflow not found"))).
Proof.
  split; [reflexivity |]. split; [reflexivity |]. split; [reflexivity |].
  exact (proj1 (proj2 (non_2xx_status_maps_to_error_kind sampleConstants notFound
                         "Workflow not found" eq_refl eq_refl eq_refl))).
Defined.

(** C6 at a 429 response with the header Retry-After: 45. *)
Lemma rate_limit_carries_parsed_retry_after_witness :
  status (rateLimited (Some "45")) = 429
  /\ Js.toString (messageOf (errorDataOf (rateLimited (Some "45")))) = Some "Too many requests"
  /\ exists e,
       handleResponse sampleConstants (rateLimited (Some "45")) = Err (ThrowNeurana e)
       /\ retryAfter e = Some (NumInt 45).
Proof.
  split; [reflexivity |]. split; [reflexivity |].
  destruct (rate_limit_carries_parsed_retry_after sampleConstants (rateLimited (Some "45"))
              "Too many requests" eq_refl eq_refl) as (e & He & _ & _ & H45 & _).
  exists e. split; [exact He | exact (H45 eq_refl)].
Defined.





(** * Further properties of the request engine *)

Lemma shouldRetry_not_retryable s attempt :
  ~ In s RETRY.RETRYABLE_STATUS -> shouldRetry s attempt = false.
Proof.
  intros Hn. unfold shouldRetry. apply andb_false_iff. right.
  destruct (existsb (Z.eqb s) RETRY.RETRYABLE_STATUS) eqn:He; [| reflexivity].
  apply existsb_exists in He as (x & Hx & Heq). apply Z.eqb_eq in Heq. subst x.
  contradiction.
Qed.

Lemma request_single_attempt K clientTimeout net config w l r :
  signal config = None ->
  net 1%nat = (l, Ok r) ->
  l <= timerDelay (default clientTimeout (timeout config)) ->
  shouldRetry (status r) 1 = false ->
  request K clientTimeout net config w =
    (returnResponse r
       (mkWorld (now w + l)
          (events w ++
             [(now w, EvSetTimeout (default clientTimeout (timeout config)));
              (now w, EvFetch 1)])),
     Some (handleResponse K r)).
Proof.
  intros Hsig Hn Hl Hs. unfold request. rewrite Hsig. cbn [default from_option].
  erewrite executeWithRetry_final; [| reflexivity | exact Hn | cbn; lia | exact Hs].
  unfold emit, advanceTo. cbn [now events]. rewrite <- !app_assoc. reflexivity.
Qed.

(** X1.  A 204 answer that comes before the timer of the request fires
    makes the request resolve to [undefined], whatever the content type
    and the body of the response: one fetch, no sleep, no read of the
    body, and the timer is cleared when the answer is in. *)
Theorem no_content_resolves_to_undefined K clientTimeout net config w l (r : Response) :
  signal config = None ->
  net 1%nat = (l, Ok r) ->
  l <= timerDelay (default clientTimeout (timeout config)) ->
  status r = 204 ->
  request K clientTimeout net config w =
    (mkWorld (now w + l)
       (events w ++
          [(now w, EvSetTimeout (default clientTimeout (timeout config)));
           (now w, EvFetch 1); (now w + l, EvClearTimeout)]),
     Some (Ok VUndefined)).
Proof.
  intros Hsig Hn Hl Hs.
  rewrite (request_single_attempt K clientTimeout net config w l r Hsig Hn Hl)
    by (rewrite Hs; reflexivity).
  unfold handleResponse, returnResponse, bodyRead. rewrite Hs.
  unfold emit. cbn. rewrite <- !app_assoc. reflexivity.
Qed.

(** X2.  A first answer whose status is not in RETRY.RETRYABLE_STATUS,
    and which comes before the timer of the request fires, is final: the
    request makes exactly one fetch and no sleep, returns the response
    (clearing the timer while the body, if one is read, is being read),
    and its outcome is what [handleResponse] makes of that answer. *)
Theorem non_retryable_status_is_not_retried K clientTimeout net config w l (r : Response) :
  signal config = None ->
  net 1%nat = (l, Ok r) ->
  l <= timerDelay (default clientTimeout (timeout config)) ->
  ~ In (status r) RETRY.RETRYABLE_STATUS ->
  request K clientTimeout net config w =
    (returnResponse r
       (mkWorld (now w + l)
          (events w ++
             [(now w, EvSetTimeout (default clientTimeout (timeout config)));
              (now w, EvFetch 1)])),
     Some (handleResponse K r))
  /\ events (fst (request K clientTimeout net config w)) =
       events w ++
       [(now w, EvSetTimeout (default clientTimeout (timeout config))); (now w, EvFetch 1)]
       ++ match bodyRead r with
          | Some b =>
              [(now w + l, EvReadBody b); (now w + l, EvClearTimeout);
               (now w + l + bodyTime r, EvBodySettled b)]
          | None => [(now w + l, EvClearTimeout)]
          end.
Proof.
  intros Hsig Hn Hl Hs.
  assert (request K clientTimeout net config w =
            (returnResponse r
               (mkWorld (now w + l)
                  (events w ++
                     [(now w, EvSetTimeout (default clientTimeout (timeout config)));
                      (now w, EvFetch 1)])),
             Some (handleResponse K r))) as Hr.
  { apply request_single_attempt; try assumption. apply shouldRetry_not_retryable, Hs. }
  split; [exact Hr |].
  rewrite Hr. cbn [fst]. rewrite returnResponse_events. cbn [now events].
  rewrite <- app_assoc. reflexivity.
Qed.

(** X3.  After one retryable status the engine waits 1000 ms and tries
    again; a second answer whose status is not retryable ends the loop,
    and the outcome is the one of the second answer.  Both answers come
    before the timer of the request fires. *)
Theorem retry_stops_at_first_final_response K clientTimeout net config w l1 l2
    (r1 r2 : Response) :
  signal config = None ->
  net 1%nat = (l1, Ok r1) -> net 2%nat = (l2, Ok r2) ->
  In (status r1) RETRY.RETRYABLE_STATUS ->
  ~ In (status r2) RETRY.RETRYABLE_STATUS ->
  0 <= l1 -> 0 <= l2 ->
  l1 + 1000 + l2 <= timerDelay (default clientTimeout (timeout config)) ->
  request K clientTimeout net config w =
    (returnResponse r2
       (mkWorld (now w + l1 + 1000 + l2)
          (events w ++
             [(now w, EvSetTimeout (default clientTimeout (timeout config)));
              (now w, EvFetch 1);
              (now w + l1, EvSleep 1000);
              (now w + l1 + 1000, EvFetch 2)])),
     Some (handleResponse K r2)).
Proof.
  intros Hsig H1 H2 S1 S2 L1 L2 Hsum.
  unfold request. rewrite Hsig. cbn [default from_option].
  set (T := default clientTimeout (timeout config)) in *.
  set (D := timerDelay T) in *.
  rewrite executeWithRetry_step.
  erewrite fetch_in_time; [| reflexivity | exact H1 | cbn; lia].
  cbv beta iota.
  rewrite shouldRetry_true by (trivial; unfold RETRY.MAX_ATTEMPTS; lia).
  cbn [RETRY.MAX_ATTEMPTS]. rewrite sleep_calculateDelay.
  change (calculateDelay 1) with 1000.
  erewrite executeWithRetry_final;
    [| reflexivity | exact H2 | cbn; lia | apply shouldRetry_not_retryable, S2].
  unfold emit, advanceTo. cbn [now events]. rewrite <- !app_assoc. reflexivity.
Qed.

(** X4.  When fetch itself rejects with a retryable error (a TypeError,
    or a message mentioning "network"), the engine retries as for a
    retryable status: three fetches, sleeps of 1000 and 2000 ms, and the
    third rejection, whatever it is, goes to the caller through
    [handleError].  The three rejections come before the timer of the
    request fires. *)
Theorem retryable_failures_exhaust_the_attempts K clientTimeout net config w l1 l2 l3
    e1 e2 e3 :
  signal config = None ->
  net 1%nat = (l1, Err e1) -> net 2%nat = (l2, Err e2) -> net 3%nat = (l3, Err e3) ->
  isRetryableError e1 = true -> isRetryableError e2 = true ->
  0 <= l1 -> 0 <= l2 -> 0 <= l3 ->
  l1 + 1000 + l2 + 2000 + l3 <= timerDelay (default clientTimeout (timeout config)) ->
  request K clientTimeout net config w =
    (mkWorld (now w + l1 + 1000 + l2 + 2000 + l3)
       (events w ++
          [(now w, EvSetTimeout (default clientTimeout (timeout config)));
           (now w, EvFetch 1);
           (now w + l1, EvSleep 1000);
           (now w + l1 + 1000, EvFetch 2);
           (now w + l1 + 1000 + l2, EvSleep 2000);
           (now w + l1 + 1000 + l2 + 2000, EvFetch 3);
           (now w + l1 + 1000 + l2 + 2000 + l3, EvClearTimeout)]),
     Some (Err (ThrowNeurana (handleError K e3)))).
Proof.
  intros Hsig H1 H2 H3 R1 R2 L1 L2 L3 Hsum.
  unfold request. rewrite Hsig. cbn [default from_option].
  set (T := default clientTimeout (timeout config)) in *.
  set (D := timerDelay T) in *.
  rewrite executeWithRetry_step.
  erewrite fetch_in_time; [| reflexivity | exact H1 | cbn; lia].
  cbv beta iota. rewrite R1. cbn [andb Nat.ltb Nat.leb RETRY.MAX_ATTEMPTS].
  rewrite sleep_calculateDelay. change (calculateDelay 1) with 1000.
  rewrite executeWithRetry_step.
  erewrite fetch_in_time; [| reflexivity | exact H2 | cbn; lia].
  cbv beta iota. rewrite R2. cbn [andb Nat.ltb Nat.leb Nat.add RETRY.MAX_ATTEMPTS].
  rewrite sleep_calculateDelay. change (calculateDelay 2) with 2000.
  rewrite executeWithRetry_step.
  erewrite fetch_in_time; [| reflexivity | exact H3 | cbn; lia].
  cbv beta iota. rewrite andb_false_r.
  unfold emit, advanceTo. cbn [now events]. rewrite <- !app_assoc. reflexivity.
Qed.

(** X5.  The delay before the retry that follows attempt [N] is at
    least 1000 ms, never more than 30000 ms, never shrinks as the
    attempts go on, and is the cap from the sixth attempt. *)
Theorem backoff_delay_is_bounded_and_monotone (N M : nat) :
  (1 <= N)%nat -> (N <= M)%nat ->
  1000 <= calculateDelay N
  /\ calculateDelay N <= calculateDelay M
  /\ calculateDelay M <= 30000
  /\ ((6 <= N)%nat -> calculateDelay N = 30000).
Proof.
  intros HN HM. rewrite !calculateDelay_formula by lia. rewrite !(Z.min_comm 30000).
  assert (0 < 2 ^ (Z.of_nat N - 1)) as Hpos by (apply Z.pow_pos_nonneg; lia).
  assert (2 ^ (Z.of_nat N - 1) <= 2 ^ (Z.of_nat M - 1)) as Hmono
    by (apply Z.pow_le_mono_r; lia).
  repeat split.
  - apply Z.min_glb; lia.
  - apply Z.min_le_compat_r. lia.
  - apply Z.le_min_r.
  - intros H6.
    assert (2 ^ 5 <= 2 ^ (Z.of_nat N - 1)) as H5 by (apply Z.pow_le_mono_r; lia).
    change (2 ^ 5) with 32 in H5. apply Z.min_r. lia.
Qed.

(** X6.  The error made of a response carries the status of the
    response as its [statusCode], for every status but 400, whatever
    the body; [createHttpError] returns no error only when the message
    of the body does not convert to a string, and throws the TypeError of
    the conversion then. *)
Theorem error_carries_response_status_unless_400 K (r : Response) errorData :
  status r <> 400 ->
  (forall c m d, statusCode (errorOfStatus K r c m d) = Some (status r))
  /\ match createHttpError K r errorData with
     | Ok e => statusCode e = Some (status r)
     | Err thrown =>
         thrown = cannotConvert /\ Js.toString (messageOf errorData) = None
     end.
Proof.
  intros H400.
  assert (forall c m d, statusCode (errorOfStatus K r c m d) = Some (status r)) as Hs.
  { intros c m d.
    unfold errorOfStatus, HTTP_STATUS.UNAUTHORIZED, HTTP_STATUS.FORBIDDEN,
      HTTP_STATUS.NOT_FOUND, HTTP_STATUS.UNPROCESSABLE, HTTP_STATUS.BAD_REQUEST,
      HTTP_STATUS.RATE_LIMITED.
    destruct (Z.eqb_spec (status r) 401) as [-> |]; [reflexivity |].
    destruct (Z.eqb_spec (status r) 403) as [-> |]; [reflexivity |].
    destruct (Z.eqb_spec (status r) 404) as [-> |]; [reflexivity |].
    destruct (Z.eqb_spec (status r) 422) as [-> |]; [reflexivity |].
    destruct (Z.eqb_spec (status r) 400) as [E |]; [contradiction |].
    cbn [orb].
    destruct (Z.eqb_spec (status r) 429) as [-> |]; reflexivity. }
  split; [exact Hs |].
  destruct (createHttpError_cases K r errorData) as [(m & _ & ->) | (Hm & ->)];
    [apply Hs | split; [reflexivity | exact Hm]].
Qed.

(** X7.  For the statuses with an error class of their own (401, 403,
    404, 400, 422, 429), the [code] and the [statusCode] of the error do
    not depend on the body of the response; and but for the validation
    and rate-limit classes the [details] of the body are dropped. *)
Theorem typed_errors_ignore_the_body_code K (r : Response) errorData errorData' :
  kindOfStatus (status r) <> NeuranaErrorClass ->
  (forall c m d c' m' d',
      code (errorOfStatus K r c m d) = code (errorOfStatus K r c' m' d')
      /\ statusCode (errorOfStatus K r c m d) = statusCode (errorOfStatus K r c' m' d')
      /\ (kindOfStatus (status r) <> ValidationErrorClass ->
          kindOfStatus (status r) <> RateLimitErrorClass ->
          details (errorOfStatus K r c m d) = None))
  /\ (forall e e',
        createHttpError K r errorData = Ok e ->
        createHttpError K r errorData' = Ok e' ->
        code e = code e'
        /\ statusCode e = statusCode e'
        /\ (kindOfStatus (status r) <> ValidationErrorClass ->
            kindOfStatus (status r) <> RateLimitErrorClass ->
            details e = None)).
Proof.
  intros Hk.
  assert (forall c m d c' m' d',
             code (errorOfStatus K r c m d) = code (errorOfStatus K r c' m' d')
             /\ statusCode (errorOfStatus K r c m d)
                = statusCode (errorOfStatus K r c' m' d')
             /\ (kindOfStatus (status r) <> ValidationErrorClass ->
                 kindOfStatus (status r) <> RateLimitErrorClass ->
                 details (errorOfStatus K r c m d) = None)) as H.
  { intros c m d c' m' d'. revert Hk.
    unfold kindOfStatus, errorOfStatus, HTTP_STATUS.UNAUTHORIZED, HTTP_STATUS.FORBIDDEN,
      HTTP_STATUS.NOT_FOUND, HTTP_STATUS.UNPROCESSABLE, HTTP_STATUS.BAD_REQUEST,
      HTTP_STATUS.RATE_LIMITED.
    destruct (status r =? 401); [repeat split |].
    destruct (status r =? 403); [repeat split |].
    destruct (status r =? 404); [repeat split |].
    rewrite (orb_comm (status r =? 422)).
    destruct ((status r =? 400) || (status r =? 422));
      [intros _; repeat split; intros H; contradiction H; reflexivity |].
    destruct (status r =? 429);
      [intros _; repeat split; intros _ H; contradiction H; reflexivity |].
    intros H. contradiction H. reflexivity. }
  split; [exact H |].
  intros e e' He He'.
  apply createHttpError_Ok in He as (m & _ & ->).
  apply createHttpError_Ok in He' as (m' & _ & ->). apply H.
Qed.

(** X8.  [handleResponse] resolves only for a status from 200 to 299.
    For such a status other than 204, a JSON content type gives the
    parsed body, or a PARSE_ERROR with the status when the body does not
    parse; any other content type gives the text, and a failure to read
    the text is rethrown as it is. *)
Theorem response_resolves_only_on_2xx K (r : Response) :
  (isOk (handleResponse K r) = true -> ok r = true)
  /\ (ok r = true -> status r <> 204 -> isJson r = true ->
      handleResponse K r =
        match json r with
        | Ok j => Ok (VJson j)
        | Err _ =>
            Err (ThrowNeurana
                   (newNeuranaError "Failed to parse response" (JStr "PARSE_ERROR")
                      (Some (status r)) None))
        end)
  /\ (ok r = true -> status r <> 204 -> isJson r = false ->
      handleResponse K r =
        match text r with
        | Ok s => Ok (VText s)
        | Err e => Err e
        end).
Proof.
  unfold handleResponse, HTTP_STATUS.NO_CONTENT. repeat split.
  - destruct (Z.eqb_spec (status r) 204) as [E |].
    + intros _. unfold ok. rewrite E. reflexivity.
    + destruct (ok r); [reflexivity |]. cbn [negb].
      destruct (createHttpError K r (errorDataOf r)); discriminate.
  - intros Hok H204 Hj. destruct (Z.eqb_spec (status r) 204); [contradiction |].
    rewrite Hok, Hj. reflexivity.
  - intros Hok H204 Hj. destruct (Z.eqb_spec (status r) 204); [contradiction |].
    rewrite Hok, Hj. reflexivity.
Qed.


(** * Further properties of the step orchestrator *)

(** X9.  [create] sends a request exactly when the name is not blank,
    there is a step, and every step is processed; a blank name and an
    empty step list are refused before anything is uploaded, and a
    failure of the orchestrator is the failure of [create]. *)
Theorem create_sends_request_iff K http uploader sdkBaseUrl data :
  ((exists m path body,
       In (EvRequest m path body) (fst (create K http uploader sdkBaseUrl data [])))
   <-> blankName (req_name data) = false
       /\ steps data <> []
       /\ isOk (snd (processSteps K uploader (steps data) [])) = true)
  /\ (blankName (req_name data) = true ->
      create K http uploader sdkBaseUrl data [] =
        ([], Err (ThrowNeurana (ValidationError K (Some "name is required") None))))
  /\ (blankName (req_name data) = false -> steps data = [] ->
      create K http uploader sdkBaseUrl data [] =
        ([], Err (ThrowNeurana (ValidationError K (Some "At least one step is required") None))))
  /\ (forall e, blankName (req_name data) = false -> steps data <> [] ->
      snd (processSteps K uploader (steps data) []) = Err e ->
      snd (create K http uploader sdkBaseUrl data []) = Err e).
Proof.
  unfold create.
  destruct (blankName (req_name data)) eqn:Hb.
  { split; [split |].
    - intros (m & p & b & []).
    - intros (H & _). discriminate H.
    - split; [reflexivity |]. split; intros; discriminate. }
  destruct (steps data) as [| s ss] eqn:Hsteps.
  { split; [split |].
    - intros (m & p & b & []).
    - intros (_ & H & _). contradiction H. reflexivity.
    - split; [discriminate |]. split; [reflexivity |].
      intros e _ H. contradiction H. reflexivity. }
  destruct (processStepsFrom_log K uploader (s :: ss) 0 [] []) as [ups Hlog].
  unfold processSteps in *.
  destruct (processStepsFrom K uploader 0 (s :: ss) [] []) as [log1 [out | e]];
    cbn [fst snd isOk] in *; subst log1; cbn [app].
  - split; [split |].
    + intros _. repeat split. discriminate.
    + intros _. eexists POST, _, _.
      match goal with |- In _ (fst (match ?x with _ => _ end)) => destruct x end;
        cbn [fst]; apply in_or_app; right; left; reflexivity.
    + split; [discriminate |]. split; [discriminate |]. intros e _ _ H. discriminate H.
  - split; [split |].
    + intros (m & p & b & Hin). exfalso. eapply request_not_among_uploads, Hin.
    + intros (_ & _ & H). discriminate H.
    + split; [discriminate |]. split; [discriminate |].
      intros e' _ _ [= ->]. reflexivity.
Qed.

Lemma validateId_ok_iff K id field :
  validateId K id field = Ok tt
  <-> id <> "" /\ (String.length id <= 64)%nat
      /\ forallb isIdChar (list_ascii_of_string id) = true.
Proof.
  unfold validateId, ID_PATTERN_test, MAX_ID_LENGTH.
  destruct id as [| c id]; cbn [JsString.isEmpty negb andb].
  { split; [discriminate | intros (H & _); contradiction H; reflexivity]. }
  destruct (Nat.ltb_spec 64 (String.length (String c id))); cbn [orb].
  { split; [discriminate | intros (_ & H' & _); lia]. }
  destruct (forallb isIdChar (list_ascii_of_string (String c id))); cbn [negb].
  - split; [intros _; repeat split; [discriminate | lia] | reflexivity].
  - split; [discriminate | intros (_ & _ & H'); discriminate H'].
Qed.

(** X10.  An id that [validateId] accepts is not empty, has at most 64
    characters, all of them letters, digits, [_] or [-]: it holds no
    [/], [?], [#], [.], [%] or space, so it is one segment of the path
    it is spliced into. *)
Theorem accepted_id_is_one_path_segment K id field :
  validateId K id field = Ok tt ->
  id <> "" /\ (String.length id <= 64)%nat
  /\ (forall c, In c (list_ascii_of_string id) ->
        isIdChar c = true
        /\ c <> "/"%char /\ c <> "?"%char /\ c <> "#"%char /\ c <> "."%char
        /\ c <> "%"%char /\ c <> " "%char).
Proof.
  intros H. apply validateId_ok_iff in H as (Hne & Hlen & Hall).
  split; [exact Hne |]. split; [exact Hlen |].
  intros c Hin. rewrite forallb_forall in Hall. specialize (Hall c Hin).
  split; [exact Hall |].
  repeat split; intros ->; discriminate Hall.
Qed.

Lemma update_sends_request_cases K http uploader sdkBaseUrl id data :
  ((exists m path body,
       In (EvRequest m path body) (fst (update K http uploader sdkBaseUrl id data [])))
   <-> validateId K id "id" = Ok tt
       /\ noKeys data = false
       /\ isOk (snd (processSteps K uploader (default [] (upd_steps data)) [])) = true)
  /\ (forall e, validateId K id "id" = Err e ->
      update K http uploader sdkBaseUrl id data [] = ([], Err e))
  /\ (validateId K id "id" = Ok tt -> noKeys data = true ->
      update K http uploader sdkBaseUrl id data [] =
        ([], Err (ThrowNeurana (ValidationError K (Some "Update data is required") None))))
  /\ (forall m path body,
        In (EvRequest m path body) (fst (update K http uploader sdkBaseUrl id data [])) ->
        (upd_steps data = None \/ upd_steps data = Some []) ->
        fst (update K http uploader sdkBaseUrl id data []) =
          [EvRequest PATCH (ENDPOINTS.WORKFLOWS_UPDATE id)
             (mkPayload (upd_name data) (upd_description data) (upd_steps data) None)]).
Proof.
  unfold update.
  destruct (validateId K id "id") as [[] | e0] eqn:Hid.
  2:{ split; [split |].
      - intros (m & p & b & []).
      - intros (H & _). discriminate H.
      - split; [intros e [= ->]; reflexivity |]. split; [discriminate |].
        intros m p b []. }
  destruct (noKeys data) eqn:Hk.
  { split; [split |].
    - intros (m & p & b & []).
    - intros (_ & H & _). discriminate H.
    - split; [discriminate |]. split; [reflexivity |]. intros m p b []. }
  assert (forall log1 body' (r : Result Thrown Workflow),
            fst (match r with
                 | Ok workflow =>
                     (log1 ++ [EvRequest PATCH (ENDPOINTS.WORKFLOWS_UPDATE id) body'],
                      Ok (enrichWorkflowResponse sdkBaseUrl workflow))
                 | Err e' =>
                     (log1 ++ [EvRequest PATCH (ENDPOINTS.WORKFLOWS_UPDATE id) body'], Err e')
                 end) =
            log1 ++ [EvRequest PATCH (ENDPOINTS.WORKFLOWS_UPDATE id) body']) as Hfst.
  { intros ? ? [|]; reflexivity. }
  destruct (upd_steps data) as [[| s ss] |] eqn:Hsteps; cbn [default from_option Datatypes.id].
  - rewrite Hfst. cbn [app]. split; [split |].
    + intros _. repeat split.
    + intros _. eexists _, _, _. left. reflexivity.
    + split; [discriminate |]. split; [discriminate |]. reflexivity.
  - unfold processSteps.
    destruct (processStepsFrom_log K uploader (s :: ss) 0 [] []) as [ups Hlog].
    destruct (processStepsFrom K uploader 0 (s :: ss) [] []) as [log1 [out | e]];
      cbn [fst snd isOk] in *; subst log1; cbn [app].
    + rewrite Hfst. split; [split |].
      * intros _. repeat split.
      * intros _. eexists _, _, _. apply in_or_app. right. left. reflexivity.
      * split; [discriminate |]. split; [discriminate |].
        intros m p b _ [H | H]; discriminate H.
    + split; [split |].
      * intros (m & p & b & Hin). exfalso. eapply request_not_among_uploads, Hin.
      * intros (_ & _ & H). discriminate H.
      * split; [discriminate |]. split; [discriminate |].
        intros m p b _ [H | H]; discriminate H.
  - rewrite Hfst. cbn [app]. split; [split |].
    + intros _. repeat split.
    + intros _. eexists _, _, _. left. reflexivity.
    + split; [discriminate |]. split; [discriminate |]. reflexivity.
Qed.

(** X11.  [update] sends a request exactly when the id is valid, the
    update has a key, and the steps it brings (if any) are processed; an
    invalid id and an update without any key are refused with nothing
    sent, and an update without steps, or with an empty list of them,
    sends the one PATCH request with no upload.  A key counts whatever
    its value: an update whose only key is a name that is undefined is
    sent, with an empty body. *)
Theorem update_sends_request_iff K http uploader sdkBaseUrl id data :
  ((exists m path body,
       In (EvRequest m path body) (fst (update K http uploader sdkBaseUrl id data [])))
   <-> validateId K id "id" = Ok tt
       /\ noKeys data = false
       /\ isOk (snd (processSteps K uploader (default [] (upd_steps data)) [])) = true)
  /\ (forall e, validateId K id "id" = Err e ->
      update K http uploader sdkBaseUrl id data [] = ([], Err e))
  /\ (validateId K id "id" = Ok tt -> noKeys data = true ->
      update K http uploader sdkBaseUrl id data [] =
        ([], Err (ThrowNeurana (ValidationError K (Some "Update data is required") None))))
  /\ (forall m path body,
        In (EvRequest m path body) (fst (update K http uploader sdkBaseUrl id data [])) ->
        (upd_steps data = None \/ upd_steps data = Some []) ->
        fst (update K http uploader sdkBaseUrl id data []) =
          [EvRequest PATCH (ENDPOINTS.WORKFLOWS_UPDATE id)
             (mkPayload (upd_name data) (upd_description data) (upd_steps data) None)])
  /\ (noKeys data = true <->
      upd_name_property data = Absent /\ upd_description_property data = Absent
      /\ upd_steps_property data = Absent)
  /\ (validateId K id "id" = Ok tt ->
      fst (update K http uploader sdkBaseUrl id
             (mkUpdateRequest (Present None) Absent Absent) []) =
        [EvRequest PATCH (ENDPOINTS.WORKFLOWS_UPDATE id) (mkPayload None None None None)]).
Proof.
  destruct (update_sends_request_cases K http uploader sdkBaseUrl id data)
    as (H1 & H2 & H3 & H4).
  split; [exact H1 |]. split; [exact H2 |]. split; [exact H3 |]. split; [exact H4 |].
  split.
  - unfold noKeys.
    destruct (upd_name_property data), (upd_description_property data),
      (upd_steps_property data); cbn; split; try discriminate;
      try (intros (A & B & C); discriminate); auto.
  - intros Hid. unfold update. rewrite Hid. cbn.
    destruct (http PATCH (ENDPOINTS.WORKFLOWS_UPDATE id) (mkPayload None None None None));
      reflexivity.
Qed.

Lemma processStep_ok_log K uploader i step log log1 out :
  processStep K uploader i step log = (log1, Ok out) ->
  log1 = log ++ map EvUpload (option_list (expectedUpload i step)).
Proof.
  unfold processStep, expectedUpload, defaultFileName, isCode.
  destruct (String.eqb (type step) "code").
  - destruct (Js.falsy (config step !! "runtime")); [discriminate |].
    destruct (negb (supportedRuntime (config step !! "runtime"))); [discriminate |].
    destruct (config step !! "code") as [[| | | code | | |] |]; try discriminate.
    destruct (JsString.isEmpty (JsString.trim code)); [discriminate |].
    match goal with |- context [uploader ?h ?c] => destruct (uploader h c) end;
      [| discriminate].
    intros [= <- _]. reflexivity.
  - intros [= <- _]. symmetry. apply app_nil_r.
Qed.

(** X12.  When the orchestrator returns, the uploader has been called
    once for each code step, in the order of the steps, with the file
    name of the step (or [step_<position>.py] / [.js]), its code, and
    the language of its runtime; and there are as many processed steps
    as steps. *)
Theorem uploads_follow_the_code_steps K uploader steps log' out :
  processSteps K uploader steps [] = (log', Ok out) ->
  log' = map EvUpload (expectedUploads 0 steps)
  /\ length out = length steps.
Proof.
  unfold processSteps.
  cut (forall i acc log,
          processStepsFrom K uploader i steps acc log = (log', Ok out) ->
          log' = log ++ map EvUpload (expectedUploads i steps)
          /\ length out = (length acc + length steps)%nat).
  { intros H Hp. apply (H 0%nat [] []) in Hp. exact Hp. }
  revert log' out. induction steps as [| step rest IH]; intros log' out i acc log;
    cbn [processStepsFrom expectedUploads].
  - intros [= <- <-]. cbn. rewrite app_nil_r. split; [reflexivity | lia].
  - destruct (processStep K uploader i step log) as [log1 [o | e]] eqn:Hs; [| discriminate].
    apply processStep_ok_log in Hs. subst log1. intros Hr.
    apply IH in Hr as [-> ->]. rewrite map_app, app_assoc, length_app. cbn. split; [reflexivity | lia].
Qed.



Lemma list_ascii_of_string_app a b :
  list_ascii_of_string (a +:+ b) = list_ascii_of_string a ++ list_ascii_of_string b.
Proof. induction a as [| c a IH]; simpl; [reflexivity | rewrite IH; reflexivity]. Qed.

Lemma string_of_list_ascii_app l1 l2 :
  string_of_list_ascii (l1 ++ l2) = string_of_list_ascii l1 +:+ string_of_list_ascii l2.
Proof. induction l1 as [| c l1 IH]; simpl; [reflexivity | rewrite IH; reflexivity]. Qed.

Lemma reverse_app a b : JsString.reverse (a +:+ b) = JsString.reverse b +:+ JsString.reverse a.
Proof.
  unfold JsString.reverse.
  rewrite list_ascii_of_string_app, rev_app_distr, string_of_list_ascii_app. reflexivity.
Qed.

Lemma reverse_involutive s : JsString.reverse (JsString.reverse s) = s.
Proof.
  unfold JsString.reverse.
  rewrite list_ascii_of_string_of_list_ascii, rev_involutive.
  apply string_of_list_ascii_of_string.
Qed.

Lemma stripTrailingSlash_app_slash b : JsString.stripTrailingSlash (b +:+ "/") = b.
Proof.
  unfold JsString.stripTrailingSlash. rewrite reverse_app.
  change (JsString.reverse "/") with "/". cbn. apply reverse_involutive.
Qed.

(** X14.  [enrichWorkflowResponse] changes nothing but the
    [workflowUrl]; without an SDK base URL (none, or empty) the workflow
    is returned as it is; with one, and a tenant id and a workflow key,
    the URL is [<base>/sdk/<tenantId>/<workflowKey>] where one trailing
    slash of the base is dropped; and enriching twice is enriching
    once. *)
Theorem workflow_url_is_built_from_the_sdk_base (sdkBaseUrl : option string) (wf : Workflow) :
  id (enrichWorkflowResponse sdkBaseUrl wf) = id wf
  /\ tenantId (enrichWorkflowResponse sdkBaseUrl wf) = tenantId wf
  /\ workflowKey (enrichWorkflowResponse sdkBaseUrl wf) = workflowKey wf
  /\ enrichWorkflowResponse None wf = wf
  /\ enrichWorkflowResponse (Some "") wf = wf
  /\ (forall base,
        sdkBaseUrl = Some base -> base <> "" ->
        tenantId wf <> "" -> workflowKey wf <> "" ->
        workflowUrl (enrichWorkflowResponse sdkBaseUrl wf) =
          Some (JsString.stripTrailingSlash base +:+ "/sdk/" +:+ tenantId wf +:+ "/"
                +:+ workflowKey wf))
  /\ (forall base,
        enrichWorkflowResponse (Some (base +:+ "/")) wf =
          if JsString.isEmpty (tenantId wf) || JsString.isEmpty (workflowKey wf)
          then wf
          else mkWorkflow (id wf) (tenantId wf) (workflowKey wf)
                 (Some (base +:+ "/sdk/" +:+ tenantId wf +:+ "/" +:+ workflowKey wf)))
  /\ enrichWorkflowResponse sdkBaseUrl (enrichWorkflowResponse sdkBaseUrl wf)
     = enrichWorkflowResponse sdkBaseUrl wf.
Proof.
  assert (forall s, enrichWorkflowResponse s wf = wf
                    \/ exists u, enrichWorkflowResponse s wf =
                                   mkWorkflow (id wf) (tenantId wf) (workflowKey wf) (Some u)
                                 /\ buildWorkflowUrl s (tenantId wf) (workflowKey wf) = Some u
                                 /\ JsString.isEmpty (tenantId wf) = false
                                 /\ JsString.isEmpty (workflowKey wf) = false) as Hcases.
  { intros s. unfold enrichWorkflowResponse.
    destruct (JsString.isEmpty (tenantId wf)); [left; reflexivity |].
    destruct (JsString.isEmpty (workflowKey wf)); [left; reflexivity |]. cbn [negb andb].
    destruct (buildWorkflowUrl s (tenantId wf) (workflowKey wf)) as [u |];
      [right; eauto | left; reflexivity]. }
  split; [destruct (Hcases sdkBaseUrl) as [-> | (u & -> & _)]; reflexivity |].
  split; [destruct (Hcases sdkBaseUrl) as [-> | (u & -> & _)]; reflexivity |].
  split; [destruct (Hcases sdkBaseUrl) as [-> | (u & -> & _)]; reflexivity |].
  split; [destruct (Hcases None) as [H | (u & _ & H & _)]; [exact H | discriminate H] |].
  split; [destruct (Hcases (Some "")) as [H | (u & _ & H & _)]; [exact H | discriminate H] |].
  split; [| split].
  - intros base -> Hb Ht Hk. unfold enrichWorkflowResponse, buildWorkflowUrl.
    destruct (tenantId wf); [contradiction Ht; reflexivity |].
    destruct (workflowKey wf); [contradiction Hk; reflexivity |].
    destruct base; [contradiction Hb; reflexivity |]. reflexivity.
  - intros base. unfold enrichWorkflowResponse, buildWorkflowUrl.
    destruct (JsString.isEmpty (tenantId wf)); [reflexivity |].
    destruct (JsString.isEmpty (workflowKey wf)); [reflexivity |]. cbn [negb andb orb].
    rewrite stripTrailingSlash_app_slash.
    destruct base; reflexivity.
  - destruct (Hcases sdkBaseUrl) as [H | (u & He & Hu & Ht & Hk)].
    + rewrite H. exact H.
    + rewrite He. unfold enrichWorkflowResponse. cbn [tenantId workflowKey id].
      rewrite Ht, Hk, Hu. reflexivity.
Qed.


(** * Further properties of the client configuration *)

Lemma validateEndpointSecurity_cases K url allowInsecure ws :
  validateEndpointSecurity K url allowInsecure ws =
    match url with
    | None => (ws, Ok tt)
    | Some u =>
        if insecureUrl u then
          if default false allowInsecure
          then (ws ++ [warningFor u], Ok tt)
          else (ws, Err (ThrowNeurana
                           (ConfigurationError K
                              (Some "HTTPS is required for non-localhost endpoints"))))
        else (ws, Ok tt)
    end.
Proof.
  unfold validateEndpointSecurity, insecureUrl, warningFor.
  destruct url as [[| c u] |]; try reflexivity. cbn [JsString.isEmpty negb andb].
  destruct (JsString.startsWith (String c u) "https://"); [reflexivity |].
  destruct (JsString.includes (String c u) "localhost"); [reflexivity |].
  destruct (JsString.includes (String c u) "127.0.0.1"); reflexivity.
Qed.

Lemma includes_single_beforeFirst c s :
  JsString.includes (JsString.beforeFirst c s) (String c "") = false.
Proof.
  induction s as [| d s IH]; [reflexivity |].
  cbn [JsString.beforeFirst]. destruct (Ascii.eqb_spec d c) as [-> | Hne]; [reflexivity |].
  cbn [JsString.includes String.prefix]. rewrite IH.
  destruct (ascii_dec c d) as [-> | _]; [contradiction Hne; reflexivity | reflexivity].
Qed.

Lemma validateEndpoints_ok K allowInsecure urls : forall ws ws',
  validateEndpoints K urls allowInsecure ws = (ws', Ok tt) ->
  (forall url, In url (omap Datatypes.id urls) ->
     insecureUrl url = false \/ allowInsecure = Some true)
  /\ ws' = ws ++ map warningFor (List.filter insecureUrl (omap Datatypes.id urls)).
Proof.
  induction urls as [| url rest IH]; intros ws ws'; cbn [validateEndpoints].
  - intros [= <-]. split; [intros u [] | symmetry; apply app_nil_r].
  - rewrite validateEndpointSecurity_cases.
    destruct url as [u |].
    + destruct (insecureUrl u) eqn:Hu.
      * destruct allowInsecure as [[|] |]; cbn [default from_option Datatypes.id];
          try discriminate.
        intros H. apply IH in H as [H1 ->]. split.
        -- intros url _. right. reflexivity.
        -- cbn [omap list_omap Datatypes.id List.filter]. 
           change (omap Datatypes.id (Some u :: rest)) with (u :: omap Datatypes.id rest).
           cbn [List.filter]. rewrite Hu. cbn [map]. rewrite <- app_assoc. reflexivity.
      * intros H. apply IH in H as [H1 ->]. split.
        -- intros url Hin.
           change (omap Datatypes.id (Some u :: rest)) with (u :: omap Datatypes.id rest) in Hin.
           destruct Hin as [<- | Hin]; [left; exact Hu | apply H1, Hin].
        -- change (omap Datatypes.id (Some u :: rest)) with (u :: omap Datatypes.id rest).
           cbn [List.filter]. rewrite Hu. reflexivity.
    + intros H. apply IH in H. exact H.
Qed.

Lemma validateEndpoints_err K allowInsecure urls : forall ws ws' e,
  validateEndpoints K urls allowInsecure ws = (ws', Err e) ->
  ws' = ws
  /\ e = ThrowNeurana (ConfigurationError K
                         (Some "HTTPS is required for non-localhost endpoints"))
  /\ default false allowInsecure = false
  /\ exists url, In url (omap Datatypes.id urls) /\ insecureUrl url = true.
Proof.
  induction urls as [| url rest IH]; intros ws ws' e; cbn [validateEndpoints].
  - discriminate.
  - rewrite validateEndpointSecurity_cases.
    destruct url as [u |].
    + change (omap Datatypes.id (Some u :: rest)) with (u :: omap Datatypes.id rest).
      destruct (insecureUrl u) eqn:Hu.
      * destruct (default false allowInsecure) eqn:Ha.
        -- intros H. apply IH in H as (_ & _ & H & _). discriminate H.
        -- intros [= <- <-]. repeat split. exists u. split; [left; reflexivity | exact Hu].
      * intros H. apply IH in H as (H1 & H2 & H3 & url & Hin & Hi).
        repeat split; try assumption. exists url. split; [right; exact Hin | exact Hi].
    + intros H. apply IH in H. exact H.
Qed.

Lemma validateConfig_endpoints K config key ws :
  apiKey config = Some (JStr key) ->
  Js.falsy (Some (JStr key)) = false ->
  (String.length (JsString.trim key) <? MIN_API_KEY_LENGTH K)%nat = false ->
  (MAX_API_KEY_LENGTH K <? String.length (JsString.trim key))%nat = false ->
  JsString.startsWith (JsString.trim key) "nrn_"
    && negb (API_KEY_PATTERN_test K (JsString.trim key)) = false ->
  validateConfig K config ws =
    validateEndpoints K [baseUrl config; mainApiUrl config; cfg_sdkBaseUrl config]
      (allowInsecureHttp config) ws.
Proof.
  intros Hk Hf H1 H2 H3. unfold validateConfig. rewrite Hk, Hf, H1, H2, H3.
  cbn [validateEndpoints].
  destruct (validateEndpointSecurity K (baseUrl config) (allowInsecureHttp config) ws)
    as [w1 [[] | e1]]; [| reflexivity].
  destruct (validateEndpointSecurity K (mainApiUrl config) (allowInsecureHttp config) w1)
    as [w2 [[] | e2]]; [| reflexivity].
  destruct (validateEndpointSecurity K (cfg_sdkBaseUrl config) (allowInsecureHttp config) w2)
    as [w3 [[] | e3]]; reflexivity.
Qed.

Lemma validateConfig_cases K config ws :
  (exists m,
     validateConfig K config ws = (ws, Err (ThrowNeurana (ConfigurationError K (Some m))))
     /\ In m ["API key is required"; "API key must be a string"; "Invalid API key format";
              "API key exceeds maximum length"])
  \/ (exists key,
        apiKey config = Some (JStr key)
        /\ key <> ""
        /\ (MIN_API_KEY_LENGTH K <= String.length (JsString.trim key) <= MAX_API_KEY_LENGTH K)%nat
        /\ (JsString.startsWith (JsString.trim key) "nrn_" = true ->
            API_KEY_PATTERN_test K (JsString.trim key) = true)
        /\ validateConfig K config ws =
             validateEndpoints K [baseUrl config; mainApiUrl config; cfg_sdkBaseUrl config]
               (allowInsecureHttp config) ws).
Proof.
  destruct (Js.falsy (apiKey config)) eqn:Hf.
  { left. unfold validateConfig, configError. rewrite Hf. eexists. split; [reflexivity |].
    cbn. auto. }
  destruct (apiKey config) as [[| | | key | | |] |] eqn:Hk;
    try (left; unfold validateConfig, configError; rewrite Hk, Hf; eexists;
         split; [reflexivity |]; cbn; auto; fail).
  destruct (String.length (JsString.trim key) <? MIN_API_KEY_LENGTH K)%nat eqn:H1.
  { left. unfold validateConfig, configError. rewrite Hk, Hf, H1. eexists.
    split; [reflexivity |]. cbn. auto. }
  destruct (MAX_API_KEY_LENGTH K <? String.length (JsString.trim key))%nat eqn:H2.
  { left. unfold validateConfig, configError. rewrite Hk, Hf, H1, H2. eexists.
    split; [reflexivity |]. cbn. auto. }
  destruct (JsString.startsWith (JsString.trim key) "nrn_"
            && negb (API_KEY_PATTERN_test K (JsString.trim key))) eqn:H3.
  { left. unfold validateConfig, configError. rewrite Hk, Hf, H1, H2, H3. eexists.
    split; [reflexivity |]. cbn. auto. }
  right. exists key. split; [reflexivity |].
  split; [intros ->; discriminate Hf |].
  pose proof (validateConfig_endpoints K config key ws Hk Hf H1 H2 H3) as Heq.
  apply Nat.ltb_ge in H1. apply Nat.ltb_ge in H2.
  split; [lia |]. split; [| exact Heq].
  intros Hs. rewrite Hs in H3. cbn in H3. apply negb_false_iff in H3. exact H3.
Qed.

(** X15.  When the constructor returns a client, each of the three
    endpoints of the configuration is acceptable or [allowInsecureHttp]
    is true; exactly one warning is logged for each endpoint that is not
    acceptable, in the order baseUrl, mainApiUrl, sdkBaseUrl; and the
    URL of a warning holds no query string. *)
Theorem constructor_checks_every_endpoint K config ws ws' client :
  newNeuranaClient K config ws = (ws', Ok client) ->
  (forall url, In url (configuredUrls config) ->
     insecureUrl url = false \/ allowInsecureHttp config = Some true)
  /\ ws' = ws ++ map warningFor (List.filter insecureUrl (configuredUrls config))
  /\ (forall w, In w (map warningFor (List.filter insecureUrl (configuredUrls config))) ->
        JsString.includes (warn_url w) "?" = false).
Proof.
  unfold newNeuranaClient.
  destruct (validateConfig K config ws) as [w1 [[] | e]] eqn:Hv; [| discriminate].
  intros [= <- _].
  destruct (validateConfig_cases K config ws) as [(m & Hm & _) | (key & _ & _ & _ & _ & Heq)].
  { rewrite Hm in Hv. discriminate Hv. }
  rewrite Heq in Hv. apply validateEndpoints_ok in Hv as [Ha Hb].
  split; [exact Ha |]. split; [exact Hb |].
  intros w Hin. apply in_map_iff in Hin as (u & <- & _).
  apply includes_single_beforeFirst.
Qed.

(** X16.  When the constructor throws it has logged no warning, and
    what it throws is a ConfigurationError with one of five messages. *)
Theorem throwing_constructor_logs_nothing K config ws ws' e :
  newNeuranaClient K config ws = (ws', Err e) ->
  ws' = ws
  /\ exists m,
       e = ThrowNeurana (ConfigurationError K (Some m))
       /\ In m ["API key is required"; "API key must be a string"; "Invalid API key format";
                "API key exceeds maximum length";
                "HTTPS is required for non-localhost endpoints"].
Proof.
  unfold newNeuranaClient.
  destruct (validateConfig K config ws) as [w1 [[] | e']] eqn:Hv; [discriminate |].
  intros [= <- <-].
  destruct (validateConfig_cases K config ws) as [(m & Hm & Hin) | (key & _ & _ & _ & _ & Heq)].
  - rewrite Hm in Hv. injection Hv as <- <-. split; [reflexivity |].
    exists m. split; [reflexivity |]. cbn in *. intuition.
  - rewrite Heq in Hv. apply validateEndpoints_err in Hv as (-> & -> & _).
    split; [reflexivity |]. eexists. split; [reflexivity |]. cbn. auto 10.
Qed.

(** X17.  A constructed client was given a string key whose trimmed
    length is within the limits (and which matches the key pattern when
    it starts with [nrn_]); both HTTP clients hold the key as it was
    given, not trimmed, the configured base URLs (or the defaults)
    without one trailing slash, and the configured timeout (or 30 s). *)
Theorem constructed_client_keeps_key_and_normalises_urls K config ws ws' client :
  newNeuranaClient K config ws = (ws', Ok client) ->
  exists key,
    apiKey config = Some (JStr key)
    /\ (MIN_API_KEY_LENGTH K <= String.length (JsString.trim key) <= MAX_API_KEY_LENGTH K)%nat
    /\ (JsString.startsWith (JsString.trim key) "nrn_" = true ->
        API_KEY_PATTERN_test K (JsString.trim key) = true)
    /\ http_apiKey (workflowsHttp client) = key
    /\ http_apiKey (mainHttp client) = key
    /\ http_baseUrl (workflowsHttp client) =
         JsString.stripTrailingSlash (default BASE_URL (baseUrl config))
    /\ http_baseUrl (mainHttp client) =
         JsString.stripTrailingSlash (default MAIN_API_URL (mainApiUrl config))
    /\ http_timeout (workflowsHttp client) = default 30000 (cfg_timeout config)
    /\ http_timeout (mainHttp client) = default 30000 (cfg_timeout config).
Proof.
  unfold newNeuranaClient.
  destruct (validateConfig K config ws) as [w1 [[] | e]] eqn:Hv; [| discriminate].
  intros [= <- <-].
  destruct (validateConfig_cases K config ws)
    as [(m & Hm & _) | (key & Hk & _ & Hlen & Hpat & _)].
  { rewrite Hm in Hv. discriminate Hv. }
  exists key. rewrite Hk. repeat split; try assumption; try lia.
Qed.


(** * Properties of the file utilities and of the code resource *)

Lemma pretty_N_char_digit x : isDigit (pretty_N_char x) = true.
Proof. unfold pretty_N_char. repeat case_match; reflexivity. Qed.

Lemma pretty_N_go_digits x : forall s,
  forallb isDigit (list_ascii_of_string s) = true ->
  forallb isDigit (list_ascii_of_string (pretty_N_go x s)) = true.
Proof.
  induction (N.lt_wf_0 x) as [x _ IH]. intros s Hs.
  destruct (decide (x = 0)%N) as [-> | Hx]; [rewrite pretty_N_go_0; exact Hs |].
  rewrite pretty_N_go_step by lia. apply IH.
  - apply N.div_lt; lia.
  - cbn. rewrite pretty_N_char_digit. exact Hs.
Qed.

Lemma pretty_N_go_length k : forall x s,
  (x < 10 ^ N.of_nat k)%N ->
  (String.length (pretty_N_go x s) <= String.length s + k)%nat.
Proof.
  induction k as [| k IH]; intros x s Hx.
  - assert (x = 0%N) as -> by (cbn in Hx; lia). rewrite pretty_N_go_0. lia.
  - destruct (decide (x = 0)%N) as [-> | Hnz]; [rewrite pretty_N_go_0; lia |].
    rewrite pretty_N_go_step by lia.
    etransitivity; [apply IH |]; [| cbn; lia].
    rewrite Nat2N.inj_succ, N.pow_succ_r' in Hx.
    apply N.Div0.div_lt_upper_bound. lia.
Qed.

Lemma pretty_nat_digits (n : nat) :
  forallb isDigit (list_ascii_of_string (pretty n)) = true.
Proof.
  unfold pretty, pretty_nat, pretty, pretty_N.
  case_decide; [reflexivity |]. apply pretty_N_go_digits. reflexivity.
Qed.

Lemma pretty_nat_length (n k : nat) :
  (N.of_nat n < 10 ^ N.of_nat k)%N -> (1 <= k)%nat ->
  (String.length (pretty n) <= k)%nat.
Proof.
  intros Hn Hk. unfold pretty, pretty_nat, pretty, pretty_N.
  case_decide; [cbn; lia |]. apply (pretty_N_go_length k _ ""), Hn.
Qed.

Lemma string_length_app a b :
  String.length (a +:+ b) = (String.length a + String.length b)%nat.
Proof. induction a as [| c a IH]; simpl; [reflexivity | rewrite IH; reflexivity]. Qed.

Lemma trimStart_no_space s :
  forallb (fun c => negb (JsString.isWhiteSpace c)) (list_ascii_of_string s) = true ->
  JsString.trimStart s = s.
Proof.
  destruct s as [| c s]; [reflexivity |]. cbn [list_ascii_of_string forallb JsString.trimStart].
  intros H. apply andb_true_iff in H as [H _]. apply negb_true_iff in H. rewrite H.
  reflexivity.
Qed.

Lemma trim_no_space s :
  forallb (fun c => negb (JsString.isWhiteSpace c)) (list_ascii_of_string s) = true ->
  JsString.trim s = s.
Proof.
  intros H. unfold JsString.trim, JsString.trimEnd.
  rewrite (trimStart_no_space s H).
  rewrite trimStart_no_space; [apply reverse_involutive |].
  unfold JsString.reverse. rewrite list_ascii_of_string_of_list_ascii.
  rewrite forallb_forall in *. intros c Hc. apply H, in_rev, Hc.
Qed.

Lemma fileNameChar_not_space c :
  FileUtils.isKeyChar c = true -> JsString.isWhiteSpace c = false.
Proof. destruct c as [[] [] [] [] [] [] [] []]; vm_compute; congruence. Qed.

Lemma fileNameChar_keyChar c : FileUtils.isFileNameChar c = true -> FileUtils.isKeyChar c = true.
Proof. unfold FileUtils.isKeyChar. intros ->. reflexivity. Qed.

Lemma alphaNum_fileNameChar c : FileUtils.isAlphaNum c = true -> FileUtils.isFileNameChar c = true.
Proof. unfold FileUtils.isFileNameChar. intros ->. reflexivity. Qed.

Lemma safe_key_no_space s :
  FileUtils.SAFE_KEY_PATTERN_test s = true ->
  forallb (fun c => negb (JsString.isWhiteSpace c)) (list_ascii_of_string s) = true.
Proof.
  destruct s as [| c s]; [discriminate |]. cbn [FileUtils.SAFE_KEY_PATTERN_test].
  intros H. apply andb_true_iff in H as [H1 H2].
  cbn [list_ascii_of_string forallb]. apply andb_true_iff. split.
  - apply negb_true_iff, fileNameChar_not_space, fileNameChar_keyChar,
      alphaNum_fileNameChar, H1.
  - rewrite forallb_forall in *. intros x Hx.
    apply negb_true_iff, fileNameChar_not_space, H2, Hx.
Qed.

Lemma safe_fileName_safe_key s :
  FileUtils.SAFE_FILENAME_PATTERN_test s = true -> FileUtils.SAFE_KEY_PATTERN_test s = true.
Proof.
  destruct s as [| c s]; [discriminate |].
  cbn [FileUtils.SAFE_FILENAME_PATTERN_test FileUtils.SAFE_KEY_PATTERN_test].
  intros H. apply andb_true_iff in H as [H1 H2]. rewrite H1. cbn [andb].
  rewrite forallb_forall in *. intros x Hx. apply fileNameChar_keyChar, H2, Hx.
Qed.

(** X18.  A file name that [validateFileName] accepts is the trimmed
    string it was given, of 1 to 255 characters, matching
    SAFE_FILENAME_PATTERN, with no [..], no [/], no backslash and no
    dangerous extension; and validating it again returns it
    unchanged. *)
Theorem accepted_file_name_is_safe K (v : option Json) (name : string) :
  FileUtils.validateFileName K v = Ok name ->
  (exists s, v = Some (JStr s) /\ name = JsString.trim s)
  /\ (1 <= String.length name <= 255)%nat
  /\ FileUtils.SAFE_FILENAME_PATTERN_test name = true
  /\ JsString.includes name ".." = false
  /\ JsString.includes name "/" = false
  /\ JsString.includes name "\" = false
  /\ FileUtils.isDangerousExtension name = false
  /\ FileUtils.validateFileName K (Some (JStr name)) = Ok name.
Proof.
  unfold FileUtils.validateFileName at 1, FileUtils.invalid.
  destruct v as [[| | | [| c s] | | |] |]; try discriminate.
  set (t := JsString.trim (String c s)).
  destruct (Nat.eqb_spec (String.length t) 0); [discriminate |].
  destruct (Nat.ltb_spec FileUtils.MAX_FILENAME_LENGTH (String.length t)); [discriminate |].
  destruct (FileUtils.SAFE_FILENAME_PATTERN_test t) eqn:Hp; [| discriminate]. cbn [negb].
  destruct (JsString.includes t "..") eqn:H1; [discriminate |].
  destruct (JsString.includes t "/") eqn:H2; [discriminate |].
  destruct (JsString.includes t "\") eqn:H3; [discriminate |]. cbn [orb].
  destruct (FileUtils.isDangerousExtension t) eqn:H4; [discriminate |].
  intros [= <-]. unfold FileUtils.MAX_FILENAME_LENGTH in *.
  split; [eexists; split; reflexivity |].
  split; [lia |]. repeat (split; [assumption |]).
  assert (JsString.trim t = t) as Ht
    by (apply trim_no_space, safe_key_no_space, safe_fileName_safe_key, Hp).
  unfold FileUtils.validateFileName, FileUtils.invalid.
  destruct t as [| c' t'] eqn:Et; [discriminate Hp |].
  rewrite Ht.
  destruct (Nat.eqb_spec (String.length (String c' t')) 0); [contradiction |].
  destruct (Nat.ltb_spec FileUtils.MAX_FILENAME_LENGTH (String.length (String c' t')));
    [unfold FileUtils.MAX_FILENAME_LENGTH in *; lia |].
  rewrite Hp, H1, H2, H3, H4. reflexivity.
Qed.

(** X19.  A key that [validateFileKey] accepts is the trimmed string it
    was given, of 1 to 256 characters, matching SAFE_KEY_PATTERN, with
    no [..] and no leading [/]; and validating it again returns it
    unchanged. *)
Theorem accepted_file_key_has_no_traversal K (v : option Json) (key : string) :
  FileUtils.validateFileKey K v = Ok key ->
  (exists s, v = Some (JStr s) /\ key = JsString.trim s)
  /\ (1 <= String.length key <= 256)%nat
  /\ FileUtils.SAFE_KEY_PATTERN_test key = true
  /\ JsString.includes key ".." = false
  /\ JsString.startsWith key "/" = false
  /\ FileUtils.validateFileKey K (Some (JStr key)) = Ok key.
Proof.
  unfold FileUtils.validateFileKey at 1, FileUtils.invalid.
  destruct v as [[| | | [| c s] | | |] |]; try discriminate.
  set (t := JsString.trim (String c s)).
  destruct (Nat.eqb_spec (String.length t) 0); [discriminate |].
  destruct (Nat.ltb_spec FileUtils.MAX_KEY_LENGTH (String.length t)); [discriminate |].
  destruct (JsString.includes t "..") eqn:H1; [discriminate |].
  destruct (FileUtils.SAFE_KEY_PATTERN_test t) eqn:Hp; [| discriminate]. cbn [negb].
  intros [= <-]. unfold FileUtils.MAX_KEY_LENGTH in *.
  split; [eexists; split; reflexivity |].
  split; [lia |]. repeat (split; [assumption |]).
  assert (JsString.trim t = t) as Ht by (apply trim_no_space, safe_key_no_space, Hp).
  destruct t as [| c' t'] eqn:Et; [discriminate Hp |].
  split.
  - cbn [FileUtils.SAFE_KEY_PATTERN_test] in Hp. apply andb_true_iff in Hp as [Hc _].
    unfold JsString.startsWith. cbn [String.prefix].
    destruct (ascii_dec "/" c') as [<- | _]; [discriminate Hc | reflexivity].
  - unfold FileUtils.validateFileKey, FileUtils.invalid. rewrite Ht.
    destruct (Nat.eqb_spec (String.length (String c' t')) 0); [contradiction |].
    destruct (Nat.ltb_spec FileUtils.MAX_KEY_LENGTH (String.length (String c' t')));
      [unfold FileUtils.MAX_KEY_LENGTH in *; lia |].
    rewrite H1, Hp. reflexivity.
Qed.

Lemma toLowerChar_idempotent c :
  FileUtils.toLowerChar (FileUtils.toLowerChar c) = FileUtils.toLowerChar c.
Proof. destruct c as [[] [] [] [] [] [] [] []]; reflexivity. Qed.

Lemma toLowerChar_dot c : Ascii.eqb (FileUtils.toLowerChar c) "." = Ascii.eqb c ".".
Proof. destruct c as [[] [] [] [] [] [] [] []]; reflexivity. Qed.

Lemma toLowerCase_idempotent s :
  FileUtils.toLowerCase (FileUtils.toLowerCase s) = FileUtils.toLowerCase s.
Proof.
  induction s as [| c s IH]; [reflexivity |]. cbn. rewrite toLowerChar_idempotent, IH.
  reflexivity.
Qed.

Lemma afterLastDot_toLowerCase s :
  FileUtils.afterLastDot (FileUtils.toLowerCase s) =
    FileUtils.toLowerCase <$> FileUtils.afterLastDot s.
Proof.
  induction s as [| c s IH]; [reflexivity |].
  cbn [FileUtils.toLowerCase FileUtils.afterLastDot]. rewrite IH.
  destruct (FileUtils.afterLastDot s); [reflexivity |]. cbn.
  rewrite toLowerChar_dot. destruct (Ascii.eqb c "."); reflexivity.
Qed.

Lemma getFileExtension_toLowerCase s :
  FileUtils.getFileExtension (FileUtils.toLowerCase s) = FileUtils.getFileExtension s.
Proof.
  unfold FileUtils.getFileExtension. rewrite afterLastDot_toLowerCase.
  destruct (FileUtils.afterLastDot s) as [[| c r] |]; try reflexivity.
  cbn. rewrite toLowerChar_idempotent, toLowerCase_idempotent. reflexivity.
Qed.

(** X20.  The extension of a file name is in lower case, and the checks
    made on it (dangerous, allowed, language, MIME type) give the same
    answer for a name and for the name in lower case. *)
Theorem extension_checks_ignore_case F (fileName : string) :
  FileUtils.getFileExtension (FileUtils.toLowerCase fileName)
  = FileUtils.getFileExtension fileName
  /\ FileUtils.toLowerCase (FileUtils.getFileExtension fileName)
     = FileUtils.getFileExtension fileName
  /\ FileUtils.isDangerousExtension (FileUtils.toLowerCase fileName)
     = FileUtils.isDangerousExtension fileName
  /\ FileUtils.isAllowedExtension F (FileUtils.toLowerCase fileName)
     = FileUtils.isAllowedExtension F fileName
  /\ FileUtils.getLanguage (FileUtils.toLowerCase fileName) = FileUtils.getLanguage fileName
  /\ FileUtils.getMimeType (FileUtils.toLowerCase fileName) = FileUtils.getMimeType fileName.
Proof.
  unfold FileUtils.isDangerousExtension, FileUtils.isAllowedExtension, FileUtils.getLanguage,
    FileUtils.getMimeType.
  rewrite getFileExtension_toLowerCase. repeat split.
  unfold FileUtils.getFileExtension.
  destruct (FileUtils.afterLastDot fileName) as [[| c r] |]; try reflexivity.
  apply toLowerCase_idempotent.
Qed.

Lemma afterLastDot_app a b r :
  FileUtils.afterLastDot b = Some r -> FileUtils.afterLastDot (a +:+ b) = Some r.
Proof.
  intros H. induction a as [| c a IH]; [exact H |].
  simpl. rewrite IH. reflexivity.
Qed.

Lemma getFileExtension_app a b r :
  FileUtils.afterLastDot b = Some r ->
  FileUtils.getFileExtension (a +:+ b) = FileUtils.getFileExtension b.
Proof.
  intros H. unfold FileUtils.getFileExtension. rewrite (afterLastDot_app a b r H), H.
  reflexivity.
Qed.

Lemma includes_single s c :
  JsString.includes s (String c "") = existsb (Ascii.eqb c) (list_ascii_of_string s).
Proof.
  induction s as [| d s IH]; [reflexivity |].
  cbn [JsString.includes String.prefix list_ascii_of_string existsb]. rewrite IH.
  destruct (ascii_dec c d) as [-> | Hne].
  - rewrite Ascii.eqb_refl. destruct s; reflexivity.
  - destruct (Ascii.eqb_spec c d); [contradiction | reflexivity].
Qed.

Lemma digit_fileNameChar c : isDigit c = true -> FileUtils.isFileNameChar c = true.
Proof. destruct c as [[] [] [] [] [] [] [] []]; vm_compute; congruence. Qed.

Lemma digit_not_dot c : isDigit c = true -> Ascii.eqb c "." = false.
Proof. destruct c as [[] [] [] [] [] [] [] []]; vm_compute; congruence. Qed.

Lemma digits_then_suffix_no_double_dot ds suffix :
  forallb isDigit (list_ascii_of_string ds) = true ->
  JsString.includes suffix ".." = false ->
  JsString.includes (ds +:+ suffix) ".." = false.
Proof.
  intros Hd Hs. induction ds as [| d ds IH]; [exact Hs |].
  cbn [list_ascii_of_string forallb] in Hd. apply andb_true_iff in Hd as [Hd1 Hd2].
  change (String d ds +:+ suffix) with (String d (ds +:+ suffix)).
  cbn [JsString.includes String.prefix]. rewrite (IH Hd2).
  destruct (ascii_dec "." d) as [<- | _]; [discriminate Hd1 | reflexivity].
Qed.

Lemma default_name_valid K (n : nat) (ext : string) :
  (N.of_nat n < 10 ^ 10)%N ->
  ext = "py" \/ ext = "js" ->
  FileUtils.validateFileName K (Some (JStr ("step_" +:+ pretty n +:+ "." +:+ ext)))
  = Ok ("step_" +:+ pretty n +:+ "." +:+ ext)
  /\ FileUtils.getFileExtension ("step_" +:+ pretty n +:+ "." +:+ ext) = String "." ext.
Proof.
  intros Hn Hext.
  pose proof (pretty_nat_digits n) as Hd.
  pose proof (pretty_nat_length n 10 Hn ltac:(lia)) as Hl.
  set (ds := pretty n) in *.
  assert (forallb FileUtils.isFileNameChar (list_ascii_of_string (ds +:+ "." +:+ ext)) = true)
    as Hchars.
  { rewrite list_ascii_of_string_app, forallb_app. apply andb_true_iff. split.
    - rewrite forallb_forall in *. intros c Hc. apply digit_fileNameChar, Hd, Hc.
    - destruct Hext as [-> | ->]; reflexivity. }
  assert (FileUtils.afterLastDot (ds +:+ "." +:+ ext) = Some ext) as Hdot.
  { apply afterLastDot_app. destruct Hext as [-> | ->]; reflexivity. }
  assert (String.length (ds +:+ "." +:+ ext) = (String.length ds + 3)%nat) as Hlen.
  { rewrite string_length_app. destruct Hext as [-> | ->]; reflexivity. }
  assert (JsString.includes (ds +:+ "." +:+ ext) ".." = false) as Hdd.
  { apply digits_then_suffix_no_double_dot; [exact Hd |].
    destruct Hext as [-> | ->]; reflexivity. }
  assert (ext <> "") as Hne by (destruct Hext as [-> | ->]; discriminate).
  assert (FileUtils.toLowerCase (String "." ext) = String "." ext) as Hlow
    by (destruct Hext as [-> | ->]; reflexivity).
  assert (existsb (String.eqb (String "." ext)) FileUtils.DANGEROUS_EXTENSIONS = false) as Hdang
    by (destruct Hext as [-> | ->]; reflexivity).
  remember (ds +:+ "." +:+ ext) as X eqn:HX. clear HX.
  change ("step_" +:+ X)
    with (String "s" (String "t" (String "e" (String "p" (String "_" X))))).
  set (name := String "s" (String "t" (String "e" (String "p" (String "_" X))))).
  assert (FileUtils.getFileExtension name = String "." ext) as Hext'.
  { unfold FileUtils.getFileExtension, name. cbn [FileUtils.afterLastDot]. rewrite Hdot.
    destruct ext; [contradiction Hne; reflexivity | exact Hlow]. }
  split; [| exact Hext'].
  assert (FileUtils.SAFE_FILENAME_PATTERN_test name = true) as Hp.
  { unfold name. cbn [FileUtils.SAFE_FILENAME_PATTERN_test list_ascii_of_string forallb].
    rewrite Hchars. reflexivity. }
  assert (JsString.trim name = name)
    as Ht by (apply trim_no_space, safe_key_no_space, safe_fileName_safe_key, Hp).
  assert (String.length name = (8 + String.length ds)%nat) as Hlen'.
  { unfold name. cbn [String.length]. rewrite Hlen. lia. }
  assert (JsString.includes name ".." = false) as H1.
  { unfold name. cbn [JsString.includes String.prefix]. rewrite Hdd.
    vm_compute. reflexivity. }
  assert (forall c, FileUtils.isFileNameChar c = false ->
            JsString.includes name (String c "") = false) as H2.
  { intros c Hc. rewrite includes_single.
    destruct (existsb (Ascii.eqb c) (list_ascii_of_string name)) eqn:He; [| reflexivity].
    apply existsb_exists in He as (x & Hx & Heq). apply Ascii.eqb_eq in Heq. subst x.
    unfold name in Hx. cbn [list_ascii_of_string In] in Hx. rewrite forallb_forall in Hchars.
    destruct Hx as [<- | [<- | [<- | [<- | [<- | Hx]]]]]; try discriminate Hc.
    rewrite (Hchars c Hx) in Hc. discriminate Hc. }
  unfold FileUtils.validateFileName, FileUtils.invalid. unfold name at 1. fold name.
  rewrite Ht, Hp, Hlen'. cbn [negb].
  destruct (Nat.eqb_spec (8 + String.length ds) 0); [lia |].
  destruct (Nat.ltb_spec FileUtils.MAX_FILENAME_LENGTH (8 + String.length ds));
    [unfold FileUtils.MAX_FILENAME_LENGTH in *; lia |].
  rewrite H1, (H2 "/"%char eq_refl), (H2 "\"%char eq_refl). cbn [orb].
  unfold FileUtils.isDangerousExtension. rewrite Hext', Hdang. reflexivity.
Qed.

Lemma defaultFileName_valid K (i : nat) (step : CreateStepInput) :
  (N.of_nat (i + 1) < 10 ^ 10)%N ->
  FileUtils.validateFileName K (Some (JStr (defaultFileName i step)))
  = Ok (defaultFileName i step)
  /\ FileUtils.getFileExtension (defaultFileName i step)
     = (if isPython (config step !! "runtime") then ".py" else ".js").
Proof.
  intros Hi. unfold defaultFileName.
  destruct (isPython (config step !! "runtime")).
  - exact (default_name_valid K (i + 1) "py" Hi (or_introl eq_refl)).
  - exact (default_name_valid K (i + 1) "js" Hi (or_intror eq_refl)).
Qed.

(** X21.  The file name the orchestrator makes up for a code step,
    [step_<position>.py] or [step_<position>.js], passes
    [validateFileName] as it is, is not dangerous, and its language by
    extension is the language the orchestrator sends with it. *)
Theorem default_step_file_names_pass_validation K (i : nat) (step : CreateStepInput) :
  (N.of_nat (i + 1) < 10 ^ 10)%N ->
  FileUtils.validateFileName K (Some (JStr (defaultFileName i step)))
  = Ok (defaultFileName i step)
  /\ FileUtils.getLanguage (defaultFileName i step)
     = (if isPython (config step !! "runtime") then "python" else "javascript")
  /\ FileUtils.isDangerousExtension (defaultFileName i step) = false.
Proof.
  intros Hi. unfold defaultFileName.
  destruct (isPython (config step !! "runtime")).
  - destruct (default_name_valid K (i + 1) "py" Hi (or_introl eq_refl)) as [Hv He].
    split; [exact Hv |]. unfold FileUtils.getLanguage, FileUtils.isDangerousExtension.
    rewrite He. split; reflexivity.
  - destruct (default_name_valid K (i + 1) "js" Hi (or_intror eq_refl)) as [Hv He].
    split; [exact Hv |]. unfold FileUtils.getLanguage, FileUtils.isDangerousExtension.
    rewrite He. split; reflexivity.
Qed.

Lemma getContentSize_pos s : s <> "" -> 0 < FileUtils.getContentSize s.
Proof.
  assert (forall t, 0 <= FileUtils.getContentSize t) as Hnn.
  { induction t as [| c t IH]; cbn [FileUtils.getContentSize]; [lia |].
    destruct (nat_of_ascii c <? 128)%nat; lia. }
  destruct s as [| c s]; [intros H; contradiction H; reflexivity |]. intros _.
  cbn [FileUtils.getContentSize]. specialize (Hnn s).
  destruct (nat_of_ascii c <? 128)%nat; lia.
Qed.

(** X22.  [CodeResource.upload] either throws a ValidationError with
    nothing posted, or posts one body: the validated file name, with an
    allowed extension, the content as given, not empty and within
    MAX_CODE_SIZE in bytes, and the given language, or the language of
    the extension when none is given; its result is then the result of
    the post. *)
Theorem upload_posts_only_what_it_validated K F http data posted posted' r :
  upload K F http data posted = (posted', r) ->
  (posted' = posted /\ exists m, r = FileUtils.invalid K m)
  \/ (exists body,
        posted' = posted ++ [body]
        /\ r = http body
        /\ FileUtils.validateFileName K (up_fileName data) = Ok (body_fileName body)
        /\ FileUtils.isAllowedExtension F (body_fileName body) = true
        /\ body_content body = up_content data
        /\ 0 < FileUtils.getContentSize (up_content data) <= MAX_CODE_SIZE F
        /\ body_language body =
             default (FileUtils.getLanguage (body_fileName body)) (up_language data)).
Proof.
  unfold upload.
  destruct (FileUtils.validateFileName K (up_fileName data)) as [name | e] eqn:Hv.
  2:{ intros [= <- <-]. left. split; [reflexivity |].
      unfold FileUtils.validateFileName in Hv.
      repeat match type of Hv with
             | context [match ?x with _ => _ end] => destruct x
             | context [if ?b then _ else _] => destruct b
             end; try discriminate Hv; injection Hv as <-; eexists; reflexivity. }
  destruct (FileUtils.isAllowedExtension F name) eqn:Ha; cbn [negb].
  2:{ intros [= <- <-]. left. split; [reflexivity | eexists; reflexivity]. }
  destruct (up_content data) as [| c s] eqn:Hc; cbn [JsString.isEmpty].
  { intros [= <- <-]. left. split; [reflexivity | eexists; reflexivity]. }
  unfold FileUtils.validateFileSize.
  destruct (Z.leb_spec (FileUtils.getContentSize (String c s)) 0).
  { intros [= <- <-]. left. split; [reflexivity | eexists; reflexivity]. }
  destruct (Z.ltb_spec (MAX_CODE_SIZE F) (FileUtils.getContentSize (String c s))).
  { intros [= <- <-]. left. split; [reflexivity | eexists; reflexivity]. }
  intros [= <- <-]. right. eexists. split; [reflexivity |]. cbn.
  repeat split; try reflexivity; try assumption; lia.
Qed.

(** X23.  Through the uploader the client installs, the upload of a
    code step that is named by default, whose code is not empty and
    within the size limit, and whose extension is allowed, is posted as
    it is, and the key of the answer is what the orchestrator gets. *)
Theorem default_named_code_step_reaches_the_service K F http history
    (i : nat) (step : CreateStepInput) (code : string) :
  (N.of_nat (i + 1) < 10 ^ 10)%N ->
  code <> "" ->
  FileUtils.getContentSize code <= MAX_CODE_SIZE F ->
  FileUtils.isAllowedExtension F (defaultFileName i step) = true ->
  let lang := if isPython (config step !! "runtime") then "python" else "javascript" in
  clientUploader K F http history (mkUpload (JStr (defaultFileName i step)) code lang)
  = match http (mkUploadBody (defaultFileName i step) code lang) with
    | Ok result => Ok (resp_key result)
    | Err e => Err e
    end.
Proof.
  intros Hi Hne Hsize Hallowed lang.
  destruct (defaultFileName_valid K i step Hi) as (Hv & _).
  unfold clientUploader, upload. cbn [fileName content language up_fileName up_content
    up_language]. rewrite Hv, Hallowed. cbn [negb].
  destruct code as [| c s]; [contradiction Hne; reflexivity |]. cbn [JsString.isEmpty].
  unfold FileUtils.validateFileSize.
  pose proof (getContentSize_pos (String c s) Hne) as Hpos.
  destruct (Z.leb_spec (FileUtils.getContentSize (String c s)) 0); [lia |].
  destruct (Z.ltb_spec (MAX_CODE_SIZE F) (FileUtils.getContentSize (String c s))); [lia |].
  cbn [snd default from_option Datatypes.id]. reflexivity.
Qed.


(** * Properties of the logger *)

Lemma Json_nested_ind (P : Json -> Prop) :
  P JNull -> (forall b, P (JBool b)) -> (forall n, P (JNum n)) -> (forall s, P (JStr s)) ->
  (forall items, Forall P items -> P (JArr items)) ->
  (forall fields, Forall (fun kv => P (snd kv)) fields -> P (JObj fields)) ->
  (forall negative, P (JInf negative)) ->
  forall v, P v.
Proof.
  intros Hnull Hbool Hnum Hstr Harr Hobj Hinf.
  fix IH 1. intros [| b | n | s | items | fields | negative].
  - exact Hnull.
  - apply Hbool.
  - apply Hnum.
  - apply Hstr.
  - apply Harr. induction items as [| v items IHitems]; constructor; [apply IH | exact IHitems].
  - apply Hobj. induction fields as [| [k v] fields IHfields]; constructor;
      [apply IH | exact IHfields].
  - apply Hinf.
Qed.

Lemma filter_assignable_cons k v fields :
  List.filter assignable ((k, v) :: fields) =
    if String.eqb k "__proto__" then List.filter assignable fields
    else (k, v) :: List.filter assignable fields.
Proof.
  cbn [List.filter]. unfold assignable at 1. cbn [fst].
  destruct (String.eqb k "__proto__"); reflexivity.
Qed.

Lemma redactSensitive_obj fields :
  Log.redactSensitive (JObj fields) = JObj (map redactField (List.filter assignable fields)).
Proof.
  cbn [Log.redactSensitive]. apply (f_equal JObj).
  induction fields as [| [k v] fields IH]; [reflexivity |].
  rewrite filter_assignable_cons. destruct (String.eqb k "__proto__").
  - apply IH.
  - cbn [map redactField fst snd]. rewrite IH. reflexivity.
Qed.

Lemma redactSensitive_arr items :
  Log.redactSensitive (JArr items) = JObj (redactItems 0 items).
Proof.
  cbn [Log.redactSensitive]. apply (f_equal JObj). generalize 0%nat.
  induction items as [| v items IH]; intros i; [reflexivity |].
  cbn [redactItems]. f_equal; try apply IH.
Qed.

Lemma deepEntries_obj fields : deepEntries (JObj fields) = deepEntriesOfFields fields.
Proof.
  cbn [deepEntries]. induction fields as [| [k v] fields IH]; [reflexivity |].
  cbn [deepEntriesOfFields]. f_equal; f_equal; try apply IH.
Qed.

Lemma includes_digits_false (s w : string) c :
  forallb isDigit (list_ascii_of_string s) = true ->
  isDigit c = false ->
  JsString.includes s (String c w) = false.
Proof.
  intros Hs Hc. induction s as [| d s IH]; [reflexivity |].
  cbn [list_ascii_of_string forallb] in Hs. apply andb_true_iff in Hs as [Hd Hs].
  cbn [JsString.includes String.prefix]. rewrite (IH Hs).
  destruct (ascii_dec c d) as [-> | _]; [congruence | reflexivity].
Qed.

Lemma toLowerCase_digits s :
  forallb isDigit (list_ascii_of_string s) = true -> FileUtils.toLowerCase s = s.
Proof.
  induction s as [| d s IH]; [reflexivity |]. cbn [list_ascii_of_string forallb].
  intros H. apply andb_true_iff in H as [Hd Hs]. cbn [FileUtils.toLowerCase].
  rewrite (IH Hs). f_equal.
  destruct d as [[] [] [] [] [] [] [] []]; vm_compute in Hd |- *; congruence.
Qed.

Lemma index_key_not_sensitive (i : nat) : Log.isSensitiveKey (pretty i) = false.
Proof.
  unfold Log.isSensitiveKey. rewrite toLowerCase_digits by apply pretty_nat_digits.
  unfold Log.sensitiveKeys. cbn [existsb].
  repeat (rewrite includes_digits_false; [| apply pretty_nat_digits | reflexivity]).
  reflexivity.
Qed.

(** X24.  In what [redactSensitive] returns, every entry whose key is
    sensitive has the value "[REDACTED]", at any depth, below objects
    and below arrays. *)
Theorem sensitive_keys_are_redacted_at_every_depth (v : Json) (k : string) (x : Json) :
  In (k, x) (deepEntries (Log.redactSensitive v)) ->
  Log.isSensitiveKey k = true ->
  x = JStr "[REDACTED]".
Proof.
  revert k x. induction v as [| b | n | s | items IH | fields IH | negative]
    using Json_nested_ind; intros k x; try (intros []).
  - rewrite redactSensitive_arr, deepEntries_obj. generalize 0%nat.
    induction IH as [| v items Hv _ IHitems]; intros i; [intros [] |].
    cbn [redactItems deepEntriesOfFields]. intros [Heq | Hin] Hk.
    + injection Heq as <- _. rewrite index_key_not_sensitive in Hk. discriminate Hk.
    + apply in_app_or in Hin as [Hin | Hin]; [apply (Hv k x Hin Hk) |].
      apply (IHitems (S i) Hin Hk).
  - rewrite redactSensitive_obj, deepEntries_obj.
    induction IH as [| [k0 v0] fields Hv _ IHfields]; [intros [] |].
    rewrite filter_assignable_cons. destruct (String.eqb k0 "__proto__");
      [exact IHfields |].
    cbn [map redactField fst snd deepEntriesOfFields]. intros [Heq | Hin] Hk.
    + injection Heq as <- <-. rewrite Hk. reflexivity.
    + apply in_app_or in Hin as [Hin | Hin]; [| apply (IHfields Hin Hk)].
      destruct (Log.isSensitiveKey k0); [destruct Hin |]. apply (Hv k x Hin Hk).
Qed.

Lemma lookupField_redact k fields :
  k <> "__proto__" ->
  Js.lookupField k (map redactField (List.filter assignable fields)) =
    (fun v => if Log.isSensitiveKey k then JStr "[REDACTED]" else Log.redactSensitive v)
      <$> Js.lookupField k fields.
Proof.
  intros Hk. induction fields as [| [k0 v0] fields IH]; [reflexivity |].
  rewrite filter_assignable_cons. cbn [Js.lookupField].
  destruct (String.eqb_spec k0 "__proto__") as [-> | Hk0].
  - rewrite IH. destruct (Js.lookupField k fields); [reflexivity |].
    destruct (String.eqb_spec k "__proto__"); [contradiction | reflexivity].
  - cbn [map redactField fst snd Js.lookupField]. rewrite IH.
    destruct (Js.lookupField k fields); [reflexivity |]. cbn.
    destruct (String.eqb_spec k k0) as [-> | _]; reflexivity.
Qed.

Lemma lookupField_proto_redact fields :
  Js.lookupField "__proto__" (map redactField (List.filter assignable fields)) = None.
Proof.
  induction fields as [| [k0 v0] fields IH]; [reflexivity |].
  rewrite filter_assignable_cons.
  destruct (String.eqb_spec k0 "__proto__") as [-> | Hk0]; [exact IH |].
  cbn [map redactField fst snd Js.lookupField]. rewrite IH.
  destruct (String.eqb_spec "__proto__" k0) as [E | _]; [| reflexivity].
  contradiction Hk0. symmetry. exact E.
Qed.

Lemma map_fst_redact fields :
  map fst (map redactField (List.filter assignable fields)) =
    List.filter (fun k => negb (String.eqb k "__proto__")) (map fst fields).
Proof.
  induction fields as [| [k0 v0] fields IH]; [reflexivity |].
  rewrite filter_assignable_cons. cbn [List.filter map fst].
  destruct (String.eqb k0 "__proto__"); cbn [negb]; [exact IH |].
  cbn [map redactField fst]. rewrite IH. reflexivity.
Qed.

(** X25.  [redactSensitive] keeps the keys of an object, in their
    order, but for the key [__proto__], of which the result has no
    property of its own: any other key is a key of the result exactly
    when it was one of the object, with "[REDACTED]" when the key is
    sensitive and the redacted value otherwise; a value that is neither
    an object nor an array, under a key that is not sensitive, is
    unchanged. *)
Theorem redaction_keeps_keys_and_plain_values (fields : list (string * Json)) (k : string) :
  exists fields',
    Log.redactSensitive (JObj fields) = JObj fields'
    /\ map fst fields' =
         List.filter (fun k => negb (String.eqb k "__proto__")) (map fst fields)
    /\ Js.lookupField "__proto__" fields' = None
    /\ (k <> "__proto__" ->
        Js.lookupField k fields' =
          (fun v => if Log.isSensitiveKey k then JStr "[REDACTED]"
                    else Log.redactSensitive v)
            <$> Js.lookupField k fields)
    /\ (forall v, k <> "__proto__" -> Js.lookupField k fields = Some v ->
          Log.isSensitiveKey k = false ->
          (forall items, v <> JArr items) -> (forall fs, v <> JObj fs) ->
          Js.lookupField k fields' = Some v).
Proof.
  eexists. split; [apply redactSensitive_obj |].
  split; [apply map_fst_redact |].
  split; [apply lookupField_proto_redact |].
  split; [apply lookupField_redact |].
  intros v Hp Hv Hk Harr Hobj. rewrite (lookupField_redact k fields Hp), Hv.
  cbn [fmap option_fmap option_map]. rewrite Hk.
  destruct v; try reflexivity; [contradiction (Harr items) | contradiction (Hobj fields0)];
    reflexivity.
Qed.

Lemma includes_first_char s c w :
  JsString.includes s (String c w) = true -> In c (list_ascii_of_string s).
Proof.
  induction s as [| d s IH]; [discriminate |].
  cbn [JsString.includes String.prefix list_ascii_of_string In].
  destruct (ascii_dec c d) as [-> | _]; [intros _; left; reflexivity |].
  cbn [orb]. intros H. right. apply IH, H.
Qed.

Lemma toLowerChar_not_upper_K c : FileUtils.toLowerChar c <> "K"%char.
Proof.
  destruct c as [[] [] [] [] [] [] [] []]; vm_compute; discriminate.
Qed.

Lemma toLowerCase_has_no_upper_K s :
  ~ In "K"%char (list_ascii_of_string (FileUtils.toLowerCase s)).
Proof.
  induction s as [| c s IH]; [intros [] |].
  cbn [FileUtils.toLowerCase list_ascii_of_string In]. intros [H | H]; [| exact (IH H)].
  exact (toLowerChar_not_upper_K c H).
Qed.

Lemma includes_suffix_char s w1 c w2 :
  JsString.includes s (w1 +:+ String c w2) = true -> In c (list_ascii_of_string s).
Proof.
  revert s. induction w1 as [| d w1 IH]; intros s; [apply includes_first_char |].
  change (String d w1 +:+ String c w2) with (String d (w1 +:+ String c w2)).
  induction s as [| e s IHs]; [discriminate |].
  cbn [JsString.includes String.prefix list_ascii_of_string In].
  intros H. apply orb_true_iff in H as [H | H]; [| right; apply IHs, H].
  destruct (ascii_dec d e) as [_ | _]; [| discriminate]. right.
  apply IH. destruct s as [| f s]; cbn [JsString.includes]; rewrite H; reflexivity.
Qed.

(** X26.  A key is sensitive exactly when its lower-case form contains
    one of [key], [secret], [password], [token], [authorization]: the
    entry [apiKey] of the list, compared with a lower-case string, never
    matches by itself.  The test does not depend on the case of the
    key. *)
Theorem sensitive_key_test_ignores_case_and_its_apiKey_entry (k : string) :
  Log.isSensitiveKey k =
    existsb (JsString.includes (FileUtils.toLowerCase k))
      ["key"; "secret"; "password"; "token"; "authorization"]
  /\ Log.isSensitiveKey (FileUtils.toLowerCase k) = Log.isSensitiveKey k.
Proof.
  split.
  - unfold Log.isSensitiveKey, Log.sensitiveKeys. cbn [existsb].
    destruct (JsString.includes (FileUtils.toLowerCase k) "apiKey") eqn:H; [| reflexivity].
    exfalso. apply (toLowerCase_has_no_upper_K k).
    apply (includes_suffix_char _ "api" "K" "ey"). exact H.
  - unfold Log.isSensitiveKey. rewrite toLowerCase_idempotent. reflexivity.
Qed.

(** X27.  The logger emits an entry exactly when the priority of its
    level is at least the one the logger is set to, so what is emitted
    at a level is emitted at every higher one, and a silent logger emits
    nothing at the levels of its four methods; an emitted entry carries
    the sanitized data, the given context or else the prefix, and goes
    to the handler when one is installed, to the console otherwise. *)
Theorem log_levels_are_a_threshold (l : Logger) timestamp level message data context :
  (Log.log l timestamp level message data context <> None
   <-> LEVEL_PRIORITY (lg_level l) <= LEVEL_PRIORITY level)
  /\ (forall level',
        Log.log l timestamp level message data context <> None ->
        LEVEL_PRIORITY level <= LEVEL_PRIORITY level' ->
        Log.log l timestamp level' message data context <> None)
  /\ (lg_level l = LevelSilent -> level <> LevelSilent ->
      Log.log l timestamp level message data context = None)
  /\ (forall sink entry,
        Log.log l timestamp level message data context = Some (sink, entry) ->
        entry_data entry = Log.sanitizeData data
        /\ entry_context entry = default (lg_prefix l) context
        /\ sink = (if lg_handler l then ToHandler else ToConsole)).
Proof.
  unfold Log.log, Log.shouldLog.
  split; [| split; [| split]].
  - destruct (Z.leb_spec (LEVEL_PRIORITY (lg_level l)) (LEVEL_PRIORITY level)); cbn [negb].
    + split; [intros _; assumption | discriminate].
    + split; [intros Hc; contradiction Hc; reflexivity | lia].
  - intros level'.
    destruct (Z.leb_spec (LEVEL_PRIORITY (lg_level l)) (LEVEL_PRIORITY level)); cbn [negb].
    + intros _ Hle.
      destruct (Z.leb_spec (LEVEL_PRIORITY (lg_level l)) (LEVEL_PRIORITY level'));
        [discriminate | lia].
    + intros Hc. contradiction Hc. reflexivity.
  - intros -> Hl. destruct level; try reflexivity. contradiction Hl. reflexivity.
  - intros sink entry.
    destruct (LEVEL_PRIORITY (lg_level l) <=? LEVEL_PRIORITY level); cbn [negb];
      [| discriminate].
    intros [= <- <-]. repeat split.
Qed.

(** X28.  The warning of the client for an insecure endpoint is emitted
    when the logger is set to [warn] or lower, as it is from the start,
    on the console then; its data is the URL without its query string,
    which redaction leaves as it is; a logger configured to [error] or
    [silent] does not emit it. *)
Theorem insecure_endpoint_warning_shows_the_url (l : Logger) timestamp (url : string) :
  emitWarning l timestamp (warningFor url) =
    (if LEVEL_PRIORITY (lg_level l) <=? 2
     then Some (if lg_handler l then ToHandler else ToConsole,
                mkLogEntry LevelWarn "Using insecure HTTP connection" timestamp "security"
                  (Some (JObj [("url", JStr (JsString.beforeFirst "?" url))])))
     else None)
  /\ emitWarning Log.initial timestamp (warningFor url) =
       Some (ToConsole,
             mkLogEntry LevelWarn "Using insecure HTTP connection" timestamp "security"
               (Some (JObj [("url", JStr (JsString.beforeFirst "?" url))])))
  /\ (forall config,
        lc_level config = Some LevelError \/ lc_level config = Some LevelSilent ->
        emitWarning (Log.configure config l) timestamp (warningFor url) = None).
Proof.
  unfold emitWarning, warningFor, Log.log, Log.shouldLog.
  cbn [warn_message warn_url warn_context LEVEL_PRIORITY].
  split; [destruct (LEVEL_PRIORITY (lg_level l) <=? 2); reflexivity |].
  split; [reflexivity |].
  intros config [H | H]; unfold Log.configure; cbn [lg_level]; rewrite H; reflexivity.
Qed.


(** * The further properties at concrete inputs *)

(** X1 at a service that answers 204 after 50 ms. *)
Lemma no_content_resolves_to_undefined_witness :
  status noContent = 204
  /\ 50 <= timerDelay (default 30000 (timeout plainGet))
  /\ request sampleConstants 30000 noContentNet plainGet world0 =
       (mkWorld 50 [(0, EvSetTimeout 30000); (0, EvFetch 1); (50, EvClearTimeout)],
        Some (Ok VUndefined)).
Proof.
  assert (50 <= timerDelay (default 30000 (timeout plainGet))) as Hl
    by (vm_compute; discriminate).
  split; [reflexivity |]. split; [exact Hl |].
  exact (no_content_resolves_to_undefined sampleConstants 30000 noContentNet plainGet world0
           50 noContent eq_refl eq_refl Hl eq_refl).
Defined.

(** X2 at a service that answers 404 after 50 ms, with a JSON body
    that takes 5 ms to read. *)
Lemma non_retryable_status_is_not_retried_witness :
  ~ In (status notFound) RETRY.RETRYABLE_STATUS
  /\ 50 <= timerDelay (default 30000 (timeout plainGet))
  /\ request sampleConstants 30000 notFoundNet plainGet world0 =
       (mkWorld 55
          [(0, EvSetTimeout 30000); (0, EvFetch 1); (50, EvReadBody BodyJson);
           (50, EvClearTimeout); (55, EvBodySettled BodyJson)],
        Some (handleResponse sampleConstants notFound)).
Proof.
  assert (~ In (status notFound) RETRY.RETRYABLE_STATUS) as Hn
    by (cbn; intros H; repeat destruct H as [H | H]; try discriminate H; exact H).
  assert (50 <= timerDelay (default 30000 (timeout plainGet))) as Hl
    by (vm_compute; discriminate).
  split; [exact Hn |]. split; [exact Hl |].
  exact (proj1 (non_retryable_status_is_not_retried sampleConstants 30000 notFoundNet
                  plainGet world0 50 notFound eq_refl eq_refl Hl Hn)).
Defined.

(** X3 at a service that answers 503, then 404. *)
Lemma retry_stops_at_first_final_response_witness :
  In (status unavailable) RETRY.RETRYABLE_STATUS
  /\ ~ In (status notFound) RETRY.RETRYABLE_STATUS
  /\ 100 + 1000 + 100 <= timerDelay (default 30000 (timeout plainGet))
  /\ request sampleConstants 30000 recoveringNet plainGet world0 =
       (mkWorld 1205
          [(0, EvSetTimeout 30000); (0, EvFetch 1); (100, EvSleep 1000);
           (1100, EvFetch 2); (1200, EvReadBody BodyJson); (1200, EvClearTimeout);
           (1205, EvBodySettled BodyJson)],
        Some (handleResponse sampleConstants notFound)).
Proof.
  assert (In (status unavailable) RETRY.RETRYABLE_STATUS) as Hin
    by (do 4 right; left; reflexivity).
  assert (~ In (status notFound) RETRY.RETRYABLE_STATUS) as Hn
    by (cbn; intros H; repeat destruct H as [H | H]; try discriminate H; exact H).
  assert (100 + 1000 + 100 <= timerDelay (default 30000 (timeout plainGet))) as Hl
    by (vm_compute; discriminate).
  split; [exact Hin |]. split; [exact Hn |]. split; [exact Hl |].
  exact (retry_stops_at_first_final_response sampleConstants 30000 recoveringNet plainGet
           world0 100 100 unavailable notFound eq_refl eq_refl eq_refl Hin Hn
           ltac:(lia) ltac:(lia) Hl).
Defined.

(** X4 at a host that cannot be reached. *)
Lemma retryable_failures_exhaust_the_attempts_witness :
  isRetryableError fetchFailed = true
  /\ 10 + 1000 + 10 + 2000 + 10 <= timerDelay (default 30000 (timeout plainGet))
  /\ request sampleConstants 30000 offlineNet plainGet world0 =
       (mkWorld 3030
          [(0, EvSetTimeout 30000); (0, EvFetch 1); (10, EvSleep 1000);
           (1010, EvFetch 2); (1020, EvSleep 2000); (3020, EvFetch 3);
           (3030, EvClearTimeout)],
        Some (Err (ThrowNeurana
                     (NetworkError sampleConstants (Some "Failed to connect to server"))))).
Proof.
  assert (10 + 1000 + 10 + 2000 + 10 <= timerDelay (default 30000 (timeout plainGet)))
    as Hl by (vm_compute; discriminate).
  split; [reflexivity |]. split; [exact Hl |].
  exact (retryable_failures_exhaust_the_attempts sampleConstants 30000 offlineNet plainGet
           world0 10 10 10 fetchFailed fetchFailed fetchFailed eq_refl eq_refl eq_refl eq_refl
           eq_refl eq_refl ltac:(lia) ltac:(lia) ltac:(lia) Hl).
Defined.

(** X5 at the second and the seventh attempt. *)
Lemma backoff_delay_is_bounded_and_monotone_witness :
  1000 <= calculateDelay 2 /\ calculateDelay 2 <= calculateDelay 7
  /\ calculateDelay 7 <= 30000.
Proof.
  destruct (backoff_delay_is_bounded_and_monotone 2 7 ltac:(lia) ltac:(lia))
    as (H1 & H2 & H3 & _).
  split; [exact H1 |]. split; [exact H2 | exact H3].
Defined.

(** X6 at a 404 response. *)
Lemma error_carries_response_status_unless_400_witness :
  status notFound <> 400
  /\ exists e,
       createHttpError sampleConstants notFound None = Ok e /\ statusCode e = Some 404.
Proof.
  assert (status notFound <> 400) as Hn by discriminate.
  split; [exact Hn |].
  pose proof (proj2 (error_carries_response_status_unless_400 sampleConstants notFound None
                       Hn)) as H.
  eexists. split; [reflexivity | exact H].
Defined.

(** X7 at a 404 response, with and without a body. *)
Lemma typed_errors_ignore_the_body_code_witness :
  kindOfStatus (status notFound) <> NeuranaErrorClass
  /\ code (errorOfStatus sampleConstants notFound (JStr "E_CUSTOM") "gone" None)
     = code (errorOfStatus sampleConstants notFound (JStr "UNKNOWN_ERROR") "" None).
Proof.
  assert (kindOfStatus (status notFound) <> NeuranaErrorClass) as Hn by discriminate.
  split; [exact Hn |].
  exact (proj1 (proj1 (typed_errors_ignore_the_body_code sampleConstants notFound None None
                         Hn)
                  (JStr "E_CUSTOM") "gone" None (JStr "UNKNOWN_ERROR") "" None)).
Defined.

(** X10 at the id of a workflow. *)
Lemma accepted_id_is_one_path_segment_witness :
  validateId sampleConstants "wf_123" "id" = Ok tt
  /\ (String.length "wf_123" <= 64)%nat
  /\ forall c, In c (list_ascii_of_string "wf_123") -> c <> "/"%char.
Proof.
  split; [reflexivity |].
  destruct (accepted_id_is_one_path_segment sampleConstants "wf_123" "id" eq_refl)
    as (_ & Hlen & Hall).
  split; [exact Hlen |]. intros c Hin. exact (proj1 (proj2 (Hall c Hin))).
Defined.

(** X12 at a workflow with an HTTP step and a python code step. *)
Lemma uploads_follow_the_code_steps_witness :
  processSteps sampleConstants sampleUploader [httpStep; validCodeStep] [] =
    ([EvUpload (mkUpload (JStr "step_2.py") "print('Hello World')" "python")],
     Ok [httpStep; uploadedCodeStep])
  /\ [EvUpload (mkUpload (JStr "step_2.py") "print('Hello World')" "python")]
     = map EvUpload (expectedUploads 0 [httpStep; validCodeStep]).
Proof.
  assert (processSteps sampleConstants sampleUploader [httpStep; validCodeStep] [] =
            ([EvUpload (mkUpload (JStr "step_2.py") "print('Hello World')" "python")],
             Ok [httpStep; uploadedCodeStep])) as H by (vm_compute; reflexivity).
  split; [exact H |].
  exact (proj1 (uploads_follow_the_code_steps sampleConstants sampleUploader
                  [httpStep; validCodeStep] _ _ H)).
Defined.


(** X15 at an insecure endpoint that is allowed. *)
Lemma constructor_checks_every_endpoint_witness :
  exists client,
    newNeuranaClient sampleConstants insecureAllowedConfig [] =
      ([mkWarning "Using insecure HTTP connection" "http://api.example.com/v1/" "security"],
       Ok client)
    /\ [mkWarning "Using insecure HTTP connection" "http://api.example.com/v1/" "security"]
       = [] ++ map warningFor (List.filter insecureUrl (configuredUrls insecureAllowedConfig)).
Proof.
  eexists.
  assert (newNeuranaClient sampleConstants insecureAllowedConfig [] =
            ([mkWarning "Using insecure HTTP connection" "http://api.example.com/v1/"
                "security"], Ok _)) as H by (vm_compute; reflexivity).
  split; [exact H |].
  exact (proj1 (proj2 (constructor_checks_every_endpoint sampleConstants
                         insecureAllowedConfig [] _ _ H))).
Defined.

(** X16 at the same endpoint when it is not allowed. *)
Lemma throwing_constructor_logs_nothing_witness :
  newNeuranaClient sampleConstants insecureRefusedConfig [] =
    ([], Err (ThrowNeurana
                (ConfigurationError sampleConstants
                   (Some "HTTPS is required for non-localhost endpoints"))))
  /\ @nil Warning = [].
Proof.
  assert (newNeuranaClient sampleConstants insecureRefusedConfig [] =
            ([], Err (ThrowNeurana
                        (ConfigurationError sampleConstants
                           (Some "HTTPS is required for non-localhost endpoints")))))
    as H by (vm_compute; reflexivity).
  split; [exact H |].
  exact (proj1 (throwing_constructor_logs_nothing sampleConstants insecureRefusedConfig
                  [] _ _ H)).
Defined.

(** X17 at the allowed insecure endpoint: the trailing slash is dropped. *)
Lemma constructed_client_keeps_key_and_normalises_urls_witness :
  exists ws' client,
    newNeuranaClient sampleConstants insecureAllowedConfig [] = (ws', Ok client)
    /\ exists key,
         apiKey insecureAllowedConfig = Some (JStr key)
         /\ http_apiKey (workflowsHttp client) = key.
Proof.
  eexists _, _.
  assert (newNeuranaClient sampleConstants insecureAllowedConfig [] = (_, Ok _)) as H
    by (vm_compute; reflexivity).
  split; [exact H |].
  destruct (constructed_client_keeps_key_and_normalises_urls sampleConstants
              insecureAllowedConfig [] _ _ H) as (key & Hk & _ & _ & Ha & _).
  exists key. split; [exact Hk | exact Ha].
Defined.

(** X18 at a file name with spaces around it. *)
Lemma accepted_file_name_is_safe_witness :
  FileUtils.validateFileName sampleConstants (Some (JStr "  handler.ts  ")) = Ok "handler.ts"
  /\ FileUtils.SAFE_FILENAME_PATTERN_test "handler.ts" = true
  /\ FileUtils.validateFileName sampleConstants (Some (JStr "handler.ts")) = Ok "handler.ts".
Proof.
  assert (FileUtils.validateFileName sampleConstants (Some (JStr "  handler.ts  "))
          = Ok "handler.ts") as H by (vm_compute; reflexivity).
  split; [exact H |].
  destruct (accepted_file_name_is_safe sampleConstants _ _ H)
    as (_ & _ & Hp & _ & _ & _ & _ & Hv).
  split; [exact Hp | exact Hv].
Defined.

(** X19 at a key with a directory. *)
Lemma accepted_file_key_has_no_traversal_witness :
  FileUtils.validateFileKey sampleConstants (Some (JStr "code/user/handler.ts"))
  = Ok "code/user/handler.ts"
  /\ JsString.includes "code/user/handler.ts" ".." = false
  /\ JsString.startsWith "code/user/handler.ts" "/" = false.
Proof.
  assert (FileUtils.validateFileKey sampleConstants (Some (JStr "code/user/handler.ts"))
          = Ok "code/user/handler.ts") as H by (vm_compute; reflexivity).
  split; [exact H |].
  destruct (accepted_file_key_has_no_traversal sampleConstants _ _ H)
    as (_ & _ & _ & Hd & Hs & _).
  split; [exact Hd | exact Hs].
Defined.

(** X21 at the second step of a workflow, a python step. *)
Lemma default_step_file_names_pass_validation_witness :
  (N.of_nat (1 + 1) < 10 ^ 10)%N
  /\ defaultFileName 1 validCodeStep = "step_2.py"
  /\ FileUtils.validateFileName sampleConstants (Some (JStr (defaultFileName 1 validCodeStep)))
     = Ok (defaultFileName 1 validCodeStep).
Proof.
  assert (N.of_nat (1 + 1) < 10 ^ 10)%N as Hi by (vm_compute; reflexivity).
  split; [exact Hi |]. split; [vm_compute; reflexivity |].
  exact (proj1 (default_step_file_names_pass_validation sampleConstants 1 validCodeStep Hi)).
Defined.

(** X22 at the upload of a TypeScript file without a language. *)
Lemma upload_posts_only_what_it_validated_witness :
  upload sampleConstants sampleFileConstants sampleCodeHttp
    (mkUploadRequest (Some (JStr " handler.ts ")) "export default 1" None) []
  = ([mkUploadBody "handler.ts" "export default 1" "typescript"],
     Ok (mkUploadResponse "code/handler.ts" "handler.ts"))
  /\ (([mkUploadBody "handler.ts" "export default 1" "typescript"] = []
       /\ exists m, Ok (mkUploadResponse "code/handler.ts" "handler.ts")
                    = FileUtils.invalid sampleConstants m)
      \/ exists body,
           [mkUploadBody "handler.ts" "export default 1" "typescript"] = [] ++ [body]
           /\ FileUtils.isAllowedExtension sampleFileConstants (body_fileName body) = true).
Proof.
  assert (upload sampleConstants sampleFileConstants sampleCodeHttp
            (mkUploadRequest (Some (JStr " handler.ts ")) "export default 1" None) []
          = ([mkUploadBody "handler.ts" "export default 1" "typescript"],
             Ok (mkUploadResponse "code/handler.ts" "handler.ts"))) as H
    by (vm_compute; reflexivity).
  split; [exact H |].
  destruct (upload_posts_only_what_it_validated sampleConstants sampleFileConstants
              sampleCodeHttp _ _ _ _ H)
    as [(H1 & H2) | (body & H1 & _ & _ & H2 & _)].
  - left. split; [exact H1 | exact H2].
  - right. exists body. split; [exact H1 | exact H2].
Defined.

(** X23 at the second step of a workflow, a python step. *)
Lemma default_named_code_step_reaches_the_service_witness :
  FileUtils.isAllowedExtension sampleFileConstants (defaultFileName 1 validCodeStep) = true
  /\ clientUploader sampleConstants sampleFileConstants sampleCodeHttp []
       (mkUpload (JStr (defaultFileName 1 validCodeStep)) "print('Hello World')" "python")
     = Ok "code/step_2.py".
Proof.
  assert (FileUtils.isAllowedExtension sampleFileConstants (defaultFileName 1 validCodeStep)
          = true) as Ha by (vm_compute; reflexivity).
  split; [exact Ha |].
  exact (default_named_code_step_reaches_the_service sampleConstants sampleFileConstants
           sampleCodeHttp [] 1 validCodeStep "print('Hello World')"
           ltac:(vm_compute; reflexivity) ltac:(discriminate)
           ltac:(vm_compute; discriminate) Ha).
Defined.

(** X24 at data with credentials at two depths and in an array. *)
Lemma sensitive_keys_are_redacted_at_every_depth_witness :
  In ("Authorization", JStr "[REDACTED]") (deepEntries (Log.redactSensitive sampleLogData))
  /\ Log.isSensitiveKey "Authorization" = true
  /\ JStr "[REDACTED]" = JStr "[REDACTED]".
Proof.
  assert (In ("Authorization", JStr "[REDACTED]")
            (deepEntries (Log.redactSensitive sampleLogData))) as Hin
    by (vm_compute; do 3 right; left; reflexivity).
  assert (Log.isSensitiveKey "Authorization" = true) as Hk by (vm_compute; reflexivity).
  split; [exact Hin |]. split; [exact Hk |].
  exact (sensitive_keys_are_redacted_at_every_depth sampleLogData "Authorization"
           (JStr "[REDACTED]") Hin Hk).
Defined.
